(** * FoodVision Mini: freeze policy, parameter groups and the training loop

A shallow embedding of [src/models.py] and [src/train.py] (with the parts
of [src/config.py] and [src/data.py] they call), and the properties of
the freeze policy, the discriminative learning-rate groups, the epoch
aggregates and the checkpoint / early-stopping controller; then of the
loaders, the configuration dictionaries and the helpers of
[src/utils.py]. *)

From Stdlib Require Import ZArith QArith Lia.
From stdpp Require Import base option list gmap sets strings.

Local Open Scope Z_scope.

(** ** Python values shared by both modules *)

(** The exceptions the embedded code can raise. *)
Inductive exn :=
  | IndexError (idx : Z)
  | ZeroDivisionError
  | NameError (var : string)
  | ValueError (msg : string)
  | FileNotFoundError (path : string)
  | OSError (path : string).

(** The outcome of a call: a value, or a raised exception. *)
Inductive result (A : Type) :=
  | Ok (a : A)
  | Raise (e : exn).
Arguments Ok {A} a.
Arguments Raise {A} e.

(** Whether a call returned, and the value it returned ([d] when it raised). *)
Definition returned {A} (r : result A) : bool :=
  match r with
  | Ok _ => true
  | Raise _ => false
  end.

Definition value {A} (d : A) (r : result A) : A :=
  match r with
  | Ok a => a
  | Raise _ => d
  end.

(** [range(a, b)]. *)
Definition range (a b : Z) : list Z := seqZ a (b - a).

(** [seq[idx]] on a sequence ([list], [nn.Sequential]): indices in
    [-len, len) are accepted, negative ones count from the end, anything
    else raises [IndexError]. *)
Definition getitem {A} (l : list A) (idx : Z) : result A :=
  let size := Z.of_nat (length l) in
  if bool_decide (- size ≤ idx < size)
  then match l !! Z.to_nat (idx `mod` size) with
       | Some x => Ok x
       | None => Raise (IndexError idx)
       end
  else Raise (IndexError idx).

(** ** models.py *)

Module models.

(** A parameter tensor is known by its identity; [requires_grad] is an
    attribute of the tensor object, so a tensor reachable from two modules
    has one flag. *)
Definition Param := positive.

(** [torchvision]'s EfficientNet: [features] is an [nn.Sequential] of blocks,
    [classifier] the head.  A block is given by what its [parameters()]
    yields, in order. *)
Record Backbone := {
  features : list (list Param);
  classifier : list Param
}.

(** [FoodVisionModel]: the network, the set of tensors whose
    [requires_grad] is [True], and the [_frozen] attribute. *)
Record FoodVisionModel := {
  backbone : Backbone;
  grad : gset Param;
  _frozen : bool
}.

Definition requires_grad (m : FoodVisionModel) (p : Param) : bool :=
  bool_decide (p ∈ grad m).

(** [param.requires_grad = b] *)
Definition set_requires_grad (b : bool) (g : gset Param) (p : Param) : gset Param :=
  if b then g ∪ {[p]} else g ∖ {[p]}.

(** [for param in ps: param.requires_grad = b] *)
Definition set_all (b : bool) (g : gset Param) (ps : list Param) : gset Param :=
  foldl (set_requires_grad b) g ps.

(** [nn.Sequential.parameters()]: every tensor of every block, once. *)
Definition parameters (blocks : list (list Param)) : list Param :=
  remove_dups (mjoin blocks).

Definition freeze_backbone (m : FoodVisionModel) : FoodVisionModel :=
  {| backbone := backbone m;
     grad := set_all false (grad m) (parameters (features (backbone m)));
     _frozen := true |}.

Definition unfreeze_backbone (m : FoodVisionModel) : FoodVisionModel :=
  {| backbone := backbone m;
     grad := set_all true (grad m) (parameters (features (backbone m)));
     _frozen := false |}.

(** The loop [for i in range(...): for param in features[i].parameters():
    param.requires_grad = True]; it stops at the first index that
    [features[i]] rejects, keeping what it has done so far. *)
Fixpoint unfreeze_blocks (feats : list (list Param)) (idxs : list Z)
    (g : gset Param) : gset Param * result unit :=
  match idxs with
  | [] => (g, Ok ())
  | i :: rest =>
      match getitem feats i with
      | Raise e => (g, Raise e)
      | Ok blk => unfreeze_blocks feats rest (set_all true g blk)
      end
  end.

(** [unfreeze_last_blocks(num_blocks)]: the model after the call and
    whether the call returned or raised. *)
Definition unfreeze_last_blocks (num_blocks : Z) (m : FoodVisionModel)
    : FoodVisionModel * result unit :=
  let m1 := freeze_backbone m in
  let total_blocks := Z.of_nat (length (features (backbone m1))) in
  let '(g, r) := unfreeze_blocks (features (backbone m1))
                   (range (total_blocks - num_blocks) total_blocks) (grad m1) in
  ({| backbone := backbone m1; grad := g; _frozen := _frozen m1 |}, r).

(** [__init__]: a fresh network has every tensor trainable; the backbone is
    frozen on request, and [_frozen] records the request. *)
Definition init (bb : Backbone) (freeze : bool) : FoodVisionModel :=
  let m0 := {| backbone := bb;
               grad := list_to_set (mjoin (features bb) ++ classifier bb);
               _frozen := false |} in
  let m1 := if freeze then freeze_backbone m0 else m0 in
  {| backbone := backbone m1; grad := grad m1; _frozen := freeze |}.

(** The calls of the freeze policy, and the model a call leaves behind,
    whether it returned or raised. *)
Inductive call :=
  | Freeze
  | Unfreeze
  | UnfreezeLast (num_blocks : Z).

Definition run_call (m : FoodVisionModel) (c : call) : FoodVisionModel :=
  match c with
  | Freeze => freeze_backbone m
  | Unfreeze => unfreeze_backbone m
  | UnfreezeLast n => (unfreeze_last_blocks n m).1
  end.

(** Every tensor sits in exactly one block or in the head. *)
Definition well_formed (bb : Backbone) : Prop :=
  NoDup (mjoin (features bb) ++ classifier bb).

(** The tensors of [ps] that are trainable, in order. *)
Definition trainable_of (m : FoodVisionModel) (ps : list Param) : list Param :=
  filter (λ p, requires_grad m p = true) ps.

Section Groups.
  Context {F : Type}.

(** One entry of the optimizer's parameter-group list. *)
Record ParamGroup := {
  params : list Param;
  lr : F;
  name : string
}.

(** [for param in blk: if param.requires_grad: acc.append(param)] *)
Definition append_trainable (m : FoodVisionModel) (acc blk : list Param) : list Param :=
  foldl (λ acc p, if requires_grad m p then acc ++ [p] else acc) acc blk.

(** [for i in range(...): for param in features[i].parameters(): ...] *)
Fixpoint collect (m : FoodVisionModel) (idxs : list Z) (acc : list Param)
    : result (list Param) :=
  match idxs with
  | [] => Ok acc
  | i :: rest =>
      match getitem (features (backbone m)) i with
      | Raise e => Raise e
      | Ok blk => collect m rest (append_trainable m acc blk)
      end
  end.

(** [if ps: param_groups.append({...})] *)
Definition append_group (ps : list Param) (rate : F) (nm : string)
    (param_groups : list ParamGroup) : list ParamGroup :=
  match ps with
  | [] => param_groups
  | _ => param_groups ++ [{| params := ps; lr := rate; name := nm |}]
  end.

Definition get_parameter_groups (m : FoodVisionModel)
    (lr_classifier lr_last_blocks lr_mid_layers : F) : result (list ParamGroup) :=
  let total_blocks := Z.of_nat (length (features (backbone m))) in
  let last_block_start := total_blocks - 2 in
  let param_groups := [] in
  match collect m (range 0 last_block_start) [] with
  | Raise e => Raise e
  | Ok mid_params =>
      let param_groups := append_group mid_params lr_mid_layers "mid_layers" param_groups in
      match collect m (range last_block_start total_blocks) [] with
      | Raise e => Raise e
      | Ok last_block_params =>
          let param_groups :=
            append_group last_block_params lr_last_blocks "last_blocks" param_groups in
          let classifier_params :=
            filter (λ p, requires_grad m p = true) (classifier (backbone m)) in
          Ok (append_group classifier_params lr_classifier "classifier" param_groups)
      end
  end.

(** The groups as the design words them: the trainable tensors of the
    blocks before the last two, of the last two blocks, and of the head,
    with the empty groups left out. *)
Definition groups_by_design (m : FoodVisionModel)
    (lr_classifier lr_last_blocks lr_mid_layers : F) : list ParamGroup :=
  let blocks := features (backbone m) in
  let k := (length blocks - 2)%nat in
  filter (λ g, params g ≠ [])
    [ {| params := trainable_of m (mjoin (take k blocks));
         lr := lr_mid_layers; name := "mid_layers" |};
      {| params := trainable_of m (mjoin (drop k blocks));
         lr := lr_last_blocks; name := "last_blocks" |};
      {| params := trainable_of m (classifier (backbone m));
         lr := lr_classifier; name := "classifier" |} ].
End Groups.
Arguments ParamGroup : clear implicits.

End models.

(** ** Numbers

Python floats, through the operations the code and [torch.max] use on
them; [isnan] tells the NaNs, on which every comparison is false.
Nothing below depends on how they round. *)
Class Number (F : Type) := {
  of_Z : Z → F;
  add : F → F → F;
  sub : F → F → F;
  mul : F → F → F;
  div : F → F → F;
  gt : F → F → bool;
  isnan : F → bool;
  trunc : F → Z
}.

(** [x / n] for an [int] divisor. *)
Definition pydiv `{Number F} (x : F) (n : Z) : result F :=
  if bool_decide (n = 0) then Raise ZeroDivisionError else Ok (div x (of_Z n)).

(** [str.replace(old, new)] for a non-empty [old]: [skip] characters of a
    match just replaced are still to be dropped. *)
Fixpoint replace_from (old new : string) (skip : nat) (s : string) : string :=
  match s with
  | EmptyString => EmptyString
  | String c s' =>
      match skip with
      | S k => replace_from old new k s'
      | O => if String.prefix old s
             then new +:+ replace_from old new (String.length old - 1) s'
             else String c (replace_from old new 0 s')
      end
  end.
Definition replace (old new s : string) : string := replace_from old new 0 s.

(** [Path(a) / b] for a relative [b]. *)
Definition path_join (a b : string) : string := a +:+ "/" +:+ b.

(** ** config.py *)

Module config.
Section Config.
  Context {F : Type}.

Record ModelConfig := {
  architecture : string;
  pretrained : bool;
  freeze_backbone : bool;
  unfreeze_last_blocks : Z;
  num_classes : Z;
  dropout : F
}.

Record TrainingConfig := {
  epochs : Z;
  batch_size : Z;
  optimizer : string;
  learning_rate : F;
  weight_decay : F;
  loss : string;
  scheduler : string;
  early_stopping : bool;
  patience : Z;
  discriminative_lr : gmap string F
}.

Record DataConfig := {
  train_path : string;
  test_path : string;
  image_size : Z;
  augmentation : string;
  val_split : F;
  num_workers : Z
}.

Record ReproducibilityConfig := {
  seed : Z;
  deterministic : bool;
  benchmark : bool
}.

Record Config := {
  model : ModelConfig;
  training : TrainingConfig;
  data : DataConfig;
  reproducibility : ReproducibilityConfig;
  name : string;
  description : string
}.
End Config.
Arguments ModelConfig : clear implicits.
Arguments TrainingConfig : clear implicits.
Arguments DataConfig : clear implicits.
Arguments Config : clear implicits.
End config.

(** ** The torch, torchvision, numpy and random libraries

What the code takes from its libraries, as an interface. *)

(** The four global generators [set_seed] seeds. *)
Record Rngs (G : Type) := {
  py_random : G;
  np_random : G;
  torch_default : G;
  torch_cuda : G
}.
Arguments py_random {G} _.
Arguments np_random {G} _.
Arguments torch_default {G} _.
Arguments torch_cuda {G} _.

(** [torch.backends.cudnn] *)
Record Cudnn := {
  cudnn_deterministic : bool;
  cudnn_benchmark : bool
}.

Inductive Device := cpu | cuda.

(** The pipelines [get_transforms] composes. *)
Inductive Transform :=
  | CenterCropPipeline (image_size : Z)
  | AugmentPipeline (image_size : Z).

(** [torch.utils.data.DataLoader] over a map-style dataset of labelled
    images. *)
Record DataLoader (Image : Type) := {
  dataset : list (Image * Z);
  transform : Transform;
  loader_batch_size : Z;
  shuffle : bool;
  loader_num_workers : Z;
  pin_memory : bool
}.
Arguments dataset {Image} _.
Arguments transform {Image} _.
Arguments loader_batch_size {Image} _.
Arguments shuffle {Image} _.
Arguments loader_num_workers {Image} _.
Arguments pin_memory {Image} _.

(** What [optim.Adam] is built from: a list of groups, or an iterable of
    tensors with one learning rate. *)
Inductive AdamParams (F : Type) :=
  | ParamGroups (groups : list (models.ParamGroup F))
  | ParamList (ps : list models.Param) (rate : F).
Arguments ParamGroups {F} groups.
Arguments ParamList {F} ps rate.

Class Torch (F : Type) := {
  (** state of a random number generator *)
  Gen : Type;
  (** what the accelerator settles by itself from run to run (which kernel is
      fastest, the order of a parallel reduction) *)
  Hw : Type;
  Image : Type;
  (** a collated batch of transformed images *)
  Tensor : Type;
  (** values of the parameters and buffers of the network *)
  Weights : Type;
  (** the optimizer: its groups and moment estimates *)
  Optimizer : Type;

random_seed : Z → Gen;
np_random_seed : Z → Gen;
manual_seed : Z → Gen;
cuda_manual_seed_all : Z → Gen;
(** [torch.Generator().manual_seed(s)] *)
Generator_manual_seed : Z → Gen;
(** the index permutation [random_split] draws *)
randperm : nat → Gen → list nat;

(** one pass over a loader: the batches [(images, labels)] in order *)
batches : DataLoader Image → Rngs Gen → list (Tensor * list Z) * Rngs Gen;
(** [len(loader)] *)
loader_len : DataLoader Image → Z;

(** [efficientnet_b2(...)] with the head replaced: its blocks and head *)
efficientnet_b2 : Z → models.Backbone;
(** initial values: [pretrained], [num_classes], [dropout], the device *)
init_weights : bool → Z → F → Device → Rngs Gen → Weights * Rngs Gen;
Adam : AdamParams F → F → Optimizer;
(** [scheduler.step()] of [CosineAnnealingLR(optimizer, T_max)], at the
    end of the given epoch *)
CosineAnnealingLR_step : Z → Z → Optimizer → Optimizer;

(** [model(images)] in training ([True]) or evaluation mode: one row of
    class scores per image *)
forward : bool → Cudnn → Hw → Device → Weights → Tensor → Rngs Gen
          → list (list F) * Rngs Gen;
(** [nn.CrossEntropyLoss()(outputs, labels).item()]: the mean over the
    batch *)
CrossEntropyLoss : list (list F) → list Z → F;
(** [optimizer.zero_grad(); loss.backward(); optimizer.step()] for the
    forward pass that started from the given generators; only tensors
    with [requires_grad] receive a gradient *)
backward_step : Cudnn → Hw → Device → gset models.Param → Rngs Gen
                → Tensor → list Z → Weights * Optimizer → Weights * Optimizer
}.

(** ** The process: library state, files, and the host

The embedded functions run in a state-and-exception monad over the
state of the Python process and of the disk it writes to.  A raised
exception keeps the state reached so far. *)

Section Process.
  Context {F : Type} `{Number F} `{Torch F}.

(** The payload of [best_model.pth]. *)
Record CheckpointData := {
  ck_epoch : Z;
  model_state_dict : Weights;
  optimizer_state_dict : Optimizer;
  ck_test_acc : F;
  ck_test_loss : F;
  ck_config : config.Config F
}.

(** The [history] dict. *)
Record History := {
  h_train_loss : list F;
  h_train_acc : list F;
  h_test_loss : list F;
  h_test_acc : list F
}.

(** The [metrics] dict. *)
Record Metrics := {
  best_test_acc : F;
  best_epoch : Z;
  total_epochs : Z;
  training_time_minutes : F;
  final_train_acc : F;
  final_test_acc : F;
  git_commit : string;
  config_name : string
}.

Inductive Content :=
  | Yaml (c : config.Config F)
  | Pth (ck : CheckpointData)
  | HistoryJson (h : History)
  | MetricsJson (m : Metrics).

(** A file holds what was written to it, all of it or, after a write
    that failed, its first bytes only. *)
Inductive File :=
  | Intact (c : Content)
  | Torn (c : Content) (written : nat).

(** How a write can fail: at [open], or after some bytes went out. *)
Inductive fault :=
  | OpenFails
  | WriteFails (written : nat).

(** What the program reads from its host and never writes. *)
Record Host := {
  hw : Hw;
  cuda_is_available : bool;
  clock : nat → F;
  git_head : option string;
  project_root : string;
  image_folders : gmap string (list (Image * Z))
}.

Record Proc := {
  rngs : Rngs Gen;
  cudnn : Cudnn;
  fs : gmap string File;
  (** the fate of the writes to come, in order; none left: they succeed *)
  disk : list (option fault);
  (** every write attempted so far, oldest first *)
  writes : list (string * Content);
  ticks : nat;
  host : Host
}.

Definition M (A : Type) : Type := Proc → result A * Proc.

#[export] Instance M_ret : MRet M := λ A a p, (Ok a, p).
#[export] Instance M_bind : MBind M := λ A B k c p,
  match c p with
  | (Ok a, p') => k a p'
  | (Raise e, p') => (Raise e, p')
  end.

Definition raise {A} (e : exn) : M A := λ p, (Raise e, p).

Definition lift {A} (r : result A) : M A := λ p, (r, p).

Definition ask {A} (f : Host → A) : M A := λ p, (Ok (f (host p)), p).

(** Assignments to the parts of the process state. *)
Definition with_rngs (r : Rngs Gen) (p : Proc) : Proc :=
  {| rngs := r; cudnn := cudnn p; fs := fs p; disk := disk p;
     writes := writes p; ticks := ticks p; host := host p |}.

Definition with_cudnn (c : Cudnn) (p : Proc) : Proc :=
  {| rngs := rngs p; cudnn := c; fs := fs p; disk := disk p;
     writes := writes p; ticks := ticks p; host := host p |}.

Definition tick (p : Proc) : Proc :=
  {| rngs := rngs p; cudnn := cudnn p; fs := fs p; disk := disk p;
     writes := writes p; ticks := S (ticks p); host := host p |}.

(** The disk after an attempt to write [c] to [path] that left the files
    [f] and the coming faults [d]. *)
Definition wrote (path : string) (c : Content) (f : gmap string File)
    (d : list (option fault)) (p : Proc) : Proc :=
  {| rngs := rngs p; cudnn := cudnn p; fs := f; disk := d;
     writes := writes p ++ [(path, c)]; ticks := ticks p; host := host p |}.

(** Run a library call that draws from the global generators. *)
Definition draw {A} (f : Cudnn → Hw → Rngs Gen → A * Rngs Gen) : M A := λ p,
  let '(a, r) := f (cudnn p) (hw (host p)) (rngs p) in (Ok a, with_rngs r p).

Definition set_rngs (r : Rngs Gen) : M unit := λ p, (Ok (), with_rngs r p).

Definition get_rngs : M (Rngs Gen) := λ p, (Ok (rngs p), p).

Definition set_cudnn (c : Cudnn) : M unit := λ p, (Ok (), with_cudnn c p).

Definition get_cudnn : M Cudnn := λ p, (Ok (cudnn p), p).

(** [time.time()] *)
Definition time_time : M F := λ p, (Ok (clock (host p) (ticks p)), tick p).

Definition read_file (path : string) : M File := λ p,
  match fs p !! path with
  | Some f => (Ok f, p)
  | None => (Raise (FileNotFoundError path), p)
  end.

(** [open(path, 'w')] followed by the dump, as [yaml.dump], [json.dump]
    and [torch.save] do: the destination itself is opened, which empties
    it, and then written to. *)
Definition write_file (path : string) (c : Content) : M unit := λ p,
  match disk p with
  | [] => (Ok (), wrote path c (<[path := Intact c]> (fs p)) [] p)
  | None :: d => (Ok (), wrote path c (<[path := Intact c]> (fs p)) d p)
  | Some OpenFails :: d => (Raise (OSError path), wrote path c (fs p) d p)
  | Some (WriteFails n) :: d =>
      (Raise (OSError path), wrote path c (<[path := Torn c n]> (fs p)) d p)
  end.

(** A computation is quiet when it leaves the disk, the clock, the cuDNN
    switches and the host alone: it may only draw random numbers. *)
Definition untouched (p p' : Proc) : Prop :=
  cudnn p' = cudnn p ∧ fs p' = fs p ∧ disk p' = disk p ∧
  writes p' = writes p ∧ ticks p' = ticks p ∧ host p' = host p.

Definition quiet {A} (c : M A) : Prop := ∀ p, untouched p (c p).2.

(** Two computations started from related states end alike: both return,
    with related values and states, or both raise the same exception. *)
Definition rel {A B} (Pre Post : Proc → Proc → Prop) (Q : A → B → Prop)
    (c : M A) (c' : M B) : Prop :=
  ∀ p p', Pre p p' →
    match c p, c' p' with
    | (Ok a, q), (Ok a', q') => Q a a' ∧ Post q q'
    | (Raise e, _), (Raise e', _) => e = e'
    | _, _ => False
    end.

(** Two metrics records that agree on all but, up to [T] and [G], the
    training time and the commit. *)
Definition metrics_alike (T : F → F → Prop) (G : string → string → Prop)
    (m m' : Metrics) : Prop :=
  best_test_acc m = best_test_acc m' ∧ best_epoch m = best_epoch m' ∧
  total_epochs m = total_epochs m' ∧
  T (training_time_minutes m) (training_time_minutes m') ∧
  final_train_acc m = final_train_acc m' ∧ final_test_acc m = final_test_acc m' ∧
  G (git_commit m) (git_commit m') ∧ config_name m = config_name m'.

(** [for x in l: b = f(b, x)] *)
Fixpoint foldM {A B} (f : B → A → M B) (b : B) (l : list A) : M B :=
  match l with
  | [] => mret b
  | x :: l' => b' ← f b x; foldM f b' l'
  end.
End Process.
Arguments History : clear implicits.
Arguments Metrics : clear implicits.

(** [l[a:b]] *)
Definition slice {A} (l : list A) (a b : Z) : list A :=
  let len := Z.of_nat (length l) in
  let norm i := if bool_decide (i < 0) then Z.max 0 (i + len) else Z.min i len in
  take (Z.to_nat (norm b - norm a)) (drop (Z.to_nat (norm a)) l).

(** ** data.py *)

Module data.
Section Data.
  Context {F : Type} `{Number F} `{Torch F}.

Definition get_transforms (augmentation_level : string) (image_size : Z)
    : result (Transform * Transform) :=
  let test_transform := CenterCropPipeline image_size in
  if bool_decide (augmentation_level = "basic")
  then Ok (CenterCropPipeline image_size, test_transform)
  else if bool_decide (augmentation_level = "enhanced")
  then Ok (AugmentPipeline image_size, test_transform)
  else Raise (ValueError "Unknown augmentation level").

(** [torch.utils.data.random_split(ds, [n1, n2], generator)]: the two
    lengths add up to [len(ds)] at the only call, so the length check
    passes; the subsets are slices of one permutation of the indices. *)
Definition random_split {A} (ds : list A) (n1 n2 : Z) (generator : Gen)
    : list A * list A :=
  let indices := randperm (Z.to_nat (n1 + n2)) generator in
  let subset idxs := omap (λ i, ds !! i) idxs in
  (subset (slice indices (n1 - n1) n1),
   subset (slice indices (n1 + n2 - n2) (n1 + n2))).

Definition create_dataloaders (data_dir : string) (batch_size : Z)
    (augmentation_level : string) (image_size num_workers : Z)
    (pin : bool) (val_split : F)
    : M (DataLoader Image * DataLoader Image * option (DataLoader Image)) :=
  let train_dir := path_join data_dir "train" in
  let test_dir := path_join data_dir "test" in
  folders ← ask image_folders;
  match folders !! train_dir, folders !! test_dir with
  | Some full_train_dataset, Some test_dataset =>
      '(train_transform, test_transform) ←
         lift (get_transforms augmentation_level image_size);
      let loader ds tr sh :=
        {| dataset := ds; transform := tr; loader_batch_size := batch_size;
           shuffle := sh; loader_num_workers := num_workers; pin_memory := pin |} in
      let '(train_dataset, val_loader) :=
        if gt val_split (of_Z 0) then
          let train_size :=
            trunc (mul (sub (of_Z 1) val_split)
                       (of_Z (Z.of_nat (length full_train_dataset)))) in
          let val_size := Z.of_nat (length full_train_dataset) - train_size in
          let '(train_dataset, val_dataset) :=
            random_split full_train_dataset train_size val_size
                         (Generator_manual_seed 42) in
          (train_dataset, Some (loader val_dataset train_transform false))
        else (full_train_dataset, None) in
      let train_loader := loader train_dataset train_transform true in
      let test_loader := loader test_dataset test_transform false in
      mret (train_loader, test_loader, val_loader)
  | _, _ => raise (FileNotFoundError train_dir)
  end.
End Data.
End data.

(** ** train.py *)

Module train.
Section Train.
  Context {F : Type} `{Number F} `{Torch F}.

(** The [model] object: the module tree with its flags, and the values. *)
Record TModel := {
  net : models.FoodVisionModel;
  weights : Weights
}.

Definition set_seed (seed : Z) (deterministic : bool) : M unit :=
  r ← get_rngs;
  set_rngs {| py_random := random_seed seed; np_random := np_random r;
              torch_default := torch_default r; torch_cuda := torch_cuda r |};;
  r ← get_rngs;
  set_rngs {| py_random := py_random r; np_random := np_random_seed seed;
              torch_default := torch_default r; torch_cuda := torch_cuda r |};;
  r ← get_rngs;
  set_rngs {| py_random := py_random r; np_random := np_random r;
              torch_default := manual_seed seed; torch_cuda := torch_cuda r |};;
  r ← get_rngs;
  set_rngs {| py_random := py_random r; np_random := np_random r;
              torch_default := torch_default r;
              torch_cuda := cuda_manual_seed_all seed |};;
  c ← get_cudnn;
  if deterministic
  then set_cudnn {| cudnn_deterministic := true; cudnn_benchmark := false |}
  else set_cudnn {| cudnn_deterministic := cudnn_deterministic c;
                    cudnn_benchmark := true |}.

Definition get_git_commit_hash : M string :=
  h ← ask git_head; mret (default "unknown" h).

(** The index [row.max()] returns, as torch computes it: one scan from
    the left that moves on to a score when it is not [<=] the one held,
    and ends at a NaN, which it takes. *)
Fixpoint argmax_from (best_i : Z) (best : F) (i : Z) (row : list F) : Z :=
  match row with
  | [] => best_i
  | x :: row' =>
      if isnan best then best_i
      else if gt x best || isnan x then argmax_from i x (i + 1) row'
      else argmax_from best_i best (i + 1) row'
  end.
Definition argmax (row : list F) : Z :=
  match row with
  | [] => 0
  | x :: row' => argmax_from 0 x 1 row'
  end.

(** [predicted.eq(labels).sum().item()] *)
Definition count_eq (predicted labels : list Z) : Z :=
  Z.of_nat (length (filter (λ pl, pl.1 = pl.2) (zip predicted labels))).

(** The running sums of one pass. *)
Record Sums := {
  running_loss : F;
  correct : Z;
  total : Z
}.

(** One iteration of the loop of [train_one_epoch]. *)
Definition train_batch (device : Device)
    (st : TModel * Optimizer * Sums) (ib : nat * (Tensor * list Z))
    : M (TModel * Optimizer * Sums) :=
  let '(model, optimizer, s) := st in
  let '(batch_idx, (images, labels)) := ib in
  r0 ← get_rngs;
  outputs ← draw (λ c h, forward true c h device (weights model) images);
  let loss := CrossEntropyLoss outputs labels in
  c ← get_cudnn;
  h ← ask hw;
  let '(w, optimizer) :=
    backward_step c h device (models.grad (net model)) r0 images labels
                  (weights model, optimizer) in
  let model := {| net := net model; weights := w |} in
  let running_loss := add (running_loss s) loss in
  let predicted := argmax <$> outputs in
  let total := total s + Z.of_nat (length labels) in
  let correct := correct s + count_eq predicted labels in
  _ ← lift (pydiv running_loss (Z.of_nat batch_idx + 1));
  _ ← lift (pydiv (mul (of_Z 100) (of_Z correct)) total);
  mret (model, optimizer,
        {| running_loss := running_loss; correct := correct; total := total |}).

Definition train_one_epoch (model : TModel) (train_loader : DataLoader Image)
    (optimizer : Optimizer) (device : Device) (epoch total_epochs : Z)
    : M (F * F * TModel * Optimizer) :=
  let s := {| running_loss := of_Z 0; correct := 0; total := 0 |} in
  pbar ← draw (λ _ _, batches train_loader);
  '(model, optimizer, s) ←
    foldM (train_batch device) (model, optimizer, s) (imap pair pbar);
  epoch_loss ← lift (pydiv (running_loss s) (loader_len train_loader));
  epoch_acc ← lift (pydiv (mul (of_Z 100) (of_Z (correct s))) (total s));
  mret (epoch_loss, epoch_acc, model, optimizer).

(** One iteration of the loop of [evaluate]. *)
Definition evaluate_batch (model : TModel) (test_loader : DataLoader Image)
    (device : Device) (s : Sums) (b : Tensor * list Z) : M Sums :=
  let '(images, labels) := b in
  outputs ← draw (λ c h, forward false c h device (weights model) images);
  let loss := CrossEntropyLoss outputs labels in
  let running_loss := add (running_loss s) loss in
  let predicted := argmax <$> outputs in
  let total := total s + Z.of_nat (length labels) in
  let correct := correct s + count_eq predicted labels in
  _ ← lift (pydiv running_loss (loader_len test_loader));
  _ ← lift (pydiv (mul (of_Z 100) (of_Z correct)) total);
  mret {| running_loss := running_loss; correct := correct; total := total |}.

Definition evaluate (model : TModel) (test_loader : DataLoader Image)
    (device : Device) : M (F * F) :=
  let s := {| running_loss := of_Z 0; correct := 0; total := 0 |} in
  pbar ← draw (λ _ _, batches test_loader);
  s ← foldM (evaluate_batch model test_loader device) s pbar;
  epoch_loss ← lift (pydiv (running_loss s) (loader_len test_loader));
  epoch_acc ← lift (pydiv (mul (of_Z 100) (of_Z (correct s))) (total s));
  mret (epoch_loss, epoch_acc).

(** [models.create_model]: build the network, move it to the device. *)
Definition create_model (num_classes : Z) (freeze_backbone : bool) (dropout : F)
    (pretrained : bool) (device : Device) : M TModel :=
  w ← draw (λ _ _, init_weights pretrained num_classes dropout device);
  mret {| net := models.init (efficientnet_b2 num_classes) freeze_backbone;
          weights := w |}.

(** [model.parameters()] *)
Definition model_parameters (model : TModel) : list models.Param :=
  remove_dups (mjoin (models.features (models.backbone (net model)))
               ++ models.classifier (models.backbone (net model))).

(** [optim.Adam(params, ...)]; an empty parameter list is refused. *)
Definition optim_Adam (ps : AdamParams F) (weight_decay : F) : result Optimizer :=
  match ps with
  | ParamGroups [] | ParamList [] _ =>
      Raise (ValueError "optimizer got an empty parameter list")
  | _ => Ok (Adam ps weight_decay)
  end.

(** [torch.save(obj, path)] *)
Definition torch_save (obj : CheckpointData) (path : string) : M unit :=
  write_file path (Pth obj).

(** The local variables of [train] that the epoch loop updates. *)
Record Locals := {
  l_model : TModel;
  l_optimizer : Optimizer;
  l_history : History F;
  l_best_test_acc : F;
  l_best_epoch : Z;
  l_epochs_without_improvement : Z;
  (** the loop variable [epoch], unbound until the loop has run once *)
  l_epoch : option Z
}.

(** The body of [for epoch in range(1, config.training.epochs + 1)];
    the boolean says whether it ended in [break]. *)
Definition epoch_body (cfg : config.Config F) (output_dir : string)
    (device : Device) (train_loader test_loader : DataLoader Image)
    (scheduler : bool) (epoch : Z) (l : Locals) : M (Locals * bool) :=
  let tc := config.training cfg in
  '(train_loss, train_acc, model, optimizer) ←
    train_one_epoch (l_model l) train_loader (l_optimizer l) device
                    epoch (config.epochs tc);
  '(test_loss, test_acc) ← evaluate model test_loader device;
  let optimizer :=
    if scheduler then CosineAnnealingLR_step (config.epochs tc) epoch optimizer
    else optimizer in
  let history :=
    {| h_train_loss := h_train_loss (l_history l) ++ [train_loss];
       h_train_acc := h_train_acc (l_history l) ++ [train_acc];
       h_test_loss := h_test_loss (l_history l) ++ [test_loss];
       h_test_acc := h_test_acc (l_history l) ++ [test_acc] |} in
  l' ←
    (if gt test_acc (l_best_test_acc l) then
       let checkpoint_path := path_join output_dir "best_model.pth" in
       torch_save {| ck_epoch := epoch;
                     model_state_dict := weights model;
                     optimizer_state_dict := optimizer;
                     ck_test_acc := test_acc;
                     ck_test_loss := test_loss;
                     ck_config := cfg |} checkpoint_path;;
       mret {| l_model := model; l_optimizer := optimizer; l_history := history;
               l_best_test_acc := test_acc; l_best_epoch := epoch;
               l_epochs_without_improvement := 0; l_epoch := Some epoch |}
     else
       mret {| l_model := model; l_optimizer := optimizer; l_history := history;
               l_best_test_acc := l_best_test_acc l;
               l_best_epoch := l_best_epoch l;
               l_epochs_without_improvement := l_epochs_without_improvement l + 1;
               l_epoch := Some epoch |});
  mret (l', config.early_stopping tc
            && bool_decide (config.patience tc ≤ l_epochs_without_improvement l')).

(** The epoch loop over the epochs still to run. *)
Fixpoint epoch_loop (cfg : config.Config F) (output_dir : string)
    (device : Device) (train_loader test_loader : DataLoader Image)
    (scheduler : bool) (epochs : list Z) (l : Locals) : M Locals :=
  match epochs with
  | [] => mret l
  | epoch :: rest =>
      '(l', stop) ← epoch_body cfg output_dir device train_loader test_loader
                               scheduler epoch l;
      if (stop : bool) then mret l'
      else epoch_loop cfg output_dir device train_loader test_loader
                      scheduler rest l'
  end.

(** The locals as [train] sets them before the loop. *)
Definition fresh_locals (model : TModel) (optimizer : Optimizer) : Locals :=
  {| l_model := model; l_optimizer := optimizer;
     l_history := {| h_train_loss := []; h_train_acc := [];
                     h_test_loss := []; h_test_acc := [] |};
     l_best_test_acc := of_Z 0; l_best_epoch := 0;
     l_epochs_without_improvement := 0; l_epoch := None |}.

(** [config.load_config] *)
Definition load_config (config_path : string) : M (config.Config F) :=
  f ← read_file config_path;
  match f with
  | Intact (Yaml c) => mret c
  | _ => raise (ValueError "not a configuration file")
  end.

(** What [train] does once [create_dataloaders] has returned, with the
    three loaders it returned. *)
Definition train_on (cfg : config.Config F) (output_dir : string)
    (device : Device) (git_hash : string)
    (loaders : DataLoader Image * DataLoader Image * option (DataLoader Image))
    : M (TModel * History F * Metrics F) :=
  let mc := config.model cfg in
  let tc := config.training cfg in
  let '(train_loader, test_loader, val_loader) := loaders in
  model ← create_model (config.num_classes mc) (config.freeze_backbone mc)
                       (config.dropout mc) (config.pretrained mc) device;
  model ←
    (if bool_decide (0 < config.unfreeze_last_blocks mc) then
       let '(n, r) :=
         models.unfreeze_last_blocks (config.unfreeze_last_blocks mc) (net model) in
       lift r;; mret {| net := n; weights := weights model |}
     else mret model);
  optimizer ←
    (if bool_decide (config.discriminative_lr tc ≠ ∅) then
       let rate := config.learning_rate tc in
       let dlr := config.discriminative_lr tc in
       param_groups ←
         lift (models.get_parameter_groups (net model)
                 (default rate (dlr !! "classifier"))
                 (default (div rate (of_Z 10)) (dlr !! "last_blocks"))
                 (default (div rate (of_Z 100)) (dlr !! "mid_layers")));
       lift (optim_Adam (ParamGroups param_groups) (config.weight_decay tc))
     else
       lift (optim_Adam (ParamList (model_parameters model) (config.learning_rate tc))
                        (config.weight_decay tc)));
  let scheduler := bool_decide (config.scheduler tc = "cosine_annealing") in
  start_time ← time_time;
  l ← epoch_loop cfg output_dir device train_loader test_loader scheduler
                 (range 1 (config.epochs tc + 1))
                 (fresh_locals model optimizer);
  now ← time_time;
  let training_time := sub now start_time in
  write_file (path_join output_dir "training_history.json")
             (HistoryJson (l_history l));;
  epoch ← lift (match l_epoch l with
                | Some e => Ok e
                | None => Raise (NameError "epoch")
                end);
  final_train ← lift (getitem (h_train_acc (l_history l)) (-1));
  final_test ← lift (getitem (h_test_acc (l_history l)) (-1));
  let metrics :=
    {| best_test_acc := l_best_test_acc l;
       best_epoch := l_best_epoch l;
       total_epochs := epoch;
       training_time_minutes := div training_time (of_Z 60);
       final_train_acc := final_train;
       final_test_acc := final_test;
       git_commit := git_hash;
       config_name := config.name cfg |} in
  write_file (path_join output_dir "metrics.json") (MetricsJson metrics);;
  mret (l_model l, l_history l, metrics).

(** Everything in [train] from [create_dataloaders] on. *)
Definition train_with (cfg : config.Config F) (output_dir : string)
    (device : Device) (git_hash : string) : M (TModel * History F * Metrics F) :=
  let tc := config.training cfg in
  let dc := config.data cfg in
  root ← ask project_root;
  loaders ←
    data.create_dataloaders
      (replace "/train" "" (path_join root (config.train_path dc)))
      (config.batch_size tc) (config.augmentation dc) (config.image_size dc)
      (config.num_workers dc) true (config.val_split dc);
  train_on cfg output_dir device git_hash loaders.

Definition train (config_path : string) (output_dir : option string)
    (device : option Device) : M (TModel * History F * Metrics F) :=
  cfg ← load_config config_path;
  let output_dir :=
    match output_dir with
    | None => path_join "artifacts" (config.name cfg)
    | Some d => d
    end in
  write_file (path_join output_dir "config.yaml") (Yaml cfg);;
  device ←
    match device with
    | None => avail ← ask cuda_is_available; mret (if (avail : bool) then cuda else cpu)
    | Some d => mret d
    end;
  set_seed (config.seed (config.reproducibility cfg))
           (config.deterministic (config.reproducibility cfg));;
  git_hash ← get_git_commit_hash;
  train_with cfg output_dir device git_hash.

(** *** The words of the design, to compare the code with *)

(** The best accuracy of a run so far: the largest seen, from 0. *)
Definition running_best (accs : list F) : F :=
  foldl (λ best a, if gt a best then a else best) (of_Z 0) accs.

(** The epochs, counted from [e], whose accuracy strictly exceeds the best
    value seen before them. *)
Fixpoint improving_from (e : Z) (best : F) (accs : list F) : list Z :=
  match accs with
  | [] => []
  | a :: accs' =>
      if gt a best then e :: improving_from (e + 1) a accs'
      else improving_from (e + 1) best accs'
  end.
Definition improving_epochs (accs : list F) : list Z :=
  improving_from 1 (of_Z 0) accs.

(** The last improving epoch, 0 when there is none. *)
Definition last_improving (accs : list F) : Z :=
  default 0 (last (improving_epochs accs)).

(** The count of consecutive non-improving epochs at the end of the
    epochs run so far: those after the last improving one. *)
Definition streak (accs : list F) : Z :=
  Z.of_nat (length accs) - last_improving accs.

(** The epochs a checkpoint was written for, oldest first. *)
Definition checkpoint_epochs (ws : list (string * Content)) : list Z :=
  omap (λ w, match w.2 with Pth ck => Some (ck_epoch ck) | _ => None end) ws.

(** The scores and labels of the batches of a training pass, from the
    values, optimizer and generators it starts with. *)
Fixpoint train_outputs (c : Cudnn) (h : Hw) (device : Device)
    (g : gset models.Param) (w : Weights) (o : Optimizer) (r : Rngs Gen)
    (bs : list (Tensor * list Z)) : list (list (list F) * list Z) :=
  match bs with
  | [] => []
  | (images, labels) :: bs' =>
      let '(outputs, r') := forward true c h device w images r in
      let '(w', o') := backward_step c h device g r images labels (w, o) in
      (outputs, labels) :: train_outputs c h device g w' o' r' bs'
  end.

(** The same for an evaluation pass. *)
Fixpoint eval_outputs (c : Cudnn) (h : Hw) (device : Device) (w : Weights)
    (r : Rngs Gen) (bs : list (Tensor * list Z)) : list (list (list F) * list Z) :=
  match bs with
  | [] => []
  | (images, labels) :: bs' =>
      let '(outputs, r') := forward false c h device w images r in
      (outputs, labels) :: eval_outputs c h device w r' bs'
  end.

(** The mean loss of each batch. *)
Definition batch_losses (outs : list (list (list F) * list Z)) : list F :=
  (λ ol, CrossEntropyLoss ol.1 ol.2) <$> outs.

Definition sum_F (xs : list F) : F := foldl add (of_Z 0) xs.

(** The samples of a pass, each a row of scores with its label. *)
Definition samples (outs : list (list (list F) * list Z)) : list (list F * Z) :=
  mjoin ((λ ol, zip ol.1 ol.2) <$> outs).

(** A score of the row that no score of the row exceeds. *)
Definition maximal (row : list F) (x : F) : Prop :=
  Forall (λ y, gt y x = false) row.

(** The top-1 prediction for a row of scores, in the words of the
    documentation of [torch.max]: the first position of a maximal score,
    a NaN counting as larger than every number, so that a row with a NaN
    gives the position of its first NaN. *)
Definition top1 (row : list F) : Z :=
  match list_find (λ x, isnan x = true) row with
  | Some (i, _) => Z.of_nat i
  | None =>
      match list_find (maximal row) row with
      | Some (i, _) => Z.of_nat i
      | None => 0
      end
  end.

(** The samples whose top-1 prediction is their label. *)
Definition hits (outs : list (list (list F) * list Z)) : list (list F * Z) :=
  filter (λ rl, top1 rl.1 = rl.2) (samples outs).

(** The laws of the comparison of floats the scan of [max] rests on: [>]
    is asymmetric, it is false when an operand is a NaN, and a number
    above [b] is above every number that is not above [b]. *)
Definition float_order : Prop :=
  (∀ x y : F, gt x y = true → gt y x = false) ∧
  (∀ x y : F, gt x y = true → isnan x = false ∧ isnan y = false) ∧
  (∀ x y b : F, isnan y = false → isnan b = false →
                gt x b = true → gt y b = false → gt x y = true).

(** The number of labels of a pass. *)
Definition total_samples (outs : list (list (list F) * list Z)) : Z :=
  Z.of_nat (length (mjoin (snd <$> outs))).

(** [sum(batch_losses) / num_batches] *)
Definition mean_loss (outs : list (list (list F) * list Z)) : F :=
  div (sum_F (batch_losses outs)) (of_Z (Z.of_nat (length outs))).

(** [100 * correct / total_samples] *)
Definition accuracy (outs : list (list (list F) * list Z)) : F :=
  div (mul (of_Z 100) (of_Z (Z.of_nat (length (hits outs)))))
      (of_Z (total_samples outs)).

(** *** Relations between two runs *)

(** The kernels give one answer on every host when cuDNN is set to its
    deterministic algorithms and its autotuner is off. *)
Definition deterministic_kernels : Prop :=
  (∀ c h h' tr dev w x r,
     cudnn_deterministic c = true → cudnn_benchmark c = false →
     forward tr c h dev w x r = forward tr c h' dev w x r) ∧
  (∀ c h h' dev g r x y wo,
     cudnn_deterministic c = true → cudnn_benchmark c = false →
     backward_step c h dev g r x y wo = backward_step c h' dev g r x y wo).

(** Two processes given the same files, the same disk, the same data and
    the same kind of machine. *)
Definition same_inputs (p p' : Proc) : Prop :=
  fs p = fs p' ∧ disk p = disk p' ∧
  cuda_is_available (host p) = cuda_is_available (host p') ∧
  project_root (host p) = project_root (host p') ∧
  image_folders (host p) = image_folders (host p').

(** Two processes whose generators are in the same state, under
    deterministic cuDNN. *)
Definition in_step (p p' : Proc) : Prop :=
  rngs p = rngs p' ∧ cudnn p = cudnn p' ∧
  cudnn_deterministic (cudnn p) = true ∧ cudnn_benchmark (cudnn p) = false ∧
  disk p = disk p' ∧
  project_root (host p) = project_root (host p') ∧
  image_folders (host p) = image_folders (host p').

(** Two processes alike in all but the image folders. *)
Definition same_but_folders (p p' : Proc) : Prop :=
  rngs p = rngs p' ∧ cudnn p = cudnn p' ∧ fs p = fs p' ∧ disk p = disk p' ∧
  writes p = writes p' ∧ ticks p = ticks p' ∧
  hw (host p) = hw (host p') ∧
  cuda_is_available (host p) = cuda_is_available (host p') ∧
  clock (host p) = clock (host p') ∧ git_head (host p) = git_head (host p') ∧
  project_root (host p) = project_root (host p').

(** Two training folders that may differ only in the images that go to
    the validation split: without a split they are the same; with one
    they are as long and their training parts are the same. *)
Definition agree_off_validation (val_split : F) (ds ds' : list (Image * Z)) : Prop :=
  if gt val_split (of_Z 0) then
    let n := Z.of_nat (length ds) in
    let train_size := trunc (mul (sub (of_Z 1) val_split) (of_Z n)) in
    length ds = length ds' ∧
    (data.random_split ds train_size (n - train_size) (Generator_manual_seed 42)).1
    = (data.random_split ds' train_size (n - train_size) (Generator_manual_seed 42)).1
  else ds = ds'.

(** The folders of two hosts, for a configuration: the same test folder,
    and training folders that agree off the validation split. *)
Definition folders_agree (cfg : config.Config F) (root : string)
    (fo fo' : gmap string (list (Image * Z))) : Prop :=
  let data_dir :=
    replace "/train" "" (path_join root (config.train_path (config.data cfg))) in
  fo !! path_join data_dir "test" = fo' !! path_join data_dir "test" ∧
  match fo !! path_join data_dir "train", fo' !! path_join data_dir "train" with
  | Some ds, Some ds' => agree_off_validation (config.val_split (config.data cfg)) ds ds'
  | None, None => True
  | _, _ => False
  end.

(** *** The controller in the words of the design *)

(** The early-stopping test of the design after the given accuracies. *)
Definition triggered (cfg : config.Config F) (accs : list F) : Prop :=
  config.early_stopping (config.training cfg) = true ∧
  config.patience (config.training cfg) ≤ streak accs.

(** What the locals of the loop hold, in terms of the accuracies so far. *)
Definition tracks (l : Locals) : Prop :=
  let accs := h_test_acc (l_history l) in
  l_best_test_acc l = running_best accs ∧
  l_best_epoch l = last_improving accs ∧
  l_epochs_without_improvement l = streak accs ∧
  length (h_train_loss (l_history l)) = length accs ∧
  length (h_train_acc (l_history l)) = length accs ∧
  length (h_test_loss (l_history l)) = length accs.
End Train.
End train.

(** ** A small instance, to run the code on

Rational numbers for the floats, and a network that does what a script
says: with two optimizer steps an epoch, after epoch [e] it gets the
test images numbered below the [e]-th entry of the script right.  Off
the deterministic cuDNN setting its answers also depend on the host. *)

Module toy.

#[export] Instance Q_number : Number Q := {|
  of_Z := inject_Z;
  add x y := Qred (x + y);
  sub x y := Qred (x - y);
  mul x y := Qred (x * y);
  div x y := Qred (x / y);
  gt x y := negb (Qle_bool x y);
  isnan _ := false;
  trunc x := (Qnum x ÷ Z.pos (Qden x))%Z
|}.

Fixpoint chunks {A} (fuel n : nat) (l : list A) : list (list A) :=
  match fuel, l with
  | O, _ | _, [] => []
  | S fuel', _ => take n l :: chunks fuel' n (drop n l)
  end.

Definition bump (r : Rngs Z) : Rngs Z :=
  {| py_random := py_random r; np_random := np_random r;
     torch_default := torch_default r + 1; torch_cuda := torch_cuda r |}.

Definition toy_batches (l : DataLoader nat) : list (list nat * list Z) :=
  (λ c, (c.*1, c.*2)) <$>
    chunks (length (dataset l)) (Z.to_nat (Z.max 1 (loader_batch_size l))) (dataset l).

Definition toy_forward (script : list nat) (c : Cudnn) (h : nat) (w : nat)
    (images : list nat) : list (list Q) :=
  let stable := cudnn_deterministic c && negb (cudnn_benchmark c) in
  let good := (script !!! (w / 2 - 1)%nat + (if stable then 0 else h))%nat in
  (λ i, if bool_decide (i < good)%nat then [1%Q; 0%Q; 0%Q] else [0%Q; 1 # 2; 1%Q])
    <$> images.

Definition first_wins (row : list Q) : bool :=
  match row with
  | x :: _ => Qeq_bool x 1
  | [] => false
  end.

Definition toy_loss (outputs : list (list Q)) (labels : list Z) : Q :=
  let wrong := filter (λ ol, first_wins ol.1 = false) (zip outputs labels) in
  Qred (inject_Z (Z.of_nat (length wrong)) / inject_Z (Z.of_nat (length labels))).

Definition net9 : models.Backbone :=
  {| models.features :=
       [[1; 2]; [3]; [4; 5]; [6]; [7; 8]; [9]; [10; 11]; [12]; [13; 14]]%positive;
     models.classifier := [15; 16]%positive |}.

#[export] Instance scripted (script : list nat) : Torch Q := {|
  Gen := Z;
  Hw := nat;
  Image := nat;
  Tensor := list nat;
  Weights := nat;
  Optimizer := nat;
  random_seed s := s;
  np_random_seed s := s + 1;
  manual_seed s := s + 2;
  cuda_manual_seed_all s := s + 3;
  Generator_manual_seed s := s;
  randperm n g := seq 0 n;
  batches l r := (toy_batches l, bump r);
  loader_len l := Z.of_nat (length (toy_batches l));
  efficientnet_b2 _ := net9;
  init_weights _ _ _ _ r := (0%nat, bump r);
  Adam _ _ := 0%nat;
  CosineAnnealingLR_step _ _ o := o;
  forward training c h _ w images r :=
    (toy_forward script c h w images, if training then bump r else r);
  CrossEntropyLoss := toy_loss;
  backward_step _ _ _ _ _ _ _ wo := (S wo.1, S wo.2)
|}.

Definition cfg (patience : Z) (early : bool) (epochs unfreeze : Z) : config.Config Q :=
  {| config.model :=
       {| config.architecture := "efficientnet_b2"; config.pretrained := true;
          config.freeze_backbone := true; config.unfreeze_last_blocks := unfreeze;
          config.num_classes := 3; config.dropout := 3 # 10 |};
     config.training :=
       {| config.epochs := epochs; config.batch_size := 32;
          config.optimizer := "adam"; config.learning_rate := 1 # 1000;
          config.weight_decay := 1 # 10000; config.loss := "cross_entropy";
          config.scheduler := "none"; config.early_stopping := early;
          config.patience := patience; config.discriminative_lr := ∅ |};
     config.data :=
       {| config.train_path := "data/processed/train";
          config.test_path := "data/processed/test"; config.image_size := 224;
          config.augmentation := "basic"; config.val_split := 0%Q;
          config.num_workers := 4 |};
     config.reproducibility :=
       {| config.seed := 42; config.deterministic := true; config.benchmark := false |};
     config.name := "baseline";
     config.description := "" |}.

(** Hundred test images, all of class 0, and a training folder. *)
Definition test_folder : list (nat * Z) := (λ i, (i, 0)) <$> seq 0 100.
Definition train_folder : list (nat * Z) := (λ i, (i, 0)) <$> seq 0 40.

Definition machine (folder : list (nat * Z)) (script : list nat) (h : nat)
    : Host (H0 := scripted script) :=
  @Build_Host Q (scripted script) h false (λ n, inject_Z (Z.of_nat (60 * n)))
    (Some "0123abc") "proj"
    {[ "proj/data/processed/train" := folder;
       "proj/data/processed/test" := test_folder ]}.

Definition train_loader : DataLoader nat :=
  {| dataset := train_folder; transform := CenterCropPipeline 224;
     loader_batch_size := 32; shuffle := true; loader_num_workers := 4;
     pin_memory := true |}.

Definition test_loader : DataLoader nat :=
  {| dataset := test_folder; transform := CenterCropPipeline 224;
     loader_batch_size := 32; shuffle := false; loader_num_workers := 4;
     pin_memory := true |}.

(** Hundred images, the first fifty of class 0 and the others of class 2. *)
Definition mixed_folder : list (nat * Z) :=
  (λ i, (i, if bool_decide (i < 50)%nat then 0 else 2)) <$> seq 0 100.

Definition mixed_loader : DataLoader nat :=
  {| dataset := mixed_folder; transform := CenterCropPipeline 224;
     loader_batch_size := 32; shuffle := false; loader_num_workers := 4;
     pin_memory := true |}.

(** A process about to run [train] on the configuration [c], with the
    given training folder, host, generator states and disk faults. *)
Definition boot_on (folder : list (nat * Z)) (script : list nat)
    (c : config.Config Q) (h : nat) (seed0 : Z) (faults : list (option fault))
    : Proc (H0 := scripted script) :=
  @Build_Proc Q (scripted script)
    {| py_random := seed0; np_random := seed0;
       torch_default := seed0; torch_cuda := seed0 |}
    {| cudnn_deterministic := false; cudnn_benchmark := false |}
    {[ "cfg.yaml" := Intact (Yaml c) ]}
    faults [] 0%nat (machine folder script h).

Definition boot (script : list nat) (c : config.Config Q) (h : nat) (seed0 : Z)
    (faults : list (option fault)) : Proc (H0 := scripted script) :=
  boot_on train_folder script c h seed0 faults.

(** [cfg] with a fifth of the training folder split off for validation. *)
Definition cfg_split : config.Config Q :=
  let c := cfg 3 true 10 0 in
  {| config.model := config.model c;
     config.training := config.training c;
     config.data :=
       {| config.train_path := "data/processed/train";
          config.test_path := "data/processed/test"; config.image_size := 224;
          config.augmentation := "basic"; config.val_split := 1 # 5;
          config.num_workers := 4 |};
     config.reproducibility := config.reproducibility c;
     config.name := config.name c;
     config.description := config.description c |}.

Definition script5 : list nat := [70; 72; 71; 71; 71]%nat.

(** The model and optimizer [train] builds on this instance. *)
Definition model0 (script : list nat) : train.TModel (H0 := scripted script) :=
  @train.Build_TModel Q (scripted script) (models.init net9 true) 0%nat.

(** The epoch loop of a run of ten epochs at most, with early stopping at
    a patience of 3, on a disk with the given faults. *)
Abbreviation loop5 faults :=
  (train.epoch_loop (H0 := scripted script5) (cfg 3 true 10 0) "out" cpu
     train_loader test_loader false (range 1 (10 + 1))
     (train.fresh_locals (H := Q_number) (model0 script5) 0%nat)
     (boot script5 (cfg 3 true 10 0) 0 7 faults)).

(** A training folder of the same length as [train_folder] whose last
    eight images are others. *)
Definition train_folder' : list (nat * Z) :=
  take 32 train_folder ++ ((λ i, (i, 1)) <$> seq 100 8).

End toy.

(** ** Words for the properties of [train.py] *)

Section TrainWords.
  Context {F : Type} `{Number F} `{Torch F}.

(** The generators as the four seeding functions leave them. *)
Definition seeded (seed : Z) : Rngs Gen :=
  {| py_random := random_seed seed; np_random := np_random_seed seed;
     torch_default := manual_seed seed; torch_cuda := cuda_manual_seed_all seed |}.

(** The [history] dict before the first epoch. *)
Definition empty_history : History F :=
  {| h_train_loss := []; h_train_acc := []; h_test_loss := []; h_test_acc := [] |}.
End TrainWords.

(** ** utils.py *)

Module utils.

Section Seeds.
  Context {F : Type} `{Number F} `{Torch F}.

(** [utils.set_seed]: [train.set_seed] without the message. *)
Definition set_seed (seed : Z) (deterministic : bool) : M unit :=
  r ← get_rngs;
  set_rngs {| py_random := random_seed seed; np_random := np_random r;
              torch_default := torch_default r; torch_cuda := torch_cuda r |};;
  r ← get_rngs;
  set_rngs {| py_random := py_random r; np_random := np_random_seed seed;
              torch_default := torch_default r; torch_cuda := torch_cuda r |};;
  r ← get_rngs;
  set_rngs {| py_random := py_random r; np_random := np_random r;
              torch_default := manual_seed seed; torch_cuda := torch_cuda r |};;
  r ← get_rngs;
  set_rngs {| py_random := py_random r; np_random := np_random r;
              torch_default := torch_default r;
              torch_cuda := cuda_manual_seed_all seed |};;
  c ← get_cudnn;
  if deterministic
  then set_cudnn {| cudnn_deterministic := true; cudnn_benchmark := false |}
  else set_cudnn {| cudnn_deterministic := cudnn_deterministic c;
                    cudnn_benchmark := true |}.
End Seeds.

Section Counting.
  (** [p.numel()] *)
  Variable numel : models.Param → nat.

(** [model.parameters()]: every tensor of the module tree, once. *)
Definition parameters (model : models.FoodVisionModel) : list models.Param :=
  remove_dups (mjoin (models.features (models.backbone model))
               ++ models.classifier (models.backbone model)).

(** [count_parameters(model, trainable_only)], also the method of
    [FoodVisionModel] of that name. *)
Definition count_parameters (model : models.FoodVisionModel)
    (trainable_only : bool) : nat :=
  if trainable_only
  then sum_list (numel <$> filter (λ p, models.requires_grad model p = true)
                                  (parameters model))
  else sum_list (numel <$> parameters model).
End Counting.

Section Meter.
  Context {F : Type} `{Number F}.

(** [AverageMeter]: the attributes of the object. *)
Record AverageMeter := {
  val : F;
  avg : F;
  sum : F;
  count : Z
}.

(** [reset()], which [__init__] calls. *)
Definition reset : AverageMeter :=
  {| val := of_Z 0; avg := of_Z 0; sum := of_Z 0; count := 0 |}.

(** [update(val, n)]: the object after the call, and whether the call
    returned; the division comes last, so when it raises the other three
    attributes are already assigned. *)
Definition update (m : AverageMeter) (v : F) (n : Z) : AverageMeter * result unit :=
  let s := add (sum m) (mul v (of_Z n)) in
  let c := count m + n in
  match pydiv s c with
  | Ok a => ({| val := v; avg := a; sum := s; count := c |}, Ok ())
  | Raise e => ({| val := v; avg := avg m; sum := s; count := c |}, Raise e)
  end.

(** A meter taken through calls of [update] that all return. *)
Definition updates (m : AverageMeter) (vs : list (F * Z)) : AverageMeter :=
  foldl (λ m vn, (update m vn.1 vn.2).1) m vs.

(** The weighted sum and the total weight of a list of values. *)
Definition weighted_sum (s : F) (vs : list (F * Z)) : F :=
  foldl (λ s vn, add s (mul vn.1 (of_Z vn.2))) s vs.
Definition total_weight (vs : list (F * Z)) : Z :=
  foldr (λ vn c, vn.2 + c) 0 vs.
End Meter.
Arguments AverageMeter : clear implicits.

End utils.

(** ** config.py: configurations as dictionaries *)

Section ConfigDict.
  Context {F : Type} `{Number F}.

(** What [yaml.safe_load] yields and [yaml.dump] takes, as far as
    configurations go; a dictionary lists its items in insertion order. *)
#[local] Unset Elimination Schemes.
Inductive PyVal :=
  | VNone
  | VBool (b : bool)
  | VInt (z : Z)
  | VFloat (x : F)
  | VStr (s : string)
  | VDict (items : list (string * PyVal)).
#[local] Set Elimination Schemes.

(** [d.get(key)] *)
Fixpoint dict_get (d : list (string * PyVal)) (key : string) : option PyVal :=
  match d with
  | [] => None
  | (k, v) :: d' => if decide (k = key) then Some v else dict_get d' key
  end.

(** The outcome of building a dataclass from a dictionary.  The
    dataclasses do not check the types of the values they are given and
    keep whatever they get; the records of [config] are typed and cannot,
    so a value of another type than the annotation of its field is told
    apart as [Untyped]: Python raises nothing there. *)
Inductive made (A : Type) :=
  | Made (a : A)
  | TypeError (what : string)
  | Untyped (field : string).
Arguments Made {A} a.
Arguments TypeError {A} what.
Arguments Untyped {A} field.

Definition made_bind {A B} (x : made A) (k : A → made B) : made B :=
  match x with
  | Made a => k a
  | TypeError w => TypeError w
  | Untyped f => Untyped f
  end.

(** Keyword arguments against the fields of a dataclass: the first
    keyword that is no field is a [TypeError]. *)
Definition unexpected (fields : list string) (kwargs : list (string * PyVal))
    : option string :=
  fst <$> head (filter (λ kv, kv.1 ∉ fields) kwargs).

Definition check_kwargs (fields : list string) (kwargs : list (string * PyVal))
    : made unit :=
  match unexpected fields kwargs with
  | Some k => TypeError k
  | None => Made ()
  end.

(** A field of each annotated type, with its default. *)
Definition str_field (kwargs : list (string * PyVal)) (name dflt : string)
    : made string :=
  match dict_get kwargs name with
  | None => Made dflt
  | Some (VStr s) => Made s
  | Some _ => Untyped name
  end.

Definition bool_field (kwargs : list (string * PyVal)) (name : string) (dflt : bool)
    : made bool :=
  match dict_get kwargs name with
  | None => Made dflt
  | Some (VBool b) => Made b
  | Some _ => Untyped name
  end.

Definition int_field (kwargs : list (string * PyVal)) (name : string) (dflt : Z)
    : made Z :=
  match dict_get kwargs name with
  | None => Made dflt
  | Some (VInt z) => Made z
  | Some _ => Untyped name
  end.

Definition float_field (kwargs : list (string * PyVal)) (name : string) (dflt : F)
    : made F :=
  match dict_get kwargs name with
  | None => Made dflt
  | Some (VFloat x) => Made x
  | Some _ => Untyped name
  end.

Definition as_float (name : string) (kv : string * PyVal) : made (string * F) :=
  match kv.2 with
  | VFloat x => Made (kv.1, x)
  | _ => Untyped name
  end.

Fixpoint all_made {A B} (f : A → made B) (l : list A) : made (list B) :=
  match l with
  | [] => Made []
  | x :: l' => made_bind (f x) (λ y, made_bind (all_made f l') (λ ys, Made (y :: ys)))
  end.

(** A field annotated [Dict[str, float]]. *)
Definition rates_field (kwargs : list (string * PyVal)) (name : string)
    : made (gmap string F) :=
  match dict_get kwargs name with
  | None => Made ∅
  | Some (VDict items) =>
      made_bind (all_made (as_float name) items) (λ l, Made (list_to_map l))
  | Some _ => Untyped name
  end.

Definition ModelConfig_fields : list string :=
  ["architecture"; "pretrained"; "freeze_backbone"; "unfreeze_last_blocks";
   "num_classes"; "dropout"].

Definition TrainingConfig_fields : list string :=
  ["epochs"; "batch_size"; "optimizer"; "learning_rate"; "weight_decay"; "loss";
   "scheduler"; "early_stopping"; "patience"; "discriminative_lr"].

Definition DataConfig_fields : list string :=
  ["train_path"; "test_path"; "image_size"; "augmentation"; "val_split"; "num_workers"].

Definition ReproducibilityConfig_fields : list string :=
  ["seed"; "deterministic"; "benchmark"].

(** [ModelConfig] called with the items of [kwargs] as keywords; the literal [0.3] is the quotient of 3 by
    10, and so on for the other defaults. *)
Definition ModelConfig_init (kwargs : list (string * PyVal))
    : made (config.ModelConfig F) :=
  made_bind (check_kwargs ModelConfig_fields kwargs) (λ _,
  made_bind (str_field kwargs "architecture" "efficientnet_b2") (λ a,
  made_bind (bool_field kwargs "pretrained" true) (λ p,
  made_bind (bool_field kwargs "freeze_backbone" true) (λ fb,
  made_bind (int_field kwargs "unfreeze_last_blocks" 0) (λ u,
  made_bind (int_field kwargs "num_classes" 3) (λ n,
  made_bind (float_field kwargs "dropout" (div (of_Z 3) (of_Z 10))) (λ d,
  Made {| config.architecture := a; config.pretrained := p;
          config.freeze_backbone := fb; config.unfreeze_last_blocks := u;
          config.num_classes := n; config.dropout := d |}))))))).

Definition TrainingConfig_init (kwargs : list (string * PyVal))
    : made (config.TrainingConfig F) :=
  made_bind (check_kwargs TrainingConfig_fields kwargs) (λ _,
  made_bind (int_field kwargs "epochs" 10) (λ e,
  made_bind (int_field kwargs "batch_size" 32) (λ b,
  made_bind (str_field kwargs "optimizer" "adam") (λ o,
  made_bind (float_field kwargs "learning_rate" (div (of_Z 1) (of_Z 1000))) (λ lr,
  made_bind (float_field kwargs "weight_decay" (div (of_Z 1) (of_Z 10000))) (λ wd,
  made_bind (str_field kwargs "loss" "cross_entropy") (λ l,
  made_bind (str_field kwargs "scheduler" "none") (λ s,
  made_bind (bool_field kwargs "early_stopping" true) (λ es,
  made_bind (int_field kwargs "patience" 5) (λ pa,
  made_bind (rates_field kwargs "discriminative_lr") (λ dlr,
  Made {| config.epochs := e; config.batch_size := b; config.optimizer := o;
          config.learning_rate := lr; config.weight_decay := wd; config.loss := l;
          config.scheduler := s; config.early_stopping := es; config.patience := pa;
          config.discriminative_lr := dlr |}))))))))))).

Definition DataConfig_init (kwargs : list (string * PyVal))
    : made (config.DataConfig F) :=
  made_bind (check_kwargs DataConfig_fields kwargs) (λ _,
  made_bind (str_field kwargs "train_path" "data/processed/train") (λ tr,
  made_bind (str_field kwargs "test_path" "data/processed/test") (λ te,
  made_bind (int_field kwargs "image_size" 224) (λ sz,
  made_bind (str_field kwargs "augmentation" "basic") (λ au,
  made_bind (float_field kwargs "val_split" (of_Z 0)) (λ vs,
  made_bind (int_field kwargs "num_workers" 4) (λ nw,
  Made {| config.train_path := tr; config.test_path := te; config.image_size := sz;
          config.augmentation := au; config.val_split := vs;
          config.num_workers := nw |}))))))).

Definition ReproducibilityConfig_init (kwargs : list (string * PyVal))
    : made config.ReproducibilityConfig :=
  made_bind (check_kwargs ReproducibilityConfig_fields kwargs) (λ _,
  made_bind (int_field kwargs "seed" 42) (λ s,
  made_bind (bool_field kwargs "deterministic" true) (λ d,
  made_bind (bool_field kwargs "benchmark" false) (λ b,
  Made {| config.seed := s; config.deterministic := d; config.benchmark := b |})))).

(** [config_dict.get(name, {})] unpacked into keyword arguments: what is
    there must be a mapping. *)
Definition section_kwargs (config_dict : list (string * PyVal)) (name : string)
    : made (list (string * PyVal)) :=
  match dict_get config_dict name with
  | None => Made []
  | Some (VDict items) => Made items
  | Some _ => TypeError name
  end.

(** [Config.from_dict] *)
Definition from_dict (config_dict : list (string * PyVal)) : made (config.Config F) :=
  made_bind (made_bind (section_kwargs config_dict "model") ModelConfig_init)
    (λ model_config,
  made_bind (made_bind (section_kwargs config_dict "training") TrainingConfig_init)
    (λ training_config,
  made_bind (made_bind (section_kwargs config_dict "data") DataConfig_init)
    (λ data_config,
  made_bind (made_bind (section_kwargs config_dict "reproducibility")
                       ReproducibilityConfig_init)
    (λ repro_config,
  made_bind (str_field config_dict "name" "experiment") (λ name,
  made_bind (str_field config_dict "description" "") (λ description,
  Made {| config.model := model_config; config.training := training_config;
          config.data := data_config; config.reproducibility := repro_config;
          config.name := name; config.description := description |})))))).

(** [Config.to_dict] *)
Definition to_dict (c : config.Config F) : list (string * PyVal) :=
  let m := config.model c in
  let t := config.training c in
  let d := config.data c in
  let r := config.reproducibility c in
  [ ("name", VStr (config.name c));
    ("description", VStr (config.description c));
    ("model", VDict
       [ ("architecture", VStr (config.architecture m));
         ("pretrained", VBool (config.pretrained m));
         ("freeze_backbone", VBool (config.freeze_backbone m));
         ("unfreeze_last_blocks", VInt (config.unfreeze_last_blocks m));
         ("num_classes", VInt (config.num_classes m));
         ("dropout", VFloat (config.dropout m)) ]);
    ("training", VDict
       [ ("epochs", VInt (config.epochs t));
         ("batch_size", VInt (config.batch_size t));
         ("optimizer", VStr (config.optimizer t));
         ("learning_rate", VFloat (config.learning_rate t));
         ("weight_decay", VFloat (config.weight_decay t));
         ("loss", VStr (config.loss t));
         ("scheduler", VStr (config.scheduler t));
         ("early_stopping", VBool (config.early_stopping t));
         ("patience", VInt (config.patience t));
         ("discriminative_lr",
          VDict ((λ kx, (kx.1, VFloat kx.2)) <$> map_to_list (config.discriminative_lr t))) ]);
    ("data", VDict
       [ ("train_path", VStr (config.train_path d));
         ("test_path", VStr (config.test_path d));
         ("image_size", VInt (config.image_size d));
         ("augmentation", VStr (config.augmentation d));
         ("val_split", VFloat (config.val_split d));
         ("num_workers", VInt (config.num_workers d)) ]);
    ("reproducibility", VDict
       [ ("seed", VInt (config.seed r));
         ("deterministic", VBool (config.deterministic r));
         ("benchmark", VBool (config.benchmark r)) ]) ].

End ConfigDict.
Arguments PyVal : clear implicits.
Arguments made : clear implicits.
Arguments Made {A} a.
Arguments TypeError {A} what.
Arguments Untyped {A} field.

(** ** data.py: class weights *)

Section ClassWeights.
  Context {F : Type} `{Number F}.

Definition CLASS_NAMES : list string := ["pizza"; "steak"; "sushi"].

(** [Path(dir).glob(pattern)] on the host: the paths that match, none for
    a directory that is not there. *)
Variable glob : string → string → list string.

(** [[f(x) for x in l]] for an [f] that may raise. *)
Fixpoint comprehension {A B} (f : A → result B) (l : list A) : result (list B) :=
  match l with
  | [] => Ok []
  | x :: l' =>
      match f x with
      | Raise e => Raise e
      | Ok y =>
          match comprehension f l' with
          | Raise e => Raise e
          | Ok ys => Ok (y :: ys)
          end
      end
  end.

Definition get_class_weights (data_dir : string) : result (list F) :=
  let train_dir := path_join data_dir "train" in
  let class_counts :=
    (λ class_name, Z.of_nat (length (glob (path_join train_dir class_name) "*.jpg")))
      <$> CLASS_NAMES in
  let total := foldl Z.add 0 class_counts in
  match comprehension (λ count, pydiv (of_Z total) count) class_counts with
  | Raise e => Raise e
  | Ok weights =>
      let s := foldl add (of_Z 0) weights in
      Ok ((λ w, mul (div w s) (of_Z (Z.of_nat (length weights)))) <$> weights)
  end.
End ClassWeights.

(** ** Words for the statements about runs and strings *)

(** A result that holds three loaders, the third of them present. *)
Definition with_validation {A B C} (r : result (A * B * option C)) : bool :=
  match r with
  | Ok (_, _, Some _) => true
  | _ => false
  end.



(** * Proofs *)

Import train.
#[local] Set Warnings "-clear-no-such-hyp".

Section ModelFacts.
  Import models.
  Implicit Types (m : FoodVisionModel) (g : gset Param) (ps blk : list Param)
                 (feats : list (list Param)) (p : Param).

Lemma set_all_false g ps : set_all false g ps = g ∖ list_to_set ps.
Proof.
  revert g. induction ps as [|q ps IH]; intros g; simpl.
  - set_solver.
  - rewrite IH. unfold set_requires_grad. set_solver.
Qed.

Lemma set_all_true g ps : set_all true g ps = g ∪ list_to_set ps.
Proof.
  revert g. induction ps as [|q ps IH]; intros g; simpl.
  - set_solver.
  - rewrite IH. unfold set_requires_grad. set_solver.
Qed.

Lemma elem_of_parameters feats p : p ∈ parameters feats ↔ p ∈ mjoin feats.
Proof. unfold parameters. apply elem_of_remove_dups. Qed.

Lemma elem_of_freeze m p :
  p ∈ grad (freeze_backbone m) ↔ p ∈ grad m ∧ p ∉ mjoin (features (backbone m)).
Proof.
  simpl. rewrite set_all_false, elem_of_difference, elem_of_list_to_set.
  by rewrite elem_of_parameters.
Qed.

Lemma elem_of_unfreeze m p :
  p ∈ grad (unfreeze_backbone m) ↔ p ∈ grad m ∨ p ∈ mjoin (features (backbone m)).
Proof.
  simpl. rewrite set_all_true, elem_of_union, elem_of_list_to_set.
  by rewrite elem_of_parameters.
Qed.

Lemma getitem_Ok {A} (l : list A) i :
  - Z.of_nat (length l) ≤ i < Z.of_nat (length l) →
  ∃ x, getitem l i = Ok x ∧ l !! Z.to_nat (i `mod` Z.of_nat (length l)) = Some x.
Proof.
  intros Hi. unfold getitem. rewrite bool_decide_eq_true_2 by done.
  destruct (l !! _) as [x|] eqn:E; [by eauto|].
  apply lookup_ge_None in E.
  pose proof (Z.mod_pos_bound i (Z.of_nat (length l))). lia.
Qed.

Lemma getitem_Raise {A} (l : list A) i :
  ¬ (- Z.of_nat (length l) ≤ i < Z.of_nat (length l)) →
  getitem l i = Raise (IndexError i).
Proof. intros Hi. unfold getitem. by rewrite bool_decide_eq_false_2. Qed.

(** What the loop of [unfreeze_last_blocks] does when every index is
    accepted. *)
Lemma unfreeze_blocks_Ok feats idxs g :
  Forall (λ i, - Z.of_nat (length feats) ≤ i < Z.of_nat (length feats)) idxs →
  ∃ g', unfreeze_blocks feats idxs g = (g', Ok ()) ∧
    ∀ p, p ∈ g' ↔
      p ∈ g ∨ ∃ i blk, i ∈ idxs ∧
        feats !! Z.to_nat (i `mod` Z.of_nat (length feats)) = Some blk ∧ p ∈ blk.
Proof.
  intros Hall. revert g. induction Hall as [|i idxs Hi _ IH]; intros g; simpl.
  - exists g. split; [done|]. intros p. split; [auto|].
    intros [?|(i & blk & Hin & _)]; [done|]. by apply elem_of_nil in Hin.
  - destruct (getitem_Ok feats i Hi) as (blk & -> & Hblk).
    destruct (IH (set_all true g blk)) as (g' & -> & Hg').
    exists g'. split; [done|]. intros p. rewrite Hg', set_all_true.
    rewrite elem_of_union, elem_of_list_to_set. split.
    + intros [[?|?]|(j & b & Hj & Hb & Hp)]; [by left|right..].
      * exists i, blk. split_and!; [left|done..].
      * exists j, b. split_and!; [by right|done..].
    + intros [?|(j & b & Hj & Hb & Hp)]; [by left; left|].
      apply elem_of_cons in Hj as [->|Hj].
      * left; right. congruence.
      * right. eauto.
Qed.

Lemma elem_of_range a b i : i ∈ range a b ↔ a ≤ i < b.
Proof. unfold range. rewrite elem_of_seqZ. lia. Qed.

(** [unfreeze_last_blocks(n)] returns for every [n] up to twice the number
    of blocks, and this is what it leaves trainable. *)
Lemma unfreeze_last_blocks_Ok n m :
  let total := Z.of_nat (length (features (backbone m))) in
  n ≤ 2 * total →
  (unfreeze_last_blocks n m).2 = Ok () ∧
  backbone (unfreeze_last_blocks n m).1 = backbone m ∧
  _frozen (unfreeze_last_blocks n m).1 = true ∧
  ∀ p, p ∈ grad (unfreeze_last_blocks n m).1 ↔
    (p ∈ grad m ∧ p ∉ mjoin (features (backbone m))) ∨
    ∃ i blk, total - n ≤ i < total ∧
      features (backbone m) !! Z.to_nat (i `mod` total) = Some blk ∧ p ∈ blk.
Proof.
  intros total Hn. unfold unfreeze_last_blocks.
  destruct (unfreeze_blocks_Ok (features (backbone (freeze_backbone m)))
              (range (total - n) total) (grad (freeze_backbone m)))
    as (g' & Heq & Hg').
  { apply Forall_forall. intros i Hi%elem_of_range. simpl. fold total. lia. }
  simpl in Heq. fold total in Heq. simpl. fold total. rewrite Heq. simpl.
  split_and!; try done. intros p. rewrite Hg'.
  pose proof (elem_of_freeze m p) as Hf. simpl in Hf. rewrite Hf.
  fold total. by setoid_rewrite elem_of_range.
Qed.

Lemma unfreeze_last_blocks_Raise n m :
  let total := Z.of_nat (length (features (backbone m))) in
  2 * total < n →
  unfreeze_last_blocks n m =
    ({| backbone := backbone m; grad := grad (freeze_backbone m); _frozen := true |},
     Raise (IndexError (total - n))).
Proof.
  intros total Hn. unfold unfreeze_last_blocks. simpl. fold total.
  unfold range. rewrite seqZ_cons by lia. simpl.
  rewrite getitem_Raise; [done|]. fold total. lia.
Qed.

Lemma block_in_join feats i blk p :
  feats !! i = Some blk → p ∈ blk → p ∈ mjoin feats.
Proof.
  intros Hi Hp. apply list_elem_of_join. exists blk. split; [done|].
  by eapply list_elem_of_lookup_2.
Qed.

(** In a well-formed network a tensor names its block. *)
Lemma block_unique feats i j bi bj p :
  NoDup (mjoin feats) →
  feats !! i = Some bi → feats !! j = Some bj → p ∈ bi → p ∈ bj → i = j.
Proof.
  revert i j. induction feats as [|b feats IH]; intros i j Hnd Hi Hj Hpi Hpj.
  - by rewrite lookup_nil in Hi.
  - simpl in Hnd. apply NoDup_app in Hnd as (_ & Hdisj & Hnd).
    pose proof (block_in_join feats) as Hin.
    destruct i as [|i], j as [|j]; simpl in *; simplify_eq; [done|..].
    + exfalso. eapply Hdisj; eauto.
    + exfalso. eapply Hdisj; eauto.
    + f_equal. eauto.
Qed.


Lemma model_eq m1 m2 :
  backbone m1 = backbone m2 → grad m1 = grad m2 → _frozen m1 = _frozen m2 → m1 = m2.
Proof. destruct m1, m2; simpl; congruence. Qed.

Lemma requires_grad_true m p : requires_grad m p = true ↔ p ∈ grad m.
Proof. unfold requires_grad. apply bool_decide_eq_true. Qed.

Lemma requires_grad_ext m1 m2 p :
  (p ∈ grad m1 ↔ p ∈ grad m2) → requires_grad m1 p = requires_grad m2 p.
Proof. intros Hiff. unfold requires_grad. by apply bool_decide_ext. Qed.

(** A call forgets what an earlier call unfroze. *)
Lemma unfreeze_last_blocks_forgets n1 n m :
  let total := Z.of_nat (length (features (backbone m))) in
  n1 ≤ 2 * total → n ≤ 2 * total →
  (unfreeze_last_blocks n (unfreeze_last_blocks n1 m).1).1 = (unfreeze_last_blocks n m).1.
Proof.
  intros total Hn1 Hn.
  destruct (unfreeze_last_blocks_Ok n1 m Hn1) as (_ & Hb1 & _ & Hg1).
  destruct (unfreeze_last_blocks_Ok n m Hn) as (_ & Hb & Hf & Hg).
  destruct (unfreeze_last_blocks_Ok n (unfreeze_last_blocks n1 m).1)
    as (_ & Hb' & Hf' & Hg'); [by rewrite Hb1|].
  apply model_eq; [congruence| |congruence].
  apply set_eq. intros p. rewrite Hg', Hg, Hg1, Hb1. fold total.
  split; [|tauto]. intros [[[?|(i & blk & _ & Hi & Hp)] Hout]|?]; [tauto| |tauto].
  destruct Hout. by eapply block_in_join.
Qed.

Lemma run_call_backbone m c : backbone (run_call m c) = backbone m.
Proof.
  destruct c as [| |n]; simpl; [done..|].
  unfold unfreeze_last_blocks. by destruct (unfreeze_blocks _ _ _).
Qed.

(** No call writes the flag of a tensor outside the blocks. *)
Lemma run_call_outside m c p :
  p ∉ mjoin (features (backbone m)) →
  requires_grad (run_call m c) p = requires_grad m p.
Proof.
  intros Hp. apply requires_grad_ext. destruct c as [| |n]; unfold run_call.
  - rewrite elem_of_freeze. tauto.
  - rewrite elem_of_unfreeze. tauto.
  - destruct (decide (n ≤ 2 * Z.of_nat (length (features (backbone m))))) as [Hn|Hn].
    + destruct (unfreeze_last_blocks_Ok n m Hn) as (_ & _ & _ & ->).
      split; [|tauto]. intros [?|(i & blk & _ & Hi & Hin)]; [tauto|].
      destruct Hp. by eapply block_in_join.
    + rewrite unfreeze_last_blocks_Raise by lia. simpl.
      pose proof (elem_of_freeze m p) as Hf. simpl in Hf. rewrite Hf. tauto.
Qed.

Lemma well_formed_head bb p :
  well_formed bb → p ∈ classifier bb → p ∉ mjoin (features bb).
Proof. intros (_ & Hd & _)%NoDup_app Hp Hin. by eapply Hd. Qed.

Lemma init_head bb freeze p :
  well_formed bb → p ∈ classifier bb → p ∈ grad (init bb freeze).
Proof.
  intros Hwf Hp. destruct freeze; simpl.
  - apply (elem_of_freeze {| backbone := bb; grad := _; _frozen := false |}).
    simpl. split; [|by apply well_formed_head].
    apply elem_of_list_to_set, elem_of_app. by right.
  - apply elem_of_list_to_set, elem_of_app. by right.
Qed.

Lemma run_calls_backbone m cs : backbone (foldl run_call m cs) = backbone m.
Proof.
  revert m. induction cs as [|c cs IH]; intros m; simpl; [done|].
  by rewrite IH, run_call_backbone.
Qed.

Lemma run_calls_outside m cs p :
  p ∉ mjoin (features (backbone m)) →
  requires_grad (foldl run_call m cs) p = requires_grad m p.
Proof.
  revert m. induction cs as [|c cs IH]; intros m Hp; simpl; [done|].
  rewrite IH by (by rewrite run_call_backbone). by apply run_call_outside.
Qed.

(** C1. For every [n] from 0 to the number of blocks and every prior
    state of the flags in which the head is trainable (any state the calls
    of the policy can leave), [unfreeze_last_blocks(n)] returns, and after
    it a tensor of block [i] is trainable exactly when [i] is one of the
    last [n] indices, the head is trainable, repeating the call changes
    nothing, and a call after a call with another count leaves the state
    of the later count alone. *)
Theorem unfreeze_last_blocks_exact (m : FoodVisionModel) (n : Z) :
  let bb := backbone m in
  let total := Z.of_nat (length (features bb)) in
  well_formed bb →
  (∀ p, p ∈ classifier bb → requires_grad m p = true) →
  0 ≤ n ≤ total →
  let m' := (unfreeze_last_blocks n m).1 in
  (unfreeze_last_blocks n m).2 = Ok () ∧
  backbone m' = bb ∧
  (∀ i blk p, features bb !! i = Some blk → p ∈ blk →
     requires_grad m' p = bool_decide (total - n ≤ Z.of_nat i)) ∧
  (∀ p, p ∈ classifier bb → requires_grad m' p = true) ∧
  (unfreeze_last_blocks n m').1 = m' ∧
  (∀ n1, 0 ≤ n1 ≤ total →
     (unfreeze_last_blocks n (unfreeze_last_blocks n1 m).1).1 = m').
Proof.
  intros bb total Hwf Hhead Hn m'.
  destruct (unfreeze_last_blocks_Ok n m) as (Hok & Hb & _ & Hg); [fold bb total; lia|].
  fold bb total m' in Hok, Hb, Hg.
  split_and!; [done..| | | |].
  - intros i blk p Hi Hp. unfold requires_grad. apply bool_decide_ext.
    rewrite Hg. apply lookup_lt_Some in Hi as Hlt. split.
    + intros [[_ Hout]|(j & bj & Hj & Hbj & Hpj)].
      { destruct Hout. by eapply block_in_join. }
      rewrite Z.mod_small in Hbj by lia.
      apply NoDup_app in Hwf as (Hnd & _).
      assert (i = Z.to_nat j) by (by eapply block_unique). lia.
    + intros Hge. right. exists (Z.of_nat i), blk.
      rewrite Z.mod_small by (fold total; lia). rewrite Nat2Z.id.
      split_and!; [lia|fold total; lia|done..].
  - intros p Hp. apply requires_grad_true, Hg. left.
    split; [by apply requires_grad_true, Hhead|by apply well_formed_head].
  - apply (unfreeze_last_blocks_forgets n n m); fold bb total; lia.
  - intros n1 Hn1. apply (unfreeze_last_blocks_forgets n1 n m); fold bb total; lia.
Qed.

(** C7. In a well-formed network the head stays trainable whatever calls
    of the freeze policy are made: each call leaves the flags of the head
    as they were, from construction on they are all set, after
    [freeze_backbone()] the trainable tensors of the model are those of
    the head, and [freeze_backbone()] done twice is [freeze_backbone()]
    done once. *)
Theorem head_stays_trainable (bb : Backbone) :
  well_formed bb →
  (∀ m c p, backbone m = bb → p ∈ classifier bb →
     requires_grad (run_call m c) p = requires_grad m p) ∧
  (∀ freeze cs p, p ∈ classifier bb →
     requires_grad (foldl run_call (init bb freeze) cs) p = true) ∧
  (∀ freeze cs p, p ∈ mjoin (features bb) ++ classifier bb →
     requires_grad (freeze_backbone (foldl run_call (init bb freeze) cs)) p = true
     ↔ p ∈ classifier bb) ∧
  (∀ m, freeze_backbone (freeze_backbone m) = freeze_backbone m).
Proof.
  intros Hwf.
  assert (∀ freeze cs p, p ∈ classifier bb →
            requires_grad (foldl run_call (init bb freeze) cs) p = true) as Hrun.
  { intros freeze cs p Hp. rewrite run_calls_outside.
    - by apply requires_grad_true, init_head.
    - destruct freeze; by apply well_formed_head. }
  split_and!; [|done| |].
  - intros m c p <- Hp. by apply run_call_outside, well_formed_head.
  - intros freeze cs p Hp. rewrite requires_grad_true, elem_of_freeze.
    rewrite run_calls_backbone.
    replace (backbone (init bb freeze)) with bb by (by destruct freeze).
    rewrite <-requires_grad_true. split.
    + intros [_ Hout]. apply elem_of_app in Hp as [?|?]; [done|done].
    + intros Hc. split; [by apply Hrun|by apply well_formed_head].
  - intros m. apply model_eq; [done| |done].
    apply set_eq. intros p. rewrite !elem_of_freeze. simpl. tauto.
Qed.
End ModelFacts.

Section GroupFacts.
  Import models.
  Context {F : Type}.
  Implicit Types (m : FoodVisionModel) (ps blk acc : list Param).

Lemma append_trainable_filter m acc blk :
  append_trainable m acc blk = acc ++ trainable_of m blk.
Proof.
  revert acc. induction blk as [|p blk IH]; intros acc; simpl.
  - by rewrite app_nil_r.
  - unfold append_trainable in *. simpl. rewrite IH. unfold trainable_of.
    rewrite filter_cons. destruct (requires_grad m p) eqn:E.
    + rewrite decide_True by done. by rewrite <-app_assoc.
    + rewrite decide_False by congruence. done.
Qed.

Lemma getitem_nat {A} (l : list A) (a : nat) x :
  l !! a = Some x → getitem l (Z.of_nat a) = Ok x.
Proof.
  intros Hx. apply lookup_lt_Some in Hx as Hlt. unfold getitem.
  rewrite bool_decide_eq_true_2 by lia.
  rewrite Z.mod_small by lia. by rewrite Nat2Z.id, Hx.
Qed.

(** The outer loop over a run of indices that are all in range gathers
    the trainable tensors of those blocks, in order. *)
Lemma collect_run m (a k : nat) acc :
  (a + k ≤ length (features (backbone m)))%nat →
  collect m (seqZ (Z.of_nat a) (Z.of_nat k)) acc =
    Ok (acc ++ trainable_of m (mjoin (take k (drop a (features (backbone m)))))).
Proof.
  revert a acc. induction k as [|k IH]; intros a acc Hle.
  - simpl. by rewrite app_nil_r.
  - rewrite seqZ_cons by lia. simpl.
    destruct (features (backbone m) !! a) as [blk|] eqn:Hblk;
      [|apply lookup_ge_None in Hblk; lia].
    rewrite (getitem_nat _ _ _ Hblk).
    replace (Z.succ (Z.of_nat a)) with (Z.of_nat (S a)) by lia.
    replace (Z.pred (Z.of_nat (S k))) with (Z.of_nat k) by lia.
    rewrite IH by lia. rewrite append_trainable_filter.
    rewrite (drop_S _ _ _ Hblk). simpl. unfold trainable_of.
    by rewrite filter_app, app_assoc.
Qed.

Lemma join_params_nonempty (gs : list (ParamGroup F)) :
  mjoin (params <$> filter (λ g, params g ≠ []) gs) = mjoin (params <$> gs).
Proof.
  induction gs as [|g gs IH]; [done|]. rewrite filter_cons.
  destruct (decide (params g ≠ [])) as [Hne|He]; csimpl.
  - by rewrite IH.
  - apply dec_stable in He. by rewrite He, IH.
Qed.

(** C6. In a well-formed network with at least two blocks,
    [get_parameter_groups] returns, for every state of the flags, the
    groups of the design: the trainable tensors of the blocks before the
    last two as [mid_layers], those of the last two blocks as
    [last_blocks], those of the head as [classifier], a group being left
    out when it is empty.  No tensor is listed twice, in one group or in
    two, and the tensors listed are the trainable tensors of the
    model. *)
Theorem parameter_groups_partition (m : FoodVisionModel)
    (lr_classifier lr_last_blocks lr_mid_layers : F) :
  well_formed (backbone m) →
  (2 ≤ length (features (backbone m)))%nat →
  ∃ gs, get_parameter_groups m lr_classifier lr_last_blocks lr_mid_layers = Ok gs ∧
    gs = groups_by_design m lr_classifier lr_last_blocks lr_mid_layers ∧
    NoDup (mjoin (params <$> gs)) ∧
    (∀ p, p ∈ mjoin (params <$> gs) ↔
       p ∈ mjoin (features (backbone m)) ++ classifier (backbone m)
       ∧ requires_grad m p = true) ∧
    (∀ g, g ∈ gs → params g ≠ []).
Proof.
  intros Hwf Hlen.
  set (feats := features (backbone m)) in *.
  set (k := (length feats - 2)%nat).
  assert (mjoin (params <$> groups_by_design m lr_classifier lr_last_blocks lr_mid_layers)
          = trainable_of m (mjoin feats ++ classifier (backbone m))) as Hall.
  { unfold groups_by_design. rewrite join_params_nonempty. simpl. fold feats k.
    rewrite app_nil_r. unfold trainable_of.
    rewrite app_assoc, <-!filter_app, <-join_app. by rewrite take_drop. }
  exists (groups_by_design m lr_classifier lr_last_blocks lr_mid_layers).
  split_and!; [|done| | |].
  - unfold get_parameter_groups, range. fold feats.
    replace (Z.of_nat (length feats) - 2 - 0) with (Z.of_nat k) by lia.
    replace (Z.of_nat (length feats) - (Z.of_nat (length feats) - 2))
      with (Z.of_nat 2) by lia.
    replace (Z.of_nat (length feats) - 2) with (Z.of_nat k) by lia.
    rewrite (collect_run m 0 k) by (fold feats; lia).
    rewrite (collect_run m k 2) by (fold feats; lia).
    fold feats. rewrite drop_0. simpl app.
    rewrite (take_ge (drop k feats)) by (rewrite length_drop; lia).
    unfold groups_by_design. fold feats k. f_equal.
    rewrite !filter_cons, filter_nil. simpl. unfold append_group.
    fold (trainable_of m (classifier (backbone m))).
    destruct (trainable_of m (mjoin (take k feats))),
             (trainable_of m (mjoin (drop k feats))),
             (trainable_of m (classifier (backbone m))); simpl;
      repeat (first [rewrite decide_True by done | rewrite decide_False by (by intros [])]);
      done.
  - rewrite Hall. by apply NoDup_filter.
  - intros p. rewrite Hall. unfold trainable_of. by rewrite list_elem_of_filter, (comm and).
  - intros g Hg. unfold groups_by_design in Hg. by apply list_elem_of_filter in Hg as [? _].
Qed.
End GroupFacts.

Section MonadFacts.
  Context {F : Type} `{Number F} `{Torch F}.

Lemma bind_unfold {A B} (c : M A) (k : A → M B) p :
  (c ≫= k) p = match c p with
               | (Ok a, p') => k a p'
               | (Raise e, p') => (Raise e, p')
               end.
Proof. reflexivity. Qed.

Lemma bind_Ok {A B} (c : M A) (k : A → M B) p a p' :
  c p = (Ok a, p') → (c ≫= k) p = k a p'.
Proof. intros E. by rewrite bind_unfold, E. Qed.

Lemma bind_Raise {A B} (c : M A) (k : A → M B) p e p' :
  c p = (Raise e, p') → (c ≫= k) p = (Raise e, p').
Proof. intros E. by rewrite bind_unfold, E. Qed.


Lemma untouched_refl p : untouched p p.
Proof. by repeat split. Qed.

Lemma untouched_trans p1 p2 p3 : untouched p1 p2 → untouched p2 p3 → untouched p1 p3.
Proof. unfold untouched. intuition congruence. Qed.

Lemma quiet_ret {A} (a : A) : quiet (mret a).
Proof. intros p. apply untouched_refl. Qed.

Lemma quiet_bind {A B} (c : M A) (k : A → M B) :
  quiet c → (∀ a, quiet (k a)) → quiet (c ≫= k).
Proof.
  intros Hc Hk p. rewrite bind_unfold. specialize (Hc p).
  destruct (c p) as [[a|e] p1]; simpl in *; [|done].
  eapply untouched_trans; [done|apply Hk].
Qed.

Lemma quiet_lift {A} (r : result A) : quiet (lift r).
Proof. intros p. apply untouched_refl. Qed.

Lemma quiet_ask {A} (f : Host → A) : quiet (ask f).
Proof. intros p. apply untouched_refl. Qed.

Lemma quiet_get_rngs : quiet get_rngs.
Proof. intros p. apply untouched_refl. Qed.

Lemma quiet_get_cudnn : quiet get_cudnn.
Proof. intros p. apply untouched_refl. Qed.

Lemma quiet_draw {A} (f : Cudnn → Hw → Rngs Gen → A * Rngs Gen) : quiet (draw f).
Proof. intros p. unfold draw. by destruct (f _ _ _). Qed.

Lemma quiet_foldM {A B} (f : B → A → M B) (l : list A) b :
  (∀ b x, quiet (f b x)) → quiet (foldM f b l).
Proof.
  intros Hf. revert b. induction l as [|x l IH]; intros b; simpl.
  - apply quiet_ret.
  - apply quiet_bind; [apply Hf|apply IH].
Qed.

Ltac quiet_step :=
  first [ apply quiet_ret | apply quiet_lift | apply quiet_ask
        | apply quiet_get_rngs | apply quiet_get_cudnn | apply quiet_draw
        | apply quiet_bind; [|intros ?] ].

Lemma quiet_train_batch device st ib : quiet (train_batch device st ib).
Proof.
  destruct st as [[model optimizer] s], ib as [batch_idx [images labels]].
  unfold train_batch. repeat quiet_step.
  destruct (backward_step _ _ _ _ _ _ _ _). repeat quiet_step.
Qed.

Lemma quiet_train_one_epoch model tl opt device e E :
  quiet (train_one_epoch model tl opt device e E).
Proof.
  unfold train_one_epoch. repeat quiet_step.
  - apply quiet_foldM. intros. apply quiet_train_batch.
  - destruct a0 as [[? ?] ?]. repeat quiet_step.
Qed.

Lemma quiet_evaluate_batch model tl device s b :
  quiet (evaluate_batch model tl device s b).
Proof. destruct b. unfold evaluate_batch. repeat quiet_step. Qed.

Lemma quiet_evaluate model tl device : quiet (evaluate model tl device).
Proof.
  unfold evaluate. repeat quiet_step.
  apply quiet_foldM. intros. apply quiet_evaluate_batch.
Qed.

(** What one turn of the epoch loop does, when it does not raise. *)
Lemma epoch_body_Ok cfg out device tl te sched epoch l p l' stop p' :
  epoch_body cfg out device tl te sched epoch l p = (Ok (l', stop), p') →
  ∃ trl tra vl va,
    h_train_loss (l_history l') = h_train_loss (l_history l) ++ [trl] ∧
    h_train_acc (l_history l') = h_train_acc (l_history l) ++ [tra] ∧
    h_test_loss (l_history l') = h_test_loss (l_history l) ++ [vl] ∧
    h_test_acc (l_history l') = h_test_acc (l_history l) ++ [va] ∧
    l_epoch l' = Some epoch ∧
    stop = config.early_stopping (config.training cfg)
           && bool_decide (config.patience (config.training cfg)
                           ≤ l_epochs_without_improvement l') ∧
    ticks p' = ticks p ∧ host p' = host p ∧ cudnn p' = cudnn p ∧
    if gt va (l_best_test_acc l) then
      l_best_test_acc l' = va ∧ l_best_epoch l' = epoch ∧
      l_epochs_without_improvement l' = 0 ∧
      ∃ ck, ck_epoch ck = epoch ∧ ck_test_acc ck = va ∧ ck_test_loss ck = vl ∧
        ck_config ck = cfg ∧
        model_state_dict ck = weights (l_model l') ∧
        optimizer_state_dict ck = l_optimizer l' ∧
        writes p' = writes p ++ [(path_join out "best_model.pth", Pth ck)] ∧
        fs p' = <[path_join out "best_model.pth" := Intact (Pth ck)]> (fs p) ∧
        disk p' = tail (disk p)
    else
      l_best_test_acc l' = l_best_test_acc l ∧
      l_best_epoch l' = l_best_epoch l ∧
      l_epochs_without_improvement l'
        = l_epochs_without_improvement l + 1 ∧
      writes p' = writes p ∧ fs p' = fs p ∧ disk p' = disk p.
Proof.
  unfold epoch_body. rewrite bind_unfold.
  pose proof (quiet_train_one_epoch (l_model l) tl (l_optimizer l) device
                epoch (config.epochs (config.training cfg)) p) as Hq1.
  destruct (train_one_epoch _ _ _ _ _ _ p) as [[[[[trl tra] m] o]|e] p1];
    [|discriminate].
  rewrite bind_unfold.
  pose proof (quiet_evaluate m te device p1) as Hq2.
  destruct (evaluate _ _ _ p1) as [[[vl va]|e] p2]; [|discriminate].
  pose proof (untouched_trans _ _ _ Hq1 Hq2) as (Hc & Hfs & Hd & Hw & Ht & Hh).
  simpl in Hc, Hfs, Hd, Hw, Ht, Hh. clear Hq1 Hq2.
  rewrite bind_unfold. destruct (gt va (l_best_test_acc l)) eqn:Hgt.
  - rewrite bind_unfold. unfold torch_save, write_file.
    destruct (disk p2) as [|[[|n]|] d] eqn:Hdisk; simpl; intros [= <- <- <-];
      exists trl, tra, vl, va; simpl; rewrite Hgt;
      (split_and!; try done); eexists; (split_and!; try done); simpl;
      rewrite ?Hw, ?Hfs, <-?Hd, ?Hdisk; try done; done.
  - simpl. intros [= <- <- <-]. exists trl, tra, vl, va. simpl. rewrite Hgt.
    by split_and!.
Qed.

(** *** The controller, in the words of the design *)

Lemma running_best_snoc accs a :
  running_best (accs ++ [a])
  = if gt a (running_best accs) then a else running_best accs.
Proof. unfold running_best. by rewrite foldl_app. Qed.

Lemma improving_from_snoc e best accs a :
  improving_from e best (accs ++ [a])
  = improving_from e best accs
    ++ (if gt a (foldl (λ b x, if gt x b then x else b) best accs)
        then [e + Z.of_nat (length accs)] else []).
Proof.
  revert e best. induction accs as [|x accs IH]; intros e best; simpl.
  - rewrite Z.add_0_r. by destruct (gt a best).
  - destruct (gt x best); rewrite IH; simpl;
      replace (e + 1 + Z.of_nat (length accs)) with (e + Z.pos (Pos.of_succ_nat (length accs)))
        by lia; done.
Qed.

Lemma improving_epochs_snoc accs a :
  improving_epochs (accs ++ [a])
  = improving_epochs accs
    ++ (if gt a (running_best accs) then [Z.of_nat (length accs) + 1] else []).
Proof.
  unfold improving_epochs. rewrite improving_from_snoc.
  by rewrite (Z.add_comm 1).
Qed.

Lemma last_improving_snoc accs a :
  last_improving (accs ++ [a])
  = if gt a (running_best accs) then Z.of_nat (length accs) + 1
    else last_improving accs.
Proof.
  unfold last_improving. rewrite improving_epochs_snoc.
  destruct (gt a _); [by rewrite last_snoc|by rewrite app_nil_r].
Qed.

Lemma streak_snoc accs a :
  streak (accs ++ [a])
  = if gt a (running_best accs) then 0 else streak accs + 1.
Proof.
  unfold streak. rewrite last_improving_snoc, length_app. simpl.
  destruct (gt a _); lia.
Qed.

Lemma streak_nil : streak [] = 0.
Proof. reflexivity. Qed.


Lemma tracks_fresh model optimizer : tracks (fresh_locals model optimizer).
Proof. by repeat split. Qed.

Lemma epoch_body_tracks cfg out device tl te sched l p l' stop p' :
  let accs := h_test_acc (l_history l) in
  let accs' := h_test_acc (l_history l') in
  epoch_body cfg out device tl te sched (Z.of_nat (length accs) + 1) l p
    = (Ok (l', stop), p') →
  tracks l →
  tracks l' ∧
  (∃ a, accs' = accs ++ [a]) ∧
  l_epoch l' = Some (Z.of_nat (length accs')) ∧
  (stop = true ↔ triggered cfg accs') ∧
  ticks p' = ticks p ∧ host p' = host p ∧ cudnn p' = cudnn p ∧
  ∃ new, improving_epochs accs' = improving_epochs accs ++ new ∧
    checkpoint_epochs (writes p') = checkpoint_epochs (writes p) ++ new.
Proof.
  intros accs accs' Hbody (Hb & He & Hc & L1 & L2 & L3).
  apply epoch_body_Ok in Hbody
    as (trl & tra & vl & va & H1 & H2 & H3 & H4 & H5 & Hs & Ht & Hh & Hcu & Hcase).
  fold accs in Hb, He, Hc, L1, L2, L3, H4. fold accs' in H4.
  rewrite Hb in Hcase.
  assert (length accs' = S (length accs)) as Hlen
    by (rewrite H4, length_app; simpl; lia).
  assert (tracks l' ∧ ∃ new,
            improving_epochs accs' = improving_epochs accs ++ new ∧
            checkpoint_epochs (writes p')
            = checkpoint_epochs (writes p) ++ new) as [Htr Hnew].
  { unfold tracks. fold accs'. rewrite H1, H2, H3, !length_app, L1, L2, L3, Hlen.
    rewrite H4, running_best_snoc, last_improving_snoc, streak_snoc,
      improving_epochs_snoc.
    destruct (gt va (running_best accs)).
    - destruct Hcase as (-> & -> & -> & ck & Hck & _ & _ & _ & _ & _ & Hw & _).
      split; [by repeat split; simpl; lia|].
      eexists. split; [done|]. rewrite Hw. unfold checkpoint_epochs.
      rewrite omap_app. simpl. by rewrite Hck.
    - destruct Hcase as (-> & -> & -> & Hw & _).
      split; [by repeat split; simpl; lia|].
      exists []. by rewrite Hw, !app_nil_r. }
  split_and!; try done.
  - by eexists.
  - rewrite H5, Hlen. f_equal. lia.
  - rewrite Hs. destruct Htr as (_ & _ & -> & _). unfold triggered.
    rewrite andb_true_iff, bool_decide_eq_true. done.
Qed.

(** A run of the loop over the next [n] epochs. *)
Lemma epoch_loop_run cfg out device tl te sched (n : nat) :
  ∀ l p l' p',
  let accs := h_test_acc (l_history l) in
  let accs' := h_test_acc (l_history l') in
  epoch_loop cfg out device tl te sched
    (seqZ (Z.of_nat (length accs) + 1) (Z.of_nat n)) l p = (Ok l', p') →
  tracks l →
  tracks l' ∧
  (∃ more, accs' = accs ++ more ∧ (length more ≤ n)%nat ∧ (0 < n → 0 < length more)%nat) ∧
  (l_epoch l = Some (Z.of_nat (length accs)) ∨ (0 < n)%nat →
   l_epoch l' = Some (Z.of_nat (length accs'))) ∧
  (∀ j, (length accs < j < length accs')%nat → ¬ triggered cfg (take j accs')) ∧
  ((length accs' < length accs + n)%nat → triggered cfg accs') ∧
  ticks p' = ticks p ∧ host p' = host p ∧ cudnn p' = cudnn p ∧
  ∃ new, improving_epochs accs' = improving_epochs accs ++ new ∧
    checkpoint_epochs (writes p') = checkpoint_epochs (writes p) ++ new.
Proof.
  induction n as [|n IH]; intros l p l' p' accs accs' Hrun Htr.
  - simpl in Hrun. injection Hrun as <- <-. subst accs'. fold accs.
    split_and!; try done; try lia.
    + exists []. rewrite app_nil_r. split_and!; [done|simpl; lia|lia].
    + intros [?|?]; [done|lia].
    + exists []. by rewrite !app_nil_r.
  - rewrite seqZ_cons in Hrun by lia. simpl in Hrun. rewrite bind_unfold in Hrun.
    destruct (epoch_body _ _ _ _ _ _ _ l p) as [[[l1 stop]|e] p1] eqn:Hbody;
      [|discriminate].
    destruct (epoch_body_tracks _ _ _ _ _ _ _ _ _ _ _ Hbody Htr)
      as (Htr1 & [a Ha] & Hep & Hstop & Ht & Hh & Hc & new1 & Hi1 & Hw1).
    fold accs in Ha, Hi1.
    destruct stop.
    + injection Hrun as <- <-. subst accs'. rewrite Ha.
      split_and!; try done.
      * exists [a]. simpl. split_and!; [done|lia|lia].
      * intros _. rewrite <-Ha. exact Hep.
      * intros j. rewrite length_app. simpl. lia.
      * intros _. rewrite <-Ha. by apply Hstop.
      * exists new1. by rewrite <-Ha.
    + assert (¬ triggered cfg (accs ++ [a])) as Hno.
      { rewrite <-Ha. intros Htrig. apply Hstop in Htrig. done. }
      replace (Z.succ (Z.of_nat (length accs) + 1))
        with (Z.of_nat (length (h_test_acc (l_history l1))) + 1) in Hrun
        by (rewrite Ha, length_app; simpl; lia).
      replace (Z.pred (Z.of_nat (S n))) with (Z.of_nat n) in Hrun by lia.
      destruct (IH _ _ _ _ Hrun Htr1)
        as (Htr' & (more & Hmore & Hlen & Hpos) & Hep' & Hbefore & Hafter
            & Ht' & Hh' & Hc' & new & Hi & Hw).
      fold accs' in Hmore, Hep', Hbefore, Hafter, Hi. rewrite Ha in Hmore, Hbefore, Hafter, Hi.
      split_and!; try done; try congruence.
      * exists (a :: more). rewrite Hmore, <-app_assoc. simpl. split_and!; [done|lia|lia].
      * intros _. apply Hep'. left. exact Hep.
      * intros j Hj. destruct (decide (j = S (length accs))) as [->|Hne].
        -- rewrite Hmore.
           replace (S (length accs)) with (length (accs ++ [a]))
             by (rewrite length_app; simpl; lia).
           by rewrite take_app_length.
        -- apply Hbefore. rewrite length_app. simpl. lia.
      * intros Hlt. apply Hafter. rewrite length_app. simpl. lia.
      * exists (new1 ++ new). rewrite Ha in Hi1.
        rewrite Hi, Hw, Hi1, Hw1, <-!app_assoc. done.
Qed.

Lemma range_from_one E : range 1 (E + 1) = seqZ (Z.of_nat 0 + 1) (Z.of_nat (Z.to_nat E)).
Proof. unfold range, seqZ. rewrite Nat2Z.id. do 2 f_equal. lia. Qed.

(** C2. At every epoch the loop writes a checkpoint exactly when the
    accuracy of the epoch strictly exceeds the best value of the run so
    far, which starts at 0: then the checkpoint of this epoch is the one
    write of the epoch and the best value, the best epoch and the counter
    are updated; otherwise, and so on a tie, nothing is written, the best
    value and the best epoch stay, and the counter goes up by one.  Over a
    run the checkpoints written are those of the improving epochs, in
    order. *)
Theorem checkpoint_iff_strict_improvement cfg out device tl te sched :
  (∀ x : F, gt x x = false) →
  (∀ epoch l p l' stop p',
     epoch_body cfg out device tl te sched epoch l p = (Ok (l', stop), p') →
     ∃ a, h_test_acc (l_history l') = h_test_acc (l_history l) ++ [a] ∧
       (gt a (l_best_test_acc l) = true →
          (∃ ck, writes p' = writes p ++ [(path_join out "best_model.pth", Pth ck)] ∧
             fs p' !! path_join out "best_model.pth" = Some (Intact (Pth ck)) ∧
             ck_epoch ck = epoch ∧ ck_test_acc ck = a) ∧
          l_best_test_acc l' = a ∧ l_best_epoch l' = epoch ∧
          l_epochs_without_improvement l' = 0) ∧
       (gt a (l_best_test_acc l) = false ∨ a = l_best_test_acc l →
          writes p' = writes p ∧ fs p' = fs p ∧
          l_best_test_acc l' = l_best_test_acc l ∧
          l_best_epoch l' = l_best_epoch l ∧
          l_epochs_without_improvement l' = l_epochs_without_improvement l + 1)) ∧
  (∀ model optimizer E p l p',
     epoch_loop cfg out device tl te sched (range 1 (E + 1))
                (fresh_locals model optimizer) p = (Ok l, p') →
     l_best_test_acc l = running_best (h_test_acc (l_history l)) ∧
     l_best_epoch l = last_improving (h_test_acc (l_history l)) ∧
     checkpoint_epochs (writes p')
     = checkpoint_epochs (writes p) ++ improving_epochs (h_test_acc (l_history l))).
Proof.
  intros Hirr. split.
  - intros epoch l p l' stop p' Hbody.
    apply epoch_body_Ok in Hbody
      as (trl & tra & vl & va & _ & _ & _ & H4 & _ & _ & _ & _ & _ & Hcase).
    exists va. split; [done|]. split.
    + intros Hgt. rewrite Hgt in Hcase.
      destruct Hcase as (-> & -> & -> & ck & Hck & Hacc & _ & _ & _ & _ & Hw & Hfs & _).
      split_and!; try done. exists ck. split_and!; try done.
      rewrite Hfs. apply lookup_insert_eq.
    + intros Hle. assert (gt va (l_best_test_acc l) = false) as Hgt.
      { destruct Hle as [?|<-]; [done|apply Hirr]. }
      rewrite Hgt in Hcase. destruct Hcase as (-> & -> & -> & -> & -> & _). done.
  - intros model optimizer E p l p' Hrun. rewrite range_from_one in Hrun.
    apply (epoch_loop_run _ _ _ _ _ _ _ (fresh_locals model optimizer)) in Hrun
      as ((Hb & He & _) & _ & _ & _ & _ & _ & _ & _ & new & Hi & Hw);
      [|apply tracks_fresh].
    simpl in Hi. split_and!; [done..|]. by rewrite Hw, Hi.
Qed.

(** C3. In a run of the loop that returns, with [K] epochs done: each
    epoch done has its four history entries and [epoch] is [K]; the
    counter is the count of consecutive non-improving epochs; at no epoch
    before [K] was early stopping on with the count at the patience or
    above; if fewer epochs were done than configured, early stopping is
    on and the count is at the patience or above at [K]; and for a
    patience of at least 1 the count at the stop is the patience itself:
    the loop stops at the end of the epoch at which the count reaches
    the patience. *)
Theorem early_stop_exact cfg out device tl te sched model optimizer p l p' :
  let E := config.epochs (config.training cfg) in
  let P := config.patience (config.training cfg) in
  epoch_loop cfg out device tl te sched (range 1 (E + 1))
             (fresh_locals model optimizer) p = (Ok l, p') →
  let accs := h_test_acc (l_history l) in
  let K := Z.of_nat (length accs) in
  K ≤ Z.max 0 E ∧
  (0 < E → 0 < K ∧ l_epoch l = Some K) ∧
  (length (h_train_loss (l_history l)) = length accs ∧
   length (h_train_acc (l_history l)) = length accs ∧
   length (h_test_loss (l_history l)) = length accs) ∧
  l_epochs_without_improvement l = streak accs ∧
  (∀ j, (0 < j < length accs)%nat → ¬ triggered cfg (take j accs)) ∧
  (K < E → triggered cfg accs) ∧
  (1 ≤ P → triggered cfg accs → streak accs = P).
Proof.
  intros E P Hrun accs K. rewrite range_from_one in Hrun.
  apply (epoch_loop_run _ _ _ _ _ _ _ (fresh_locals model optimizer)) in Hrun
    as ((_ & _ & Hc & L1 & L2 & L3) & (more & Hmore & Hlen & Hpos) & Hep & Hbefore
        & Hafter & _); [|apply tracks_fresh].
  simpl in Hmore, Hbefore, Hafter, Hep. fold accs in Hc, L1, L2, L3, Hmore, Hbefore, Hafter, Hep.
  subst more. split_and!; try done.
  - unfold K. lia.
  - intros HE. assert (0 < Z.to_nat E)%nat as Hn by lia. split.
    + unfold K. specialize (Hpos Hn). lia.
    + apply Hep. by right.
  - intros HK. apply Hafter. unfold K in HK. lia.
  - intros HP [Hes Hge]. fold P in Hge.
    destruct accs as [|a accs0 _] using rev_ind.
    { rewrite streak_nil in Hge. lia. }
    rewrite streak_snoc in Hge |- *.
    destruct (gt a (running_best accs0)); [lia|].
    destruct accs0 as [|b accs1].
    { rewrite streak_nil in *. lia. }
    assert (¬ triggered cfg (b :: accs1)) as Hno.
    { specialize (Hbefore (length (b :: accs1))).
      rewrite take_app_length in Hbefore. apply Hbefore.
      rewrite length_app. simpl. lia. }
    unfold triggered in Hno. fold P in Hno.
    assert (¬ P ≤ streak (b :: accs1)) by tauto. lia.
Qed.

(** *** The sums of a pass *)

Lemma top1_nan (row : list F) (k : nat) x :
  row !! k = Some x → isnan x = true →
  (∀ j y, (j < k)%nat → row !! j = Some y → isnan y = false) →
  top1 row = Z.of_nat k.
Proof.
  intros Hk Hx Hbefore. unfold top1.
  assert (list_find (λ x, isnan x = true) row = Some (k, x)) as ->; [|done].
  apply list_find_Some. split_and!; [done..|].
  intros j y Hj Hlt. rewrite (Hbefore j y Hlt Hj). done.
Qed.

Lemma top1_max (row : list F) (k : nat) x :
  row !! k = Some x →
  Forall (λ y, isnan y = false) row →
  maximal row x →
  (∀ j y, (j < k)%nat → row !! j = Some y → gt x y = true) →
  top1 row = Z.of_nat k.
Proof.
  intros Hk Hnum Hmax Hbefore. unfold top1.
  assert (list_find (λ x, isnan x = true) row = None) as ->.
  { apply list_find_None. eapply Forall_impl; [exact Hnum|].
    intros y Hy. simpl in Hy. by rewrite Hy. }
  assert (list_find (maximal row) row = Some (k, x)) as ->; [|done].
  apply list_find_Some. split_and!; [done..|].
  intros j y Hj Hlt Hy. unfold maximal in Hy.
  rewrite Forall_forall in Hy.
  specialize (Hy x (list_elem_of_lookup_2 _ _ _ Hk)).
  rewrite (Hbefore j y Hlt Hj) in Hy. done.
Qed.

(** The scan, from any point of the row: with the scores before it
    summarised as the scan does, it ends at the top-1 position. *)
Lemma argmax_from_top1 (row : list F) :
  float_order →
  ∀ (pre : list F) (k : nat) (best : F),
  pre !! k = Some best →
  (isnan best = true →
   ∀ j y, (j < k)%nat → pre !! j = Some y → isnan y = false) →
  (isnan best = false →
   Forall (λ y, isnan y = false) pre ∧ maximal pre best ∧
   ∀ j y, (j < k)%nat → pre !! j = Some y → gt best y = true) →
  argmax_from (Z.of_nat k) best (Z.of_nat (length pre)) row
  = top1 (pre ++ row).
Proof.
  intros (Hasym & Hnan & Habove).
  induction row as [|x row IH]; intros pre k best Hk Hisnan Hnum.
  - rewrite app_nil_r. simpl. symmetry.
    destruct (isnan best) eqn:Hb.
    + by apply (top1_nan _ _ best); [|done|apply Hisnan].
    + destruct Hnum as (Hall & Hmax & Hbefore); [done|].
      by apply (top1_max _ _ best).
  - simpl. destruct (isnan best) eqn:Hb.
    + symmetry. apply (top1_nan _ _ best); [by apply lookup_app_l_Some|done|].
      intros j y Hlt Hj. apply (Hisnan eq_refl j y Hlt).
      rewrite lookup_app_l in Hj; [done|].
      apply lookup_lt_Some in Hk. lia.
    + destruct Hnum as (Hall & Hmax & Hbefore); [done|]. unfold maximal in *.
      assert (∀ j y, (j < length pre)%nat → (pre ++ [x]) !! j = Some y → pre !! j = Some y)
        as Hpre.
      { intros j y Hlt Hj. by rewrite lookup_app_l in Hj. }
      replace (Z.of_nat (length pre) + 1) with (Z.of_nat (length (pre ++ [x])))
        by (rewrite length_app; simpl; lia).
      rewrite (cons_middle x pre row), (assoc (++)).
      destruct (gt x best) eqn:Hgt; [|destruct (isnan x) eqn:Hx]; simpl.
      * destruct (Hnan _ _ Hgt) as [Hx _].
        assert (∀ y, y ∈ pre → gt x y = true) as Hup.
        { intros y Hy. rewrite Forall_forall in Hall, Hmax.
          apply (Habove x y best); auto. }
        apply IH.
        -- by rewrite lookup_app_r, Nat.sub_diag.
        -- intros Hx'. congruence.
        -- intros _. split_and!.
           ++ apply Forall_app. split; [done|by constructor].
           ++ apply Forall_app. split.
              ** apply Forall_forall. intros y Hy. apply Hasym. by apply Hup.
              ** constructor; [|done].
                 destruct (gt x x) eqn:Hxx; [|done]. by rewrite (Hasym _ _ Hxx) in Hxx.
           ++ intros j y Hlt Hj. apply Hup.
              apply (list_elem_of_lookup_2 _ j). by apply Hpre.
      * apply IH.
        -- by rewrite lookup_app_r, Nat.sub_diag.
        -- intros _ j y Hlt Hj. rewrite Forall_forall in Hall.
           apply Hall, (list_elem_of_lookup_2 _ j). by apply Hpre.
        -- intros Hx'. congruence.
      * apply IH.
        -- by apply lookup_app_l_Some.
        -- intros Hb'. congruence.
        -- intros _. split_and!.
           ++ apply Forall_app. split; [done|by constructor].
           ++ apply Forall_app. split; [done|by constructor].
           ++ intros j y Hlt Hj. apply (Hbefore j y Hlt).
              apply Hpre; [|done]. apply lookup_lt_Some in Hk. lia.
Qed.

(** What [outputs.max(1)] yields for a row is its top-1 position: the
    first position of a score that no score of the row exceeds, or of the
    first NaN. *)
Lemma argmax_top1 (row : list F) : float_order → argmax row = top1 row.
Proof.
  intros Hfo. destruct row as [|x row]; [done|].
  unfold argmax.
  apply (argmax_from_top1 row Hfo [x] 0%nat x); [done|intros _ j y Hj; lia|].
  destruct Hfo as (Hasym & _). intros Hx. split_and!.
  - by constructor.
  - constructor; [|done].
    destruct (gt x x) eqn:Hxx; [|done]. by rewrite (Hasym _ _ Hxx) in Hxx.
  - intros j y Hj. lia.
Qed.

Lemma count_eq_hits (outputs : list (list F)) (labels : list Z) :
  float_order →
  count_eq (argmax <$> outputs) labels
  = Z.of_nat (length (filter (λ rl, top1 rl.1 = rl.2) (zip outputs labels))).
Proof.
  intros Hfo. unfold count_eq. f_equal. revert labels.
  induction outputs as [|row outputs IH]; intros [|y labels]; simpl; try done.
  rewrite !filter_cons. simpl. rewrite (argmax_top1 row Hfo).
  destruct (decide (top1 row = y)); simpl; by rewrite IH.
Qed.

Lemma hits_cons outputs labels outs :
  hits ((outputs, labels) :: outs)
  = filter (λ rl, top1 rl.1 = rl.2) (zip outputs labels) ++ hits outs.
Proof. unfold hits, samples. csimpl. by rewrite filter_app. Qed.

Lemma total_samples_cons (outputs : list (list F)) labels outs :
  total_samples ((outputs, labels) :: outs)
  = Z.of_nat (length labels) + total_samples outs.
Proof. unfold total_samples. csimpl. rewrite length_app. lia. Qed.

Lemma total_samples_nonneg (outs : list (list (list F) * list Z)) : 0 ≤ total_samples outs.
Proof. unfold total_samples. lia. Qed.

Lemma pydiv_Ok (x : F) n : n ≠ 0 → pydiv x n = Ok (div x (of_Z n)).
Proof. intros Hn. unfold pydiv. by rewrite bool_decide_eq_false_2. Qed.

(** One turn of the loop of [train_one_epoch], spelt out. *)
Lemma train_batch_eq device model optimizer s (k : nat) images labels p :
  train_batch device (model, optimizer, s) (k, (images, labels)) p =
    let '(outputs, r') :=
      forward true (cudnn p) (hw (host p)) device (weights model) images (rngs p) in
    let '(w, o) :=
      backward_step (cudnn p) (hw (host p)) device (models.grad (net model)) (rngs p)
                    images labels (weights model, optimizer) in
    let s' := {| running_loss := add (running_loss s) (CrossEntropyLoss outputs labels);
                 correct := correct s + count_eq (argmax <$> outputs) labels;
                 total := total s + Z.of_nat (length labels) |} in
    match pydiv (running_loss s') (Z.of_nat k + 1) with
    | Raise e => (Raise e, with_rngs r' p)
    | Ok _ =>
        match pydiv (mul (of_Z 100) (of_Z (correct s'))) (total s') with
        | Raise e => (Raise e, with_rngs r' p)
        | Ok _ => (Ok ({| net := net model; weights := w |}, o, s'), with_rngs r' p)
        end
    end.
Proof.
  cbv [train_batch mbind M_bind get_rngs draw get_cudnn ask lift mret M_ret].
  destruct (forward _ _ _ _ _ _ _) as [outputs r']. simpl.
  destruct (backward_step _ _ _ _ _ _ _ _) as [w o]. simpl.
  destruct (pydiv _ (Z.of_nat k + 1)); [|done].
  by destruct (pydiv _ _).
Qed.

Lemma evaluate_batch_eq model tl device s images labels p :
  evaluate_batch model tl device s (images, labels) p =
    let '(outputs, r') :=
      forward false (cudnn p) (hw (host p)) device (weights model) images (rngs p) in
    let s' := {| running_loss := add (running_loss s) (CrossEntropyLoss outputs labels);
                 correct := correct s + count_eq (argmax <$> outputs) labels;
                 total := total s + Z.of_nat (length labels) |} in
    match pydiv (running_loss s') (loader_len tl) with
    | Raise e => (Raise e, with_rngs r' p)
    | Ok _ =>
        match pydiv (mul (of_Z 100) (of_Z (correct s'))) (total s') with
        | Raise e => (Raise e, with_rngs r' p)
        | Ok _ => (Ok s', with_rngs r' p)
        end
    end.
Proof.
  cbv [evaluate_batch mbind M_bind draw lift mret M_ret].
  destruct (forward _ _ _ _ _ _ _) as [outputs r']. simpl.
  destruct (pydiv _ (loader_len tl)); [|done].
  by destruct (pydiv _ _).
Qed.

(** The loop of [train_one_epoch] over the batches still to come. *)
Lemma train_loop_sums device bs :
  float_order →
  ∀ (k : nat) model optimizer s p,
  Forall (λ b : Tensor * list Z, b.2 ≠ []) bs → 0 ≤ total s →
  let outs := train_outputs (cudnn p) (hw (host p)) device (models.grad (net model))
                (weights model) optimizer (rngs p) bs in
  ∃ model' optimizer' p',
    foldM (train_batch device) (model, optimizer, s) (imap (λ i, pair (k + i)%nat) bs) p
    = (Ok (model', optimizer',
           {| running_loss := foldl add (running_loss s) (batch_losses outs);
              correct := correct s + Z.of_nat (length (hits outs));
              total := total s + total_samples outs |}), p').
Proof.
  intros Hfo.
  induction bs as [|[images labels] bs IH]; intros k model optimizer s p Hne Htot outs.
  - exists model, optimizer, p. simpl. unfold hits, total_samples. simpl.
    rewrite !Z.add_0_r. by destruct s.
  - apply Forall_cons in Hne as [Hl Hne]. simpl in Hl.
    assert (0 < Z.of_nat (length labels)) by (destruct labels; [done|simpl; lia]).
    subst outs. cbn [imap foldM train_outputs]. rewrite bind_unfold, Nat.add_0_r.
    rewrite train_batch_eq.
    destruct (forward _ _ _ _ _ _ _) as [outputs r'].
    destruct (backward_step _ _ _ _ _ _ _ _) as [w' o'].
    cbn zeta. cbn [running_loss correct total].
    rewrite !pydiv_Ok by lia.
    rewrite (imap_ext _ (λ i, pair (S k + i)%nat) bs)
      by (intros; simpl; f_equal; lia).
    destruct (IH (S k) {| net := net model; weights := w' |} o'
                {| running_loss := add (running_loss s) (CrossEntropyLoss outputs labels);
                   correct := correct s + count_eq (argmax <$> outputs) labels;
                   total := total s + Z.of_nat (length labels) |}
                (with_rngs r' p) Hne) as (model' & optimizer' & p' & ->);
      [simpl; lia|].
    simpl. exists model', optimizer', p'. do 3 f_equal.
    rewrite hits_cons, total_samples_cons, length_app, count_eq_hits by done.
    f_equal; lia.
Qed.

Lemma eval_loop_sums model tl device bs :
  float_order →
  ∀ s p,
  Forall (λ b : Tensor * list Z, b.2 ≠ []) bs → 0 ≤ total s → loader_len tl ≠ 0 →
  let outs := eval_outputs (cudnn p) (hw (host p)) device (weights model) (rngs p) bs in
  ∃ p',
    foldM (evaluate_batch model tl device) s bs p
    = (Ok {| running_loss := foldl add (running_loss s) (batch_losses outs);
             correct := correct s + Z.of_nat (length (hits outs));
             total := total s + total_samples outs |}, p').
Proof.
  intros Hfo.
  induction bs as [|[images labels] bs IH]; intros s p Hne Htot Hlen outs.
  - exists p. simpl. unfold hits, total_samples. simpl.
    rewrite !Z.add_0_r. by destruct s.
  - apply Forall_cons in Hne as [Hl Hne]. simpl in Hl.
    assert (0 < Z.of_nat (length labels)) by (destruct labels; [done|simpl; lia]).
    subst outs. cbn [foldM eval_outputs]. rewrite bind_unfold.
    rewrite evaluate_batch_eq.
    destruct (forward _ _ _ _ _ _ _) as [outputs r'].
    cbn zeta. cbn [running_loss correct total].
    rewrite !pydiv_Ok by lia.
    destruct (IH {| running_loss := add (running_loss s) (CrossEntropyLoss outputs labels);
                    correct := correct s + count_eq (argmax <$> outputs) labels;
                    total := total s + Z.of_nat (length labels) |}
                (with_rngs r' p) Hne) as (p' & ->); [simpl; lia|done|].
    simpl. exists p'. do 2 f_equal.
    rewrite hits_cons, total_samples_cons, length_app, count_eq_hits by done.
    f_equal; lia.
Qed.

Lemma length_train_outputs c h device g w o r bs :
  length (train_outputs c h device g w o r bs) = length bs.
Proof.
  revert w o r. induction bs as [|[images labels] bs IH]; intros w o r; simpl; [done|].
  destruct (forward _ _ _ _ _ _ _), (backward_step _ _ _ _ _ _ _ _). simpl. by rewrite IH.
Qed.

Lemma length_eval_outputs c h device w r bs :
  length (eval_outputs c h device w r bs) = length bs.
Proof.
  revert r. induction bs as [|[images labels] bs IH]; intros r; simpl; [done|].
  destruct (forward _ _ _ _ _ _ _). simpl. by rewrite IH.
Qed.

Lemma total_samples_pos (outs : list (list (list F) * list Z)) :
  outs ≠ [] → Forall (λ ol, ol.2 ≠ []) outs → 0 < total_samples outs.
Proof.
  intros Hne Hall. destruct outs as [|[o l] outs]; [done|].
  apply Forall_cons in Hall as [Hl _]. simpl in Hl.
  rewrite total_samples_cons. pose proof (total_samples_nonneg outs).
  destruct l; [done|simpl; lia].
Qed.

Lemma train_outputs_labels c h device g w o r bs :
  (train_outputs c h device g w o r bs).*2 = bs.*2.
Proof.
  revert w o r. induction bs as [|[images labels] bs IH]; intros w o r; simpl; [done|].
  destruct (forward _ _ _ _ _ _ _), (backward_step _ _ _ _ _ _ _ _). csimpl. by rewrite IH.
Qed.

Lemma eval_outputs_labels c h device w r bs :
  (eval_outputs c h device w r bs).*2 = bs.*2.
Proof.
  revert r. induction bs as [|[images labels] bs IH]; intros r; simpl; [done|].
  destruct (forward _ _ _ _ _ _ _). csimpl. by rewrite IH.
Qed.

Lemma total_samples_labels (outs : list (list (list F) * list Z)) bs :
  outs.*2 = bs → total_samples outs = Z.of_nat (length (mjoin bs)).
Proof. intros <-. done. Qed.

(** C8. For a pass over a loader that yields at least one batch, none of
    them empty, and as many as its length says: [train_one_epoch] and
    [evaluate] return, the loss they report is the sum of the mean losses
    of the batches divided by the number of batches, whatever the sizes of
    the batches, and the accuracy they report is 100 times the number of
    samples whose label is the top-1 position of their scores (the first
    position of a score that none of the row exceeds), divided by the
    number of samples.  The comparison of scores obeys the laws of
    floats. *)
Theorem epoch_aggregates model loader optimizer device epoch total_epochs p :
  let bs := (batches loader (rngs p)).1 in
  let r := (batches loader (rngs p)).2 in
  let trained := train_outputs (cudnn p) (hw (host p)) device (models.grad (net model))
                   (weights model) optimizer r bs in
  let evaluated := eval_outputs (cudnn p) (hw (host p)) device (weights model) r bs in
  float_order →
  loader_len loader = Z.of_nat (length bs) →
  bs ≠ [] →
  Forall (λ b, b.2 ≠ []) bs →
  (∃ model' optimizer' p',
     train_one_epoch model loader optimizer device epoch total_epochs p
     = (Ok (div (sum_F (batch_losses trained)) (of_Z (Z.of_nat (length bs))),
            div (mul (of_Z 100) (of_Z (Z.of_nat (length (hits trained)))))
                (of_Z (Z.of_nat (length (mjoin bs.*2)))),
            model', optimizer'), p')) ∧
  (∃ p', evaluate model loader device p
     = (Ok (div (sum_F (batch_losses evaluated)) (of_Z (Z.of_nat (length bs))),
            div (mul (of_Z 100) (of_Z (Z.of_nat (length (hits evaluated)))))
                (of_Z (Z.of_nat (length (mjoin bs.*2))))), p')).
Proof.
  intros bs r trained evaluated Hfo Hlen Hne Hall.
  unfold train_one_epoch, evaluate. rewrite !bind_unfold. unfold draw.
  subst trained evaluated bs r.
  destruct (batches loader (rngs p)) as [bs r]. cbn [fst snd] in *.
  set (trained := train_outputs _ _ _ _ _ _ _ _).
  set (evaluated := eval_outputs _ _ _ _ _ _).
  assert (0 < length bs)%nat by (destruct bs; [done|simpl; lia]).
  assert (0 < length (mjoin bs.*2))%nat as Hpos.
  { destruct bs as [|[i l] bs']; [done|]. apply Forall_cons in Hall as [Hl _].
    csimpl in *. rewrite length_app. destruct l; [done|simpl; lia]. }
  split.
  - destruct (train_loop_sums device bs Hfo 0 model optimizer
                {| running_loss := of_Z 0; correct := 0; total := 0 |}
                (with_rngs r p) Hall) as (model' & optimizer' & p' & Hloop); [done|].
    rewrite bind_unfold.
    rewrite (imap_ext _ (λ i, pair (0 + i)%nat) bs) by done.
    rewrite Hloop. cbn [with_rngs cudnn host rngs]. fold trained.
    rewrite !bind_unfold. unfold lift. cbn [running_loss correct total].
    rewrite Hlen, (total_samples_labels trained bs.*2)
      by apply train_outputs_labels.
    rewrite !pydiv_Ok by lia. rewrite !Z.add_0_l. by eauto.
  - destruct (eval_loop_sums model loader device bs Hfo
                {| running_loss := of_Z 0; correct := 0; total := 0 |}
                (with_rngs r p) Hall) as (p' & Hloop); [done|lia|].
    rewrite bind_unfold, Hloop. cbn [with_rngs cudnn host rngs]. fold evaluated.
    rewrite !bind_unfold. unfold lift. cbn [running_loss correct total].
    rewrite Hlen, (total_samples_labels evaluated bs.*2)
      by apply eval_outputs_labels.
    rewrite !pydiv_Ok by lia. rewrite !Z.add_0_l. by eauto.
Qed.

(** *** Writing the checkpoint *)

Lemma epoch_loop_Raise cfg out device tl te sched epoch rest l p e p' :
  epoch_body cfg out device tl te sched epoch l p = (Raise e, p') →
  epoch_loop cfg out device tl te sched (epoch :: rest) l p = (Raise e, p').
Proof. intros Hb. simpl. by rewrite bind_unfold, Hb. Qed.

(** C5, as the code has it. [torch.save] writes to [best_model.pth]
    itself.  At an improving epoch: when the write succeeds the file holds
    the new checkpoint; when it fails at [open] the files are as they
    were; when it fails after some bytes went out the file holds the
    first bytes of the new checkpoint and what it held before is gone.
    Either failure is raised out of the epoch loop. *)
Theorem checkpoint_written_in_place (cfg : config.Config F) (out : string)
    (device : Device) (tl te : DataLoader Image) (sched : bool) (epoch : Z)
    (rest : list Z) (l : Locals) (p p1 p2 : Proc) (trl tra vl va : F)
    (m : TModel) (o : Optimizer) :
  let path := path_join out "best_model.pth" in
  let ck := {| ck_epoch := epoch;
               model_state_dict := weights m;
               optimizer_state_dict :=
                 if sched
                 then CosineAnnealingLR_step (config.epochs (config.training cfg)) epoch o
                 else o;
               ck_test_acc := va; ck_test_loss := vl; ck_config := cfg |} in
  train_one_epoch (l_model l) tl (l_optimizer l) device epoch
                  (config.epochs (config.training cfg)) p
    = (Ok (trl, tra, m, o), p1) →
  evaluate m te device p1 = (Ok (vl, va), p2) →
  gt va (l_best_test_acc l) = true →
  match disk p with
  | [] | None :: _ =>
      ∃ l' stop p',
        epoch_body cfg out device tl te sched epoch l p = (Ok (l', stop), p') ∧
        fs p' = <[path := Intact (Pth ck)]> (fs p)
  | Some OpenFails :: _ =>
      ∃ p',
        epoch_loop cfg out device tl te sched (epoch :: rest) l p
          = (Raise (OSError path), p') ∧
        fs p' = fs p
  | Some (WriteFails n) :: _ =>
      ∃ p',
        epoch_loop cfg out device tl te sched (epoch :: rest) l p
          = (Raise (OSError path), p') ∧
        fs p' = <[path := Torn (Pth ck) n]> (fs p)
  end.
Proof.
  intros path ck Htrain Heval Hgt.
  pose proof (quiet_train_one_epoch (l_model l) tl (l_optimizer l) device
                epoch (config.epochs (config.training cfg)) p) as Hq1.
  pose proof (quiet_evaluate m te device p1) as Hq2.
  rewrite Htrain in Hq1. rewrite Heval in Hq2.
  destruct (untouched_trans _ _ _ Hq1 Hq2) as (_ & Hfs & Hd & _). simpl in Hfs, Hd.
  assert (epoch_body cfg out device tl te sched epoch l p
          = (write_file path (Pth ck) ≫= λ _,
               mret ({| l_model := m;
                        l_optimizer := optimizer_state_dict ck;
                        l_history :=
                          {| h_train_loss := h_train_loss (l_history l) ++ [trl];
                             h_train_acc := h_train_acc (l_history l) ++ [tra];
                             h_test_loss := h_test_loss (l_history l) ++ [vl];
                             h_test_acc := h_test_acc (l_history l) ++ [va] |};
                        l_best_test_acc := va; l_best_epoch := epoch;
                        l_epochs_without_improvement := 0; l_epoch := Some epoch |},
                     config.early_stopping (config.training cfg)
                     && bool_decide (config.patience (config.training cfg) ≤ 0))) p2)
    as Hbody.
  { unfold epoch_body. rewrite bind_unfold, Htrain. cbn beta iota.
    rewrite bind_unfold, Heval. cbn beta iota zeta. rewrite Hgt.
    rewrite !bind_unfold. unfold torch_save. fold path. fold ck.
    by destruct (write_file path (Pth ck) p2) as [[[]|?] ?]. }
  rewrite <-Hd. unfold write_file in Hbody. rewrite bind_unfold in Hbody.
  destruct (disk p2) as [|[[|n]|] d]; rewrite <-Hfs.
  - by eauto.
  - eexists. split; [by apply epoch_loop_Raise|done].
  - eexists. split; [by apply epoch_loop_Raise|done].
  - by eauto.
Qed.
End MonadFacts.

Section RelFacts.
  Context {F : Type} `{Number F} `{Torch F}.

Lemma rel_ret {A B} (R : Proc → Proc → Prop) (Q : A → B → Prop) a b :
  Q a b → rel R R Q (mret a) (mret b).
Proof. intros HQ p p' HR. by split. Qed.

Lemma rel_bind {A A' B B'} (Pre Mid Post : Proc → Proc → Prop)
    (Q : A → A' → Prop) (Q' : B → B' → Prop) c c' k k' :
  rel Pre Mid Q c c' →
  (∀ a a', Q a a' → rel Mid Post Q' (k a) (k' a')) →
  rel Pre Post Q' (c ≫= k) (c' ≫= k').
Proof.
  intros Hc Hk p p' HP. rewrite !bind_unfold. specialize (Hc p p' HP).
  destruct (c p) as [[a|e] q], (c' p') as [[a'|e'] q']; try done.
  destruct Hc as [HQ HM]. by apply Hk.
Qed.

Lemma rel_bind_eq {A B B'} (Pre Mid Post : Proc → Proc → Prop)
    (Q' : B → B' → Prop) (c : M A) k k' :
  rel Pre Mid eq c c →
  (∀ a, rel Mid Post Q' (k a) (k' a)) →
  rel Pre Post Q' (c ≫= k) (c ≫= k').
Proof. intros Hc Hk. eapply rel_bind; [done|]. intros a ? <-. apply Hk. Qed.

Lemma rel_lift {A} (R : Proc → Proc → Prop) (r : result A) : rel R R eq (lift r) (lift r).
Proof. intros p p' HR. unfold lift. by destruct r. Qed.

Lemma rel_raise {A B} (Pre Post : Proc → Proc → Prop) (Q : A → B → Prop) e :
  rel Pre Post Q (raise e) (raise e).
Proof. by intros p p' HR. Qed.

Lemma rel_weaken {A B} (Pre Post : Proc → Proc → Prop) (Q Q' : A → B → Prop) c c' :
  rel Pre Post Q c c' → (∀ a b, Q a b → Q' a b) → rel Pre Post Q' c c'.
Proof.
  intros Hc HQ p p' HP. specialize (Hc p p' HP).
  destruct (c p) as [[a|e] q], (c' p') as [[a'|e'] q']; try done.
  destruct Hc. split; auto.
Qed.

Lemma rel_foldM {A B} (R : Proc → Proc → Prop) (f : B → A → M B) l b :
  (∀ b x, rel R R eq (f b x) (f b x)) → rel R R eq (foldM f b l) (foldM f b l).
Proof.
  intros Hf. revert b. induction l as [|x l IH]; intros b; simpl.
  - by apply rel_ret.
  - apply rel_bind_eq with R; [apply Hf|apply IH].
Qed.

(** The loop and what follows it keep any relation between two processes
    that stands for: same generators, same answers of the network, same
    fate of the writes. *)
Section Invariant.
  Variable R : Proc → Proc → Prop.
  Variable T : F → F → Prop.
  Variable G : string → string → Prop.
  Variable Rc : Content → Content → Prop.
  Hypothesis R_rngs : ∀ p p', R p p' → rngs p = rngs p'.
  Hypothesis R_with_rngs : ∀ p p' r, R p p' → R (with_rngs r p) (with_rngs r p').
  Hypothesis R_forward : ∀ p p', R p p' → ∀ tr dev w x r,
    forward tr (cudnn p) (hw (host p)) dev w x r
    = forward tr (cudnn p') (hw (host p')) dev w x r.
  Hypothesis R_backward : ∀ p p', R p p' → ∀ dev g r x y wo,
    backward_step (cudnn p) (hw (host p)) dev g r x y wo
    = backward_step (cudnn p') (hw (host p')) dev g r x y wo.
  Hypothesis R_write : ∀ path c c', Rc c c' →
    rel R R (λ _ _, True) (write_file path c) (write_file path c').
  Hypothesis R_time : rel R R T time_time time_time.
  Hypothesis T_minutes : ∀ a a' b b', T a a' → T b b' →
    T (div (sub b a) (of_Z 60)) (div (sub b' a') (of_Z 60)).
  Hypothesis Rc_refl : ∀ c, Rc c c.
  Hypothesis Rc_metrics : ∀ m m', metrics_alike T G m m' →
    Rc (MetricsJson m) (MetricsJson m').

Lemma rel_draw_pure {A} (g : Rngs Gen → A * Rngs Gen) :
  rel R R eq (draw (λ _ _, g)) (draw (λ _ _, g)).
Proof.
  intros p p' HR. unfold draw. rewrite <-(R_rngs _ _ HR).
  destruct (g (rngs p)) as [a r]. split; [done|by apply R_with_rngs].
Qed.

Lemma rel_train_batch device st ib :
  rel R R eq (train_batch device st ib) (train_batch device st ib).
Proof.
  destruct st as [[model optimizer] s], ib as [k [images labels]].
  intros p p' HR. rewrite !train_batch_eq.
  rewrite <-(R_forward _ _ HR), <-(R_backward _ _ HR), <-(R_rngs _ _ HR).
  destruct (forward _ _ _ _ _ _ _) as [outputs r'].
  destruct (backward_step _ _ _ _ _ _ _ _) as [w o]. cbn zeta.
  destruct (pydiv _ (Z.of_nat k + 1)); [|done].
  destruct (pydiv _ _); [|done]. split; [done|by apply R_with_rngs].
Qed.

Lemma rel_evaluate_batch model tl device s b :
  rel R R eq (evaluate_batch model tl device s b) (evaluate_batch model tl device s b).
Proof.
  destruct b as [images labels].
  intros p p' HR. rewrite !evaluate_batch_eq.
  rewrite <-(R_forward _ _ HR), <-(R_rngs _ _ HR).
  destruct (forward _ _ _ _ _ _ _) as [outputs r']. cbn zeta.
  destruct (pydiv _ (loader_len tl)); [|done].
  destruct (pydiv _ _); [|done]. split; [done|by apply R_with_rngs].
Qed.

Lemma rel_train_one_epoch model tl optimizer device e E :
  rel R R eq (train_one_epoch model tl optimizer device e E)
             (train_one_epoch model tl optimizer device e E).
Proof.
  unfold train_one_epoch.
  apply rel_bind_eq with R; [apply rel_draw_pure|]. intros pbar.
  apply rel_bind_eq with R; [apply rel_foldM; intros; apply rel_train_batch|].
  intros [[m o] s].
  apply rel_bind_eq with R; [apply rel_lift|]. intros loss.
  apply rel_bind_eq with R; [apply rel_lift|]. intros acc.
  by apply rel_ret.
Qed.

Lemma rel_evaluate model tl device :
  rel R R eq (evaluate model tl device) (evaluate model tl device).
Proof.
  unfold evaluate.
  apply rel_bind_eq with R; [apply rel_draw_pure|]. intros pbar.
  apply rel_bind_eq with R; [apply rel_foldM; intros; apply rel_evaluate_batch|].
  intros s.
  apply rel_bind_eq with R; [apply rel_lift|]. intros loss.
  apply rel_bind_eq with R; [apply rel_lift|]. intros acc.
  by apply rel_ret.
Qed.

Lemma rel_epoch_body cfg out device tl te sched epoch l :
  rel R R eq (epoch_body cfg out device tl te sched epoch l)
             (epoch_body cfg out device tl te sched epoch l).
Proof.
  unfold epoch_body.
  apply rel_bind_eq with R; [apply rel_train_one_epoch|].
  intros [[[trl tra] m] o].
  apply rel_bind_eq with R; [apply rel_evaluate|]. intros [vl va].
  apply rel_bind_eq with R; [|intros l'; by apply rel_ret].
  destruct (gt va (l_best_test_acc l)); [|by apply rel_ret].
  eapply rel_bind; [apply R_write, Rc_refl|]. intros _ _ _. by apply rel_ret.
Qed.

Lemma rel_epoch_loop cfg out device tl te sched epochs l :
  rel R R eq (epoch_loop cfg out device tl te sched epochs l)
             (epoch_loop cfg out device tl te sched epochs l).
Proof.
  revert l. induction epochs as [|epoch rest IH]; intros l; simpl.
  - by apply rel_ret.
  - apply rel_bind_eq with R; [apply rel_epoch_body|].
    intros [l' []]; [by apply rel_ret|apply IH].
Qed.

Lemma rel_create_model nc fr dr pre device :
  rel R R eq (create_model nc fr dr pre device) (create_model nc fr dr pre device).
Proof.
  unfold create_model.
  apply rel_bind_eq with R; [apply rel_draw_pure|]. intros w. by apply rel_ret.
Qed.

(** The third loader is not looked at. *)
Lemma train_on_third cfg out device git tl te val val' :
  train_on cfg out device git (tl, te, val) = train_on cfg out device git (tl, te, val').
Proof. reflexivity. Qed.

Lemma rel_train_on cfg out device git git' loaders :
  G git git' →
  rel R R (λ r r', r.1.1 = r'.1.1 ∧ r.1.2 = r'.1.2 ∧ metrics_alike T G r.2 r'.2)
      (train_on cfg out device git loaders) (train_on cfg out device git' loaders).
Proof.
  intros HG. destruct loaders as [[tl te] val]. unfold train_on.
  apply rel_bind_eq with R; [apply rel_create_model|]. intros w.
  apply rel_bind_eq with R.
  { destruct (bool_decide _); [|by apply rel_ret].
    destruct (models.unfreeze_last_blocks _ _) as [n r].
    apply rel_bind_eq with R; [apply rel_lift|]. intros _. by apply rel_ret. }
  intros model.
  apply rel_bind_eq with R.
  { destruct (bool_decide _); [|apply rel_lift].
    apply rel_bind_eq with R; [apply rel_lift|]. intros gs. apply rel_lift. }
  intros optimizer.
  eapply rel_bind; [apply R_time|]. intros t0 t0' Ht0.
  apply rel_bind_eq with R; [apply rel_epoch_loop|]. intros l.
  eapply rel_bind; [apply R_time|]. intros t1 t1' Ht1.
  eapply rel_bind; [apply R_write, Rc_refl|]. intros _ _ _.
  apply rel_bind_eq with R; [apply rel_lift|]. intros epoch.
  apply rel_bind_eq with R; [apply rel_lift|]. intros ftr.
  apply rel_bind_eq with R; [apply rel_lift|]. intros fte.
  assert (metrics_alike T G
            {| best_test_acc := l_best_test_acc l; best_epoch := l_best_epoch l;
               total_epochs := epoch;
               training_time_minutes := div (sub t1 t0) (of_Z 60);
               final_train_acc := ftr; final_test_acc := fte;
               git_commit := git; config_name := config.name cfg |}
            {| best_test_acc := l_best_test_acc l; best_epoch := l_best_epoch l;
               total_epochs := epoch;
               training_time_minutes := div (sub t1' t0') (of_Z 60);
               final_train_acc := ftr; final_test_acc := fte;
               git_commit := git'; config_name := config.name cfg |}) as Hm.
  { repeat split; simpl; auto. }
  eapply rel_bind; [apply R_write, Rc_metrics, Hm|]. intros _ _ _.
  by apply rel_ret.
Qed.
End Invariant.

(** *** Two runs with one seed *)

Lemma rel_ask {A} (R : Proc → Proc → Prop) (f : Host → A) :
  (∀ p p', R p p' → f (host p) = f (host p')) → rel R R eq (ask f) (ask f).
Proof. intros Hf p p' HR. unfold ask. split; [by apply Hf|done]. Qed.

Lemma rel_ask_any {A} (R : Proc → Proc → Prop) (f : Host → A) :
  rel R R (λ _ _, True) (ask f) (ask f).
Proof. intros p p' HR. by split. Qed.

Lemma create_dataloaders_reads dir bs aug size nw pin vs p p' :
  image_folders (host p) = image_folders (host p') →
  (data.create_dataloaders dir bs aug size nw pin vs p).1
  = (data.create_dataloaders dir bs aug size nw pin vs p').1 ∧
  (data.create_dataloaders dir bs aug size nw pin vs p).2 = p.
Proof.
  intros Hf. unfold data.create_dataloaders. rewrite !bind_unfold. unfold ask.
  rewrite <-Hf. cbn beta iota.
  destruct (image_folders (host p) !! path_join dir "train") as [ds|]; [|done].
  destruct (image_folders (host p) !! path_join dir "test") as [dt|]; [|done].
  rewrite !bind_unfold. unfold lift. destruct (data.get_transforms aug size) as [[t1 t2]|e]; [|done].
  destruct (gt vs (of_Z 0)); [|done]. by destruct (data.random_split _ _ _ _).
Qed.

Lemma rel_create_dataloaders_eq (R : Proc → Proc → Prop) dir bs aug size nw pin vs :
  (∀ p p', R p p' → image_folders (host p) = image_folders (host p')) →
  rel R R eq (data.create_dataloaders dir bs aug size nw pin vs)
             (data.create_dataloaders dir bs aug size nw pin vs).
Proof.
  intros HR p p' Hpp.
  destruct (create_dataloaders_reads dir bs aug size nw pin vs p p' (HR _ _ Hpp)) as [H1 H2].
  destruct (create_dataloaders_reads dir bs aug size nw pin vs p' p' eq_refl) as [_ H2'].
  destruct (data.create_dataloaders dir bs aug size nw pin vs p) as [r q],
           (data.create_dataloaders dir bs aug size nw pin vs p') as [r' q'].
  simpl in *. subst. by destruct r'.
Qed.

Lemma in_step_write path c c' :
  rel in_step in_step (λ _ _, True) (write_file path c) (write_file path c').
Proof.
  intros p p' (Hr & Hc & Hd & Hb & Hdisk & Hroot & Hf). unfold write_file.
  rewrite <-Hdisk. destruct (disk p) as [|[[|n]|] d]; try done;
    (split; [done|]); repeat split; simpl; done.
Qed.

Lemma rel_train_with_in_step cfg out device git git' :
  deterministic_kernels →
  rel in_step in_step
      (λ r r', r.1.1 = r'.1.1 ∧ r.1.2 = r'.1.2
               ∧ metrics_alike (λ _ _, True) (λ _ _, True) r.2 r'.2)
      (train_with cfg out device git) (train_with cfg out device git').
Proof.
  intros [Hfw Hbw]. unfold train_with.
  apply rel_bind_eq with in_step.
  { apply rel_ask. by intros p p' (_ & _ & _ & _ & _ & ? & _). }
  intros root.
  apply rel_bind_eq with in_step.
  { apply rel_create_dataloaders_eq. by intros p p' (_ & _ & _ & _ & _ & _ & ?). }
  intros loaders.
  apply (rel_train_on in_step (λ _ _, True) (λ _ _, True) (λ _ _, True));
    [| | | | | |done..].
  - by intros p p' (? & _).
  - intros p p' r (Hr & Hc & Hd & Hb & Hdisk & Hroot & Hf). by repeat split.
  - intros p p' (Hr & Hc & Hd & Hb & _) tr dev w x r. rewrite <-Hc. by apply Hfw.
  - intros p p' (Hr & Hc & Hd & Hb & _) dev g r x y wo. rewrite <-Hc. by apply Hbw.
  - intros path c c' _. apply in_step_write.
  - intros p p' (Hr & Hc & Hd & Hb & Hdisk & Hroot & Hf). unfold time_time.
    split; [done|]. by repeat split.
Qed.

Lemma rel_load_config (R : Proc → Proc → Prop) path :
  (∀ p p', R p p' → fs p = fs p') →
  rel R R (λ c c', c = c' ∧ ∃ p p', R p p' ∧ fs p !! path = Some (Intact (Yaml c)))
      (load_config path) (load_config path).
Proof.
  intros HR p p' Hpp. unfold load_config, read_file. rewrite !bind_unfold.
  rewrite <-(HR _ _ Hpp). destruct (fs p !! path) as [[[c| | |]|]|] eqn:E; try done.
  split; [|done]. split; [done|]. by exists p, p'.
Qed.

Lemma rel_set_seed_in_step seed :
  rel same_inputs in_step (λ _ _, True) (set_seed seed true) (set_seed seed true).
Proof.
  intros p p' (Hfs & Hdisk & Hcuda & Hroot & Hf). by repeat split.
Qed.

Lemma same_inputs_write path c :
  rel same_inputs same_inputs (λ _ _, True) (write_file path c) (write_file path c).
Proof.
  intros p p' (Hfs & Hdisk & Hcuda & Hroot & Hf). unfold write_file.
  rewrite <-Hdisk. destruct (disk p) as [|[[|n]|] d]; try done;
    (split; [done|]); repeat split; simpl; congruence.
Qed.

(** C9. With kernels that are deterministic under the deterministic cuDNN
    setting, two runs of [train] on the same configuration file, the same
    data, the same disk and the same kind of machine, whose configuration
    sets the determinism flag, end alike whatever the generators, the
    cuDNN switches, the host, the clock and the commit of each were at the
    start: both raise the same exception, or both return the same
    per-epoch losses and accuracies, the same model, and metrics that
    agree on all but the training time and the commit. *)
Theorem seeded_runs_agree config_path output_dir device (p1 p2 : Proc) :
  deterministic_kernels →
  same_inputs p1 p2 →
  (∀ cfg, fs p1 !! config_path = Some (Intact (Yaml cfg)) →
          config.deterministic (config.reproducibility cfg) = true) →
  match (train config_path output_dir device p1).1,
        (train config_path output_dir device p2).1 with
  | Ok (m1, h1, me1), Ok (m2, h2, me2) =>
      h1 = h2 ∧ m1 = m2 ∧ metrics_alike (λ _ _, True) (λ _ _, True) me1 me2
  | Raise e1, Raise e2 => e1 = e2
  | _, _ => False
  end.
Proof.
  intros Hdet Hin Hflag.
  set (Pre := λ p p' : Proc,
         same_inputs p p' ∧
         ∀ cfg, fs p !! config_path = Some (Intact (Yaml cfg)) →
                config.deterministic (config.reproducibility cfg) = true).
  assert (rel Pre in_step
            (λ r r', r.1.1 = r'.1.1 ∧ r.1.2 = r'.1.2
                     ∧ metrics_alike (λ _ _, True) (λ _ _, True) r.2 r'.2)
            (train config_path output_dir device)
            (train config_path output_dir device)) as Hrel.
  { unfold train.
    apply rel_bind with same_inputs
      (λ c c', c = c' ∧ config.deterministic (config.reproducibility c) = true).
    { intros p p' [Hsame Hfl]. unfold load_config, read_file. rewrite !bind_unfold.
      destruct Hsame as (Hfs & Hrest). rewrite <-Hfs.
      destruct (fs p !! config_path) as [[[c| | |]|]|] eqn:E; try done.
      split; [|by split]. split; [done|by apply Hfl]. }
    intros cfg ? [<- Hd].
    eapply rel_bind; [apply same_inputs_write|]. intros _ _ _.
    apply rel_bind_eq with same_inputs.
    { destruct device; [by apply rel_ret|].
      apply rel_bind_eq with same_inputs; [|intros; by apply rel_ret].
      apply rel_ask. by intros p p' (_ & _ & ? & _). }
    intros dev. rewrite Hd.
    eapply rel_bind; [apply rel_set_seed_in_step|]. intros _ _ _.
    eapply rel_bind.
    { unfold get_git_commit_hash.
      eapply rel_bind; [apply rel_ask_any|]. intros h h' _.
      apply (rel_ret in_step (λ _ _ : string, True)). done. }
    intros git git' _. by apply rel_train_with_in_step. }
  specialize (Hrel p1 p2 (conj Hin Hflag)).
  destruct (train config_path output_dir device p1) as [[[[m1 h1] me1]|e1] q1],
           (train config_path output_dir device p2) as [[[[m2 h2] me2]|e2] q2];
    simpl in *; try done.
  destruct Hrel as [(Hm & Hh & Hme) _]. done.
Qed.

(** *** Two runs that differ in the validation split *)

Lemma metrics_alike_eq (m m' : Metrics F) : metrics_alike eq eq m m' → m = m'.
Proof. destruct m, m'. unfold metrics_alike. simpl. intuition congruence. Qed.

Lemma same_but_folders_write path c :
  rel same_but_folders same_but_folders (λ _ _, True) (write_file path c) (write_file path c).
Proof.
  intros p p' (Hr & Hc & Hfs & Hd & Hw & Hrest). unfold write_file.
  rewrite <-Hd. destruct (disk p) as [|[[|n]|] d]; try done;
    (split; [done|]); repeat split; simpl; try tauto; congruence.
Qed.

Lemma rel_train_on_folders cfg out device git loaders :
  rel same_but_folders same_but_folders eq
      (train_on cfg out device git loaders) (train_on cfg out device git loaders).
Proof.
  eapply rel_weaken.
  - apply (rel_train_on same_but_folders eq eq eq); [| | | | | |try done..].
    + by intros p p' (? & _).
    + intros p p' r Hpp. unfold same_but_folders in *. simpl. tauto.
    + intros p p' (_ & -> & _ & _ & _ & _ & -> & _). done.
    + intros p p' (_ & -> & _ & _ & _ & _ & -> & _). done.
    + intros path c c' <-. apply same_but_folders_write.
    + intros p p' Hpp. unfold time_time. unfold same_but_folders in *. simpl.
      destruct Hpp as (? & ? & ? & ? & ? & -> & ? & ? & -> & ? & ?).
      repeat split; simpl; done.
    + by intros ???? -> ->.
    + by intros m m' ->%metrics_alike_eq.
  - intros [[m h] me] [[m' h'] me'] (Hm & Hh & Hme). simpl in *.
    apply metrics_alike_eq in Hme. congruence.
Qed.

Lemma rel_create_dataloaders_folders cfg root :
  rel (λ p p', same_but_folders p p' ∧
               folders_agree cfg root (image_folders (host p)) (image_folders (host p')))
      same_but_folders
      (λ l l', l.1 = l'.1)
      (data.create_dataloaders
         (replace "/train" "" (path_join root (config.train_path (config.data cfg))))
         (config.batch_size (config.training cfg)) (config.augmentation (config.data cfg))
         (config.image_size (config.data cfg)) (config.num_workers (config.data cfg)) true
         (config.val_split (config.data cfg)))
      (data.create_dataloaders
         (replace "/train" "" (path_join root (config.train_path (config.data cfg))))
         (config.batch_size (config.training cfg)) (config.augmentation (config.data cfg))
         (config.image_size (config.data cfg)) (config.num_workers (config.data cfg)) true
         (config.val_split (config.data cfg))).
Proof.
  intros p p' [Hsame [Htest Htrain]].
  unfold data.create_dataloaders. rewrite !bind_unfold. unfold ask. cbn beta iota.
  set (dir := replace "/train" "" _) in *. rewrite <-Htest.
  destruct (image_folders (host p) !! path_join dir "train") as [ds|],
           (image_folders (host p') !! path_join dir "train") as [ds'|]; try done.
  destruct (image_folders (host p) !! path_join dir "test") as [dt|]; [|done].
  rewrite !bind_unfold. unfold lift.
  destruct (data.get_transforms _ _) as [[t1 t2]|e]; [|done].
  unfold agree_off_validation in Htrain.
  destruct (gt (config.val_split (config.data cfg)) (of_Z 0)).
  - destruct Htrain as [Hlen Hsplit]. rewrite <-Hlen.
    destruct (data.random_split ds _ _ _) as [a b],
             (data.random_split ds' _ _ _) as [a' b']. simpl in Hsplit. subst a'.
    by split.
  - subst ds'. by split.
Qed.

(** C10. The third loader that [create_dataloaders] returns is not read:
    what [train] does after that call is the same whatever the third
    loader is.  So two runs on processes alike in all but their image
    folders, whose test folders are the same and whose training folders
    agree off the validation split, end alike: both raise the same
    exception, or both return the same model, history and metrics and
    leave the same files and the same record of writes. *)
Theorem validation_split_unused config_path output_dir device
    (cfg : config.Config F) (p p' : Proc) :
  fs p !! config_path = Some (Intact (Yaml cfg)) →
  same_but_folders p p' →
  folders_agree cfg (project_root (host p))
                (image_folders (host p)) (image_folders (host p')) →
  (∀ out dev git tl te val val',
     train_on cfg out dev git (tl, te, val) = train_on cfg out dev git (tl, te, val')) ∧
  match train config_path output_dir device p, train config_path output_dir device p' with
  | (Ok r, q), (Ok r', q') => r = r' ∧ fs q = fs q' ∧ writes q = writes q'
  | (Raise e, _), (Raise e', _) => e = e'
  | _, _ => False
  end.
Proof.
  intros Hcfg Hsame Hfolders. split; [done|].
  set (Pre := λ q q' : Proc,
         same_but_folders q q' ∧ fs q !! config_path = Some (Intact (Yaml cfg)) ∧
         project_root (host q) = project_root (host p) ∧
         image_folders (host q) = image_folders (host p) ∧
         image_folders (host q') = image_folders (host p')).
  set (Mid := λ q q' : Proc,
         same_but_folders q q' ∧
         project_root (host q) = project_root (host p) ∧
         image_folders (host q) = image_folders (host p) ∧
         image_folders (host q') = image_folders (host p')).
  assert (∀ {A} (c : M A),
            rel same_but_folders same_but_folders eq c c →
            (∀ q, host (c q).2 = host q) →
            rel Mid Mid eq c c) as Hlift.
  { intros A c Hc Hhost q q' (Hs & H1 & H2 & H3).
    specialize (Hc q q' Hs). pose proof (Hhost q) as Hq. pose proof (Hhost q') as Hq'.
    destruct (c q) as [[a|e] q1], (c q') as [[a'|e'] q1']; try done.
    destruct Hc as [-> Hs']. simpl in Hq, Hq'. split; [done|].
    unfold Mid. rewrite Hq, Hq'. done. }
  assert (rel Pre same_but_folders eq
            (train config_path output_dir device)
            (train config_path output_dir device)) as Hrel.
  { unfold train.
    apply rel_bind with Mid (λ c c', c = cfg ∧ c' = cfg).
    { intros q q' (Hs & Hf & Hrest). unfold load_config, read_file. rewrite !bind_unfold.
      destruct Hs as (Hr & Hc & Hfs & Hs). rewrite <-Hfs, Hf. split; [done|].
      split; [|done]. unfold same_but_folders. tauto. }
    intros ? ? [-> ->].
    apply rel_bind_eq with Mid.
    { apply Hlift; [|intros q; unfold write_file; by destruct (disk q) as [|[[|?]|] ?]].
      eapply rel_weaken; [apply same_but_folders_write|]. by intros [] []. }
    intros _.
    apply rel_bind_eq with Mid.
    { apply Hlift; [|by destruct device].
      destruct device; [by apply rel_ret|].
      apply rel_bind_eq with same_but_folders; [|intros; by apply rel_ret].
      apply rel_ask. by intros ?? (_ & _ & _ & _ & _ & _ & _ & ? & _). }
    intros dev.
    apply rel_bind_eq with Mid.
    { apply Hlift; [|by destruct (config.deterministic _)].
      intros q q' Hs. unfold set_seed.
      destruct (config.deterministic _); (split; [done|]);
        unfold same_but_folders in *; simpl;
        destruct Hs as (? & Hc & ? & ? & ? & ? & ? & ? & ? & ? & ?);
        rewrite ?Hc; by repeat split. }
    intros _.
    apply rel_bind_eq with Mid.
    { apply Hlift; [|done]. unfold get_git_commit_hash.
      apply rel_bind_eq with same_but_folders; [|intros; by apply rel_ret].
      apply rel_ask. by intros ?? (_ & _ & _ & _ & _ & _ & _ & _ & _ & ? & _). }
    intros git. unfold train_with.
    apply rel_bind with Mid (λ r r', r = project_root (host p) ∧ r' = project_root (host p)).
    { intros q q' (Hs & H1 & H2 & H3). unfold ask. split; [|done]. split; [done|].
      destruct Hs as (_ & _ & _ & _ & _ & _ & _ & _ & _ & _ & <-). done. }
    intros ? ? [-> ->].
    eapply rel_bind.
    { intros q q' (Hs & H1 & H2 & H3).
      apply (rel_create_dataloaders_folders cfg (project_root (host p)) q q').
      split; [done|]. by rewrite H2, H3. }
    intros [[tl te] val] [[tl' te'] val'] Heq. simpl in Heq. injection Heq as <- <-.
    rewrite (train_on_third cfg _ _ _ tl te val' val).
    apply rel_train_on_folders. }
  specialize (Hrel p p'). unfold Pre in Hrel.
  destruct (train config_path output_dir device p) as [[r|e] q],
           (train config_path output_dir device p') as [[r'|e'] q'];
    try (by apply Hrel).
  destruct Hrel as [-> (_ & _ & ? & _ & ? & _)]; done.
Qed.
End RelFacts.

Section Beyond.
  Context {F : Type} `{Number F} `{Torch F}.
  Import models.

Lemma init_backbone bb freeze : backbone (init bb freeze) = bb.
Proof. by destruct freeze. Qed.

Lemma quiet_create_model nc fr dr pre device :
  quiet (create_model nc fr dr pre device).
Proof.
  unfold create_model. apply quiet_bind; [apply quiet_draw|].
  intros w. apply quiet_ret.
Qed.

(** C4, as the code has it. A count above the number of blocks is not
    refused as such: up to twice the number of blocks the call returns and
    leaves every block trainable, as the count equal to the number of
    blocks does; only above twice the number of blocks does the first
    index fall out of range, and then the call raises [IndexError] with
    the backbone frozen, and [train], which makes the call with the
    configured count when that is positive, raises it once the loaders
    and the model are built, before the optimizer and the first epoch:
    nothing has been written and the clock has not been read. *)
Theorem unfreeze_beyond_total (m : FoodVisionModel) (n : Z)
    (cfg : config.Config F) out device git loaders (p : Proc) :
  let total := Z.of_nat (length (features (backbone m))) in
  let built := Z.of_nat (length (features (efficientnet_b2
                                        (config.num_classes (config.model cfg))))) in
  total < n →
  (n ≤ 2 * total →
     (unfreeze_last_blocks n m).2 = Ok () ∧
     (unfreeze_last_blocks n m).1 = (unfreeze_last_blocks total m).1) ∧
  (2 * total < n →
     unfreeze_last_blocks n m
     = ({| backbone := backbone m; grad := grad (freeze_backbone m); _frozen := true |},
        Raise (IndexError (total - n)))) ∧
  (2 * built < config.unfreeze_last_blocks (config.model cfg) →
     ∃ p', train_on cfg out device git loaders p
           = (Raise (IndexError (built - config.unfreeze_last_blocks (config.model cfg))), p')
           ∧ untouched p p').
Proof.
  intros total built Hn. split_and!.
  - intros Hle.
    destruct (unfreeze_last_blocks_Ok n m) as (Hok & Hb & Hf & Hg); [fold total; lia|].
    destruct (unfreeze_last_blocks_Ok total m) as (_ & Hb' & Hf' & Hg'); [fold total; lia|].
    split; [done|]. apply model_eq; [congruence| |congruence].
    apply set_eq. intros q. rewrite Hg, Hg'. fold total.
    split; (intros [?|(i & blk & Hi & Hblk & Hq)]; [by left|right]).
    + apply block_in_join with (p := q) in Hblk as Hin; [|done].
      apply list_elem_of_join in Hin as (b & Hqb & Hb0).
      apply list_elem_of_lookup in Hb0 as [j Hj]. apply lookup_lt_Some in Hj as Hlt.
      exists (Z.of_nat j), b. rewrite Z.mod_small by (fold total; lia).
      rewrite Nat2Z.id. split_and!; [lia|fold total; lia|done..].
    + exists i, blk. split_and!; [lia|lia|done..].
  - intros Hgt. by apply unfreeze_last_blocks_Raise.
  - intros Hgt. destruct loaders as [[tl te] val]. unfold train_on.
    rewrite bind_unfold.
    pose proof (quiet_create_model (config.num_classes (config.model cfg))
                  (config.freeze_backbone (config.model cfg))
                  (config.dropout (config.model cfg))
                  (config.pretrained (config.model cfg)) device p) as Hq.
    unfold create_model in *. rewrite bind_unfold in *. unfold draw in *.
    destruct (init_weights _ _ _ _ _) as [w r]. simpl in Hq. cbn beta iota.
    unfold mret at 1, M_ret at 1. cbn beta iota.
    rewrite bind_unfold. cbn [net weights].
    rewrite bool_decide_eq_true_2 by (pose proof (Nat2Z.is_nonneg 0); lia).
    rewrite unfreeze_last_blocks_Raise by (rewrite init_backbone; fold built; lia).
    rewrite init_backbone. fold built. rewrite bind_unfold. cbn.
    by eexists.
Qed.
End Beyond.

(** ** Further properties of [models.py] *)

Section MoreModelFacts.
  Import models.
  Context {F : Type}.
  Implicit Types (m : FoodVisionModel) (bb : Backbone) (p : Param).

(** X1. [_frozen] records which of [freeze_backbone] and
    [unfreeze_backbone] ran last, not the flags of the tensors:
    [unfreeze_last_blocks] always leaves it [True], whether it returns or
    raises, and with [n] the number of blocks it leaves it [True] on a
    backbone all of whose tensors are trainable. *)
Theorem frozen_attribute_ignores_unfreeze_last_blocks m (n : Z) :
  _frozen (unfreeze_last_blocks n m).1 = true ∧
  _frozen (unfreeze_backbone m) = false ∧
  _frozen (freeze_backbone m) = true ∧
  (∀ bb freeze, _frozen (init bb freeze) = freeze) ∧
  (n = Z.of_nat (length (features (backbone m))) →
   ∀ p, p ∈ mjoin (features (backbone m)) →
        requires_grad (unfreeze_last_blocks n m).1 p = true).
Proof.
  split_and!; [|done|done|by intros ? []|].
  - destruct (decide (n ≤ 2 * Z.of_nat (length (features (backbone m))))) as [Hn|Hn].
    + by destruct (unfreeze_last_blocks_Ok n m Hn) as (_ & _ & ? & _).
    + by rewrite unfreeze_last_blocks_Raise by lia.
  - intros -> p Hp.
    destruct (unfreeze_last_blocks_Ok (Z.of_nat (length (features (backbone m)))) m)
      as (_ & _ & _ & Hgrad); [lia|].
    apply requires_grad_true, Hgrad. right.
    apply list_elem_of_join in Hp as (blk & Hp & Hblk).
    apply list_elem_of_lookup in Hblk as [i Hi].
    pose proof (lookup_lt_Some _ _ _ Hi) as Hlt.
    exists (Z.of_nat i), blk. split_and!; [lia|lia| |done].
    rewrite Z.mod_small by lia. by rewrite Nat2Z.id.
Qed.

Lemma get_parameter_groups_by_design m (lc ll lm : F) :
  (2 ≤ length (features (backbone m)))%nat →
  get_parameter_groups m lc ll lm = Ok (groups_by_design m lc ll lm).
Proof.
  intros Hlen. set (feats := features (backbone m)) in *.
  set (k := (length feats - 2)%nat).
  unfold get_parameter_groups, range. fold feats.
  replace (Z.of_nat (length feats) - 2 - 0) with (Z.of_nat k) by lia.
  replace (Z.of_nat (length feats) - (Z.of_nat (length feats) - 2))
    with (Z.of_nat 2) by lia.
  replace (Z.of_nat (length feats) - 2) with (Z.of_nat k) by lia.
  rewrite (collect_run m 0 k) by (fold feats; lia).
  rewrite (collect_run m k 2) by (fold feats; lia).
  fold feats. rewrite drop_0. simpl app.
  rewrite (take_ge (drop k feats)) by (rewrite length_drop; lia).
  unfold groups_by_design. fold feats k. f_equal.
  rewrite !filter_cons, filter_nil. simpl. unfold append_group.
  fold (trainable_of m (classifier (backbone m))).
  destruct (trainable_of m (mjoin (take k feats))),
           (trainable_of m (mjoin (drop k feats))),
           (trainable_of m (classifier (backbone m))); simpl;
    repeat (first [rewrite decide_True by done | rewrite decide_False by (by intros [])]);
    done.
Qed.

Lemma filter_all {A} (P : A → Prop) `{∀ x, Decision (P x)} (l : list A) :
  Forall P l → filter P l = l.
Proof.
  induction 1 as [|x l Hx _ IH]; [done|]. by rewrite filter_cons_True, IH.
Qed.

Lemma filter_none {A} (P : A → Prop) `{∀ x, Decision (P x)} (l : list A) :
  Forall (λ x, ¬ P x) l → filter P l = [].
Proof.
  induction 1 as [|x l Hx _ IH]; [done|]. by rewrite filter_cons_False, IH.
Qed.

(** X2. On a model built by the constructor and taken through any calls
    of the freeze policy, [get_parameter_groups] returns a list that ends
    with the group of the whole head at [lr_classifier]: the optimizer is
    never handed an empty list of groups. *)
Theorem parameter_groups_end_with_head bb (freeze : bool) (cs : list call)
    (lc ll lm : F) :
  well_formed bb → (2 ≤ length (features bb))%nat → classifier bb ≠ [] →
  ∃ gs, get_parameter_groups (foldl run_call (init bb freeze) cs) lc ll lm
        = Ok (gs ++ [{| params := classifier bb; lr := lc; name := "classifier" |}]) ∧
        Forall (λ g, name g ≠ "classifier") gs.
Proof.
  intros Hwf Hlen Hne. set (m := foldl run_call (init bb freeze) cs).
  assert (backbone m = bb) as Hbb.
  { unfold m. rewrite run_calls_backbone. by destruct freeze. }
  rewrite get_parameter_groups_by_design by (by rewrite Hbb).
  assert (trainable_of m (classifier bb) = classifier bb) as Hhead.
  { apply filter_all, Forall_forall. intros p Hp. unfold m.
    rewrite run_calls_outside.
    - by apply requires_grad_true, init_head.
    - replace (backbone (init bb freeze)) with bb by (by destruct freeze).
      by apply well_formed_head. }
  unfold groups_by_design. rewrite Hbb, Hhead.
  set (mid := {| params := trainable_of m (mjoin (take _ _)) |}).
  set (last := {| params := trainable_of m (mjoin (drop _ _)) |}).
  exists (filter (λ g, params g ≠ []) [mid; last]). split.
  - change [mid; last; ?c] with ([mid; last] ++ [c]).
    rewrite filter_app.
    by rewrite (filter_all _ [{| params := classifier bb; lr := lc;
                                 name := "classifier" |}])
      by (by repeat constructor).
  - apply Forall_forall. intros g [_ Hg]%list_elem_of_filter.
    apply elem_of_cons in Hg as [->|Hg]; [done|].
    apply elem_of_cons in Hg as [->|Hg]; [done|]. by apply elem_of_nil in Hg.
Qed.

(** X3. The bounds of [get_parameter_groups]: on a backbone without
    blocks it raises [IndexError] at index -2; on a backbone of one block
    the indices -1 and 0 both name that block, and [last_blocks] lists
    its trainable tensors twice. *)
Theorem parameter_groups_below_two_blocks m (lc ll lm : F) :
  (features (backbone m) = [] →
   get_parameter_groups m lc ll lm = Raise (IndexError (-2))) ∧
  (∀ blk, features (backbone m) = [blk] → trainable_of m blk ≠ [] →
     ∃ gs, get_parameter_groups m lc ll lm
           = Ok ({| params := trainable_of m blk ++ trainable_of m blk;
                    lr := ll; name := "last_blocks" |} :: gs)).
Proof.
  split.
  - intros Hf. unfold get_parameter_groups. rewrite Hf. simpl. by rewrite Hf.
  - intros blk Hf Hne. unfold get_parameter_groups. rewrite Hf. simpl.
    rewrite Hf. unfold getitem. simpl. rewrite !append_trainable_filter. simpl.
    unfold append_group at 2. simpl.
    destruct (trainable_of m blk) as [|x l] eqn:E; [done|]. simpl.
    unfold append_group.
    destruct (filter _ (classifier _)); by eexists.
Qed.
End MoreModelFacts.

(** ** Further properties of [train.py] *)

Section MoreTrainFacts.
  Context {F : Type} `{Number F} `{Torch F}.

Lemma set_seed_eq (seed : Z) (deterministic : bool) (p : Proc) :
  set_seed seed deterministic p
  = (Ok (), with_cudnn {| cudnn_deterministic :=
                            deterministic || cudnn_deterministic (cudnn p);
                          cudnn_benchmark := negb deterministic |}
                       (with_rngs (seeded seed) p)).
Proof. by destruct deterministic. Qed.




Lemma range_empty a b : b ≤ a → range a b = [].
Proof. intros Hle. unfold range, seqZ. by replace (Z.to_nat (b - a)) with 0%nat by lia. Qed.

Lemma remove_dups_nonempty {A} `{EqDecision A} (l : list A) :
  l ≠ [] → ∃ x l', remove_dups l = x :: l'.
Proof.
  destruct l as [|x l]; [done|]. intros _.
  assert (x ∈ remove_dups (x :: l)) as Hx by (apply elem_of_remove_dups; by left).
  destruct (remove_dups (x :: l)) as [|y l']; [by apply elem_of_nil in Hx|by eexists _, _].
Qed.

(** X6. A configuration with no epoch to run ([epochs <= 0]), otherwise
    at its defaults for unfreezing and learning rates: [train] builds the
    model and the optimizer, writes [training_history.json] with four
    empty lists, and then raises [NameError], the loop variable [epoch]
    never having been bound; [metrics.json] is not written. *)
Theorem train_without_epochs (cfg : config.Config F) (out : string) (device : Device)
    (git : string) loaders (p : Proc) :
  let bb := efficientnet_b2 (config.num_classes (config.model cfg)) in
  config.epochs (config.training cfg) ≤ 0 →
  config.unfreeze_last_blocks (config.model cfg) ≤ 0 →
  config.discriminative_lr (config.training cfg) = ∅ →
  mjoin (models.features bb) ++ models.classifier bb ≠ [] →
  disk p = [] →
  ∃ p', train_on cfg out device git loaders p = (Raise (NameError "epoch"), p') ∧
    writes p' = writes p ++ [(path_join out "training_history.json",
                              HistoryJson empty_history)] ∧
    fs p' = <[path_join out "training_history.json" := Intact (HistoryJson empty_history)]>
              (fs p).
Proof.
  intros bb HE Hun Hlr Hps Hdisk. destruct loaders as [[tl te] val].
  unfold train_on. rewrite bind_unfold. unfold create_model at 1.
  rewrite bind_unfold. unfold draw at 1.
  destruct (init_weights _ _ _ _ _) as [w r]. cbn [mret M_ret].
  rewrite (bool_decide_eq_false_2 (0 < _)) by lia. rewrite bind_unfold. cbn [mret M_ret].
  rewrite (bool_decide_eq_false_2 (_ ≠ _)) by (by intros []).
  rewrite bind_unfold. unfold optim_Adam, model_parameters. cbn [net].
  rewrite init_backbone. fold bb.
  destruct (remove_dups_nonempty _ Hps) as (x & ps & ->).
  unfold lift at 1. rewrite bind_unfold. unfold time_time at 1.
  rewrite bind_unfold, range_empty by lia. cbn [epoch_loop mret M_ret].
  rewrite bind_unfold. unfold time_time at 1.
  rewrite bind_unfold.  unfold write_file at 1. cbn [disk tick with_rngs].
  rewrite Hdisk. rewrite bind_unfold. cbn [fresh_locals l_epoch lift].
  eexists. split; [done|]. by split.
Qed.

Lemma pydiv_zero (x : F) : pydiv x 0 = Raise ZeroDivisionError.
Proof. done. Qed.

Lemma evaluate_empty model loader device (p : Proc) :
  (batches loader (rngs p)).1 = [] →
  ∃ p', evaluate model loader device p = (Raise ZeroDivisionError, p') ∧ untouched p p'.
Proof.
  intros Hbs. unfold evaluate. rewrite bind_unfold. unfold draw.
  destruct (batches loader (rngs p)) as [bs r]. simpl in Hbs. subst bs.
  cbn [foldM]. rewrite bind_unfold. cbn [mret M_ret]. rewrite bind_unfold.
  cbn [running_loss correct total].
  unfold lift at 1. destruct (pydiv (of_Z 0) (loader_len loader)) as [x|e] eqn:E.
  - rewrite bind_unfold, pydiv_zero. cbn [lift]. eexists. split; [done|].
    by repeat split.
  - unfold pydiv in E. case_bool_decide; [|done]. injection E as <-.
    eexists. split; [done|]. by repeat split.
Qed.

(** X7. A loader that yields no batch: [train_one_epoch] and [evaluate]
    both raise [ZeroDivisionError], at the division by [len(loader)] or,
    for a loader that reports a length all the same, at the division by
    the number of samples; files, clock and cuDNN switches are as before.
    So with an empty test folder the epoch loop raises it in its first
    epoch, after the training pass, and no checkpoint is written. *)
Theorem empty_loader_divides_by_zero model loader optimizer device epoch total_epochs
    (p : Proc) :
  (batches loader (rngs p)).1 = [] →
  (∃ p', train_one_epoch model loader optimizer device epoch total_epochs p
         = (Raise ZeroDivisionError, p') ∧ untouched p p') ∧
  (∃ p', evaluate model loader device p = (Raise ZeroDivisionError, p')
         ∧ untouched p p') ∧
  (∀ cfg out tl sched rest l p0 trl tra m o,
     train_one_epoch (l_model l) tl (l_optimizer l) device epoch
                     (config.epochs (config.training cfg)) p0
     = (Ok (trl, tra, m, o), p) →
     ∃ p', epoch_loop cfg out device tl loader sched (epoch :: rest) l p0
           = (Raise ZeroDivisionError, p') ∧
       fs p' = fs p0 ∧ writes p' = writes p0).
Proof.
  intros Hbs. split_and!; [|by apply evaluate_empty|].
  - unfold train_one_epoch. rewrite bind_unfold. unfold draw.
    destruct (batches loader (rngs p)) as [bs r]. simpl in Hbs. subst bs.
    cbn [imap foldM]. rewrite bind_unfold. cbn [mret M_ret]. rewrite bind_unfold.
    cbn [running_loss correct total].
    unfold lift at 1. destruct (pydiv (of_Z 0) (loader_len loader)) as [x|e] eqn:E.
    + rewrite bind_unfold, pydiv_zero. cbn [lift]. eexists. split; [done|].
      by repeat split.
    + unfold pydiv in E. case_bool_decide; [|done]. injection E as <-.
      eexists. split; [done|]. by repeat split.
  - intros cfg out tl sched rest l p0 trl tra m o Htrain.
    pose proof (quiet_train_one_epoch (l_model l) tl (l_optimizer l) device epoch
                  (config.epochs (config.training cfg)) p0) as Hq.
    rewrite Htrain in Hq. simpl in Hq.
    destruct (evaluate_empty m loader device p Hbs) as (p' & Hev' & Hq').
    exists p'. split.
    + apply epoch_loop_Raise. unfold epoch_body.
      by rewrite bind_unfold, Htrain, bind_unfold, Hev'.
    + destruct (untouched_trans _ _ _ Hq Hq') as (_ & ? & _ & ? & _). done.
Qed.
End MoreTrainFacts.

(** ** What a run of [train] that returns has left behind *)

Section Artifacts.
  Context {F : Type} `{Number F} `{Torch F}.

Lemma bind_Ok_inv {A B} (c : M A) (k : A → M B) p b p' :
  (c ≫= k) p = (Ok b, p') → ∃ a p1, c p = (Ok a, p1) ∧ k a p1 = (Ok b, p').
Proof.
  rewrite bind_unfold. destruct (c p) as [[a|e] p1]; [|discriminate].
  intros Hk. by exists a, p1.
Qed.

Lemma write_file_Ok path c (p p' : Proc) :
  write_file path c p = (Ok (), p') →
  fs p' = <[path := Intact c]> (fs p) ∧ writes p' = writes p ++ [(path, c)] ∧
  rngs p' = rngs p ∧ ticks p' = ticks p ∧ host p' = host p ∧ cudnn p' = cudnn p.
Proof.
  unfold write_file.
  destruct (disk p) as [|[[|n]|] d]; intros Hw; try discriminate;
    injection Hw as <-; by repeat split.
Qed.

Lemma lift_Ok_inv {A} (r : result A) (p : Proc) a p' :
  lift r p = (Ok a, p') → r = Ok a ∧ p' = p.
Proof. unfold lift. by intros [= -> ->]. Qed.

(** A computation that leaves the state alone when it returns. *)
Lemma still_lift {A} (r : result A) (p : Proc) a p' : lift r p = (Ok a, p') → p' = p.
Proof. unfold lift. by intros [= _ ->]. Qed.

Lemma still_unfreeze (n : Z) (model : TModel) (p : Proc) a p' :
  (if bool_decide (0 < n) then
     let '(net', r) := models.unfreeze_last_blocks n (net model) in
     lift r;; mret {| net := net'; weights := weights model |}
   else mret model) p = (Ok a, p') → p' = p.
Proof.
  case_bool_decide; [|by intros [= _ ->]].
  destruct (models.unfreeze_last_blocks n (net model)) as [net' [[]|e]];
    [by intros [= _ ->]|discriminate].
Qed.

Lemma still_optimizer (tc : config.TrainingConfig F) (model : TModel) (p : Proc) a p' :
  (if bool_decide (config.discriminative_lr tc ≠ ∅) then
     let rate := config.learning_rate tc in
     let dlr := config.discriminative_lr tc in
     param_groups ←
       lift (models.get_parameter_groups (net model)
               (default rate (dlr !! "classifier"))
               (default (div rate (of_Z 10)) (dlr !! "last_blocks"))
               (default (div rate (of_Z 100)) (dlr !! "mid_layers")));
     lift (optim_Adam (ParamGroups param_groups) (config.weight_decay tc))
   else
     lift (optim_Adam (ParamList (model_parameters model) (config.learning_rate tc))
                      (config.weight_decay tc))) p = (Ok a, p') → p' = p.
Proof.
  case_bool_decide; [|apply still_lift].
  cbv zeta. rewrite bind_unfold. unfold lift at 1.
  destruct (models.get_parameter_groups _ _ _ _) as [gs|e]; [apply still_lift|discriminate].
Qed.

Ltac inv_bind H :=
  let a := fresh "a" in let q := fresh "q" in let Ha := fresh "Ha" in
  apply bind_Ok_inv in H as (a & q & Ha & H).

(** A run of [train_on] that returns, taken apart. *)
Lemma train_on_Ok cfg out device git tl te val (p : Proc) m h me p' :
  train_on cfg out device git (tl, te, val) p = (Ok (m, h, me), p') →
  ∃ model optimizer l p1 p2 e ftr fte,
    fs p1 = fs p ∧ writes p1 = writes p ∧
    epoch_loop cfg out device tl te
      (bool_decide (config.scheduler (config.training cfg) = "cosine_annealing"))
      (range 1 (config.epochs (config.training cfg) + 1))
      (fresh_locals model optimizer) p1 = (Ok l, p2) ∧
    m = l_model l ∧ h = l_history l ∧
    l_epoch l = Some e ∧
    getitem (h_train_acc h) (-1) = Ok ftr ∧ getitem (h_test_acc h) (-1) = Ok fte ∧
    best_test_acc me = l_best_test_acc l ∧ best_epoch me = l_best_epoch l ∧
    total_epochs me = e ∧ final_train_acc me = ftr ∧ final_test_acc me = fte ∧
    git_commit me = git ∧ config_name me = config.name cfg ∧
    training_time_minutes me
    = div (sub (clock (host p2) (ticks p2)) (clock (host p1) (ticks p))) (of_Z 60) ∧
    fs p' = <[path_join out "metrics.json" := Intact (MetricsJson me)]>
              (<[path_join out "training_history.json" := Intact (HistoryJson h)]>
                 (fs p2)) ∧
    writes p' = writes p2 ++ [(path_join out "training_history.json", HistoryJson h);
                              (path_join out "metrics.json", MetricsJson me)].
Proof.
  intros Hrun. unfold train_on in Hrun.
  apply bind_Ok_inv in Hrun as (model0 & q0 & Hcreate & Hrun).
  pose proof (quiet_create_model (config.num_classes (config.model cfg))
                (config.freeze_backbone (config.model cfg))
                (config.dropout (config.model cfg))
                (config.pretrained (config.model cfg)) device p) as Hq0.
  rewrite Hcreate in Hq0.
  destruct Hq0 as (_ & Hfs0 & _ & Hw0 & Ht0 & _). simpl in Hfs0, Hw0, Ht0.
  apply bind_Ok_inv in Hrun as (model & q1 & Hunf & Hrun).
  apply still_unfreeze in Hunf as ->.
  apply bind_Ok_inv in Hrun as (optimizer & q2 & Hopt & Hrun).
  apply still_optimizer in Hopt as ->.
  apply bind_Ok_inv in Hrun as (t0 & q3 & Ht & Hrun).
  unfold time_time in Ht. injection Ht as <- <-.
  apply bind_Ok_inv in Hrun as (l & p2 & Hloop & Hrun).
  apply bind_Ok_inv in Hrun as (t1 & q4 & Ht & Hrun).
  unfold time_time in Ht. injection Ht as <- <-.
  apply bind_Ok_inv in Hrun as ([] & q5 & Hwh & Hrun).
  apply write_file_Ok in Hwh as (Hfs5 & Hw5 & _).
  apply bind_Ok_inv in Hrun as (e & q6 & He & Hrun).
  apply lift_Ok_inv in He as [He ->].
  apply bind_Ok_inv in Hrun as (ftr & q7 & Hftr & Hrun).
  apply lift_Ok_inv in Hftr as [Hftr ->].
  apply bind_Ok_inv in Hrun as (fte & q8 & Hfte & Hrun).
  apply lift_Ok_inv in Hfte as [Hfte ->].
  apply bind_Ok_inv in Hrun as ([] & q9 & Hwm & Hrun).
  apply write_file_Ok in Hwm as (Hfs9 & Hw9 & _).
  injection Hrun as Hm Hh Hme Hp. subst m h me p'.
  exists model, optimizer, l, (tick q0), p2, e, ftr, fte.
  split_and!; try done.
  - destruct (l_epoch l); by simplify_eq.
  - simpl. by rewrite Ht0.
  - rewrite Hfs9, Hfs5. done.
  - rewrite Hw9, Hw5, <-app_assoc. done.
Qed.

Lemma getitem_last {A} (l : list A) x : getitem l (-1) = Ok x → last l = Some x.
Proof.
  unfold getitem. case_bool_decide as Hr; [|discriminate].
  destruct (l !! _) as [y|] eqn:E; [|discriminate]. intros [= ->].
  rewrite last_lookup, <-E. f_equal.
  replace ((-1) `mod` Z.of_nat (length l)) with (Z.of_nat (length l) - 1).
  - lia.
  - apply Z.mod_unique with (-1); lia.
Qed.

(** X9. The metrics a run of [train] returns summarise the history it
    returns: [total_epochs] is the number of epochs in the history, at
    least one and at most the configured number; the final accuracies are
    the last entries; the best accuracy is the running maximum from 0 of
    the test accuracies and the best epoch the last epoch that raised
    it; the four lists of the history are as long as one another. *)
Theorem metrics_summarise_history cfg out device git loaders (p : Proc) m h me p' :
  train_on cfg out device git loaders p = (Ok (m, h, me), p') →
  let accs := h_test_acc h in
  total_epochs me = Z.of_nat (length accs) ∧
  1 ≤ total_epochs me ≤ config.epochs (config.training cfg) ∧
  length (h_train_loss h) = length accs ∧
  length (h_train_acc h) = length accs ∧
  length (h_test_loss h) = length accs ∧
  last (h_train_acc h) = Some (final_train_acc me) ∧
  last accs = Some (final_test_acc me) ∧
  best_test_acc me = running_best accs ∧
  best_epoch me = last_improving accs ∧
  git_commit me = git ∧ config_name me = config.name cfg.
Proof.
  destruct loaders as [[tl te] val]. intros Hrun accs.
  apply train_on_Ok in Hrun
    as (model & optimizer & l & p1 & p2 & e & ftr & fte & _ & _ & Hloop & -> & -> & He
        & Hftr & Hfte & Hb & Hbe & Hte & Hfa & Hft & Hg & Hn & _).
  rewrite range_from_one in Hloop.
  apply (epoch_loop_run _ _ _ _ _ _ _ (fresh_locals model optimizer)) in Hloop
    as ((Hbest & Hepoch & _ & L1 & L2 & L3) & (more & Hmore & Hlen & Hpos) & Hep & _);
    [|apply tracks_fresh].
  simpl in Hmore, Hep. fold accs in Hbest, Hepoch, L1, L2, L3, Hmore, Hep. subst more.
  destruct (decide (0 < Z.to_nat (config.epochs (config.training cfg)))%nat) as [Hn0|Hn0].
  - rewrite Hep in He by (by right). injection He as <-.
    specialize (Hpos Hn0).
    apply getitem_last in Hftr, Hfte. subst ftr fte.
    split_and!; try done; try lia; try congruence.
  - assert (accs = []) as Hnil by (apply length_zero_iff_nil; lia).
    apply getitem_last in Hfte. fold accs in Hfte. by rewrite Hnil in Hfte.
Qed.

Lemma path_join_inj (a b b' : string) : path_join a b = path_join a b' → b = b'.
Proof. unfold path_join. intros Heq. by do 2 apply (inj (String.app _)) in Heq. Qed.

Lemma path_join_ne (a b b' : string) : b ≠ b' → path_join a b ≠ path_join a b'.
Proof. intros Hne Heq. by apply Hne, (path_join_inj a). Qed.

(** What the epoch loop does to the files: only [best_model.pth] is
    written, and either no epoch of the run improved on the best accuracy
    and the file is as it was, or it holds the checkpoint of the best
    epoch. *)
Lemma epoch_loop_files cfg out device tl te sched epochs :
  ∀ l (p : Proc) l' p',
  epoch_loop cfg out device tl te sched epochs l p = (Ok l', p') →
  Forall (λ e, 1 ≤ e) epochs →
  (∀ path, path ≠ path_join out "best_model.pth" → fs p' !! path = fs p !! path) ∧
  (∃ cks, writes p' = writes p ++ cks ∧
          Forall (λ w, w.1 = path_join out "best_model.pth") cks) ∧
  ((l_best_epoch l' = l_best_epoch l ∧ l_best_test_acc l' = l_best_test_acc l ∧
    fs p' !! path_join out "best_model.pth" = fs p !! path_join out "best_model.pth") ∨
   (∃ ck, fs p' !! path_join out "best_model.pth" = Some (Intact (Pth ck)) ∧
          ck_epoch ck = l_best_epoch l' ∧ ck_test_acc ck = l_best_test_acc l' ∧
          ck_config ck = cfg ∧ 1 ≤ l_best_epoch l')).
Proof.
  induction epochs as [|epoch rest IH]; intros l p l' p' Hrun Hpos.
  - injection Hrun as <- <-. split_and!; [done| |by left].
    exists []. by rewrite app_nil_r.
  - apply Forall_cons in Hpos as [Hepoch Hpos].
    cbn [epoch_loop] in Hrun. apply bind_Ok_inv in Hrun as ([l1 stop] & p1 & Hbody & Hrun).
    apply epoch_body_Ok in Hbody
      as (trl & tra & vl & va & _ & _ & _ & _ & _ & _ & _ & _ & _ & Hcase).
    assert ((∀ path, path ≠ path_join out "best_model.pth" → fs p1 !! path = fs p !! path) ∧
            (∃ cks, writes p1 = writes p ++ cks ∧
                    Forall (λ w, w.1 = path_join out "best_model.pth") cks) ∧
            ((l_best_epoch l1 = l_best_epoch l ∧ l_best_test_acc l1 = l_best_test_acc l ∧
              fs p1 !! path_join out "best_model.pth"
              = fs p !! path_join out "best_model.pth") ∨
             (∃ ck, fs p1 !! path_join out "best_model.pth" = Some (Intact (Pth ck)) ∧
                    ck_epoch ck = l_best_epoch l1 ∧ ck_test_acc ck = l_best_test_acc l1 ∧
                    ck_config ck = cfg ∧ 1 ≤ l_best_epoch l1))) as (Hother & Hwr & Hbest).
    { destruct (gt va (l_best_test_acc l)).
      - destruct Hcase as (Hb & He & _ & ck & Hce & Hca & _ & Hcc & _ & _ & Hw & Hfs & _).
        split_and!.
        + intros path Hpath. rewrite Hfs. by apply lookup_insert_ne.
        + eexists [_]. split; [exact Hw|]. by repeat constructor.
        + right. exists ck. rewrite Hfs, lookup_insert_eq. split_and!; try done; congruence.
      - destruct Hcase as (Hb & He & _ & Hw & Hfs & _). split_and!.
        + intros path _. by rewrite Hfs.
        + exists []. by rewrite app_nil_r.
        + left. by rewrite Hfs. }
    destruct stop.
    { injection Hrun as <- <-. done. }
    destruct (IH _ _ _ _ Hrun Hpos) as (Hother' & (cks' & Hw' & Hcks') & Hbest').
    split_and!.
    + intros path Hp. by rewrite Hother', Hother.
    + destruct Hwr as (cks & Hw & Hcks). exists (cks ++ cks').
      rewrite Hw', Hw, app_assoc. split; [done|by apply Forall_app].
    + destruct Hbest' as [(E1 & E2 & E3)|(ck & ? & ? & ? & ? & ?)].
      * destruct Hbest as [(E1' & E2' & E3')|(ck & ? & ? & ? & ? & ?)].
        -- left. split_and!; congruence.
        -- right. exists ck. rewrite E3. split_and!; [done|congruence..|lia].
      * right. by exists ck.
Qed.

Lemma load_config_Ok config_path (p : Proc) cfg p' :
  load_config config_path p = (Ok cfg, p') →
  fs p !! config_path = Some (Intact (Yaml cfg)) ∧ p' = p.
Proof.
  unfold load_config, read_file. rewrite bind_unfold.
  destruct (fs p !! config_path) as [[[c| | |]|]|]; try discriminate.
  by intros [= -> ->].
Qed.

Lemma range_from_one_pos E : Forall (λ e, 1 ≤ e) (range 1 (E + 1)).
Proof. apply Forall_forall. intros e He%elem_of_range. lia. Qed.

(** X8. What a run of [train] that returns has left on disk.  The output
    directory holds [config.yaml] with the configuration read,
    [training_history.json] with the history returned and [metrics.json]
    with the metrics returned.  [best_model.pth] holds the checkpoint of
    the best epoch, with the best accuracy, unless no epoch had an
    accuracy above 0: then the best epoch is 0 and the file is as the run
    found it.  No other file has changed, and the writes were, in order:
    the configuration, checkpoints, the history, the metrics. *)
Theorem train_leaves_what_it_returns config_path output_dir device (p : Proc)
    m h me p' :
  train config_path output_dir device p = (Ok (m, h, me), p') →
  ∃ cfg, fs p !! config_path = Some (Intact (Yaml cfg)) ∧
    let out := match output_dir with
               | None => path_join "artifacts" (config.name cfg)
               | Some d => d
               end in
    fs p' !! path_join out "config.yaml" = Some (Intact (Yaml cfg)) ∧
    fs p' !! path_join out "training_history.json" = Some (Intact (HistoryJson h)) ∧
    fs p' !! path_join out "metrics.json" = Some (Intact (MetricsJson me)) ∧
    (if bool_decide (best_epoch me = 0)
     then fs p' !! path_join out "best_model.pth" = fs p !! path_join out "best_model.pth"
     else ∃ ck, fs p' !! path_join out "best_model.pth" = Some (Intact (Pth ck)) ∧
                ck_epoch ck = best_epoch me ∧ ck_test_acc ck = best_test_acc me ∧
                ck_config ck = cfg) ∧
    (∀ path, path ∉ [path_join out "config.yaml"; path_join out "best_model.pth";
                     path_join out "training_history.json"; path_join out "metrics.json"] →
             fs p' !! path = fs p !! path) ∧
    ∃ cks, writes p' = writes p ++ [(path_join out "config.yaml", Yaml cfg)] ++ cks
                       ++ [(path_join out "training_history.json", HistoryJson h);
                           (path_join out "metrics.json", MetricsJson me)] ∧
           Forall (λ w, w.1 = path_join out "best_model.pth") cks.
Proof.
  intros Hrun. unfold train in Hrun.
  apply bind_Ok_inv in Hrun as (cfg & q & Hload & Hrun).
  apply load_config_Ok in Hload as [Hcfg ->].
  exists cfg. split; [done|]. intros out. fold out in Hrun.
  apply bind_Ok_inv in Hrun as ([] & p1 & Hwc & Hrun).
  apply write_file_Ok in Hwc as (Hfs1 & Hw1 & _).
  apply bind_Ok_inv in Hrun as (d & q & Hdev & Hrun).
  assert (q = p1) as ->.
  { destruct device; [by injection Hdev as _ <-|].
    apply bind_Ok_inv in Hdev as (? & ? & [= _ <-] & [= _ <-]). done. }
  apply bind_Ok_inv in Hrun as ([] & p2 & Hseed & Hrun).
  rewrite set_seed_eq in Hseed. injection Hseed as <-.
  apply bind_Ok_inv in Hrun as (git & q & Hgit & Hrun).
  unfold get_git_commit_hash in Hgit.
  apply bind_Ok_inv in Hgit as (? & ? & [= _ <-] & [= _ <-]).
  unfold train_with in Hrun.
  apply bind_Ok_inv in Hrun as (root & q & [= _ <-] & Hrun).
  apply bind_Ok_inv in Hrun as ([[tl te] val] & p3 & Hload & Hrun).
  match type of Hload with
  | data.create_dataloaders ?a ?b ?c ?d ?e ?f ?g ?q = _ =>
      destruct (create_dataloaders_reads a b c d e f g q q eq_refl) as [_ Hst]
  end.
  rewrite Hload in Hst. simpl in Hst. subst p3.
  apply train_on_Ok in Hrun
    as (model & optimizer & l & p4 & p5 & e & ftr & fte & Hfs4 & Hw4 & Hloop & -> & ->
        & _ & _ & _ & Hb & Hbe & _ & _ & _ & _ & _ & _ & Hfs & Hw).
  simpl in Hfs4, Hw4.
  apply epoch_loop_files in Hloop as (Hother & (cks & Hw5 & Hcks) & Hbest);
    [|apply range_from_one_pos].
  simpl in Hbest.
  assert (∀ a b : string, a ≠ b → path_join out a ≠ path_join out b) as Hne
    by (intros a b; apply path_join_ne).
  split_and!.
  - rewrite Hfs, !lookup_insert_ne, Hother, Hfs4, Hfs1 by (by apply Hne).
    apply lookup_insert_eq.
  - rewrite Hfs, lookup_insert_ne by (by apply Hne). apply lookup_insert_eq.
  - rewrite Hfs. apply lookup_insert_eq.
  - rewrite Hfs, !lookup_insert_ne by (by apply Hne). rewrite Hb, Hbe.
    destruct Hbest as [(E1 & E2 & E3)|(ck & E1 & E2 & E3 & E4 & E5)].
    + rewrite bool_decide_eq_true_2 by done.
      rewrite E3, Hfs4, Hfs1. by apply lookup_insert_ne, Hne.
    + rewrite bool_decide_eq_false_2 by lia. by exists ck.
  - intros path Hpath.
    rewrite !not_elem_of_cons in Hpath. destruct Hpath as (P1 & P2 & P3 & P4 & _).
    rewrite Hfs, !lookup_insert_ne, Hother, Hfs4, Hfs1 by done.
    by apply lookup_insert_ne.
  - exists cks. split; [|done]. rewrite Hw, Hw5, Hw4, Hw1. by rewrite <-!app_assoc.
Qed.
End Artifacts.

(** ** Properties of [data.py] *)

Section DataFacts.
  Context {F : Type} `{Number F} `{Torch F}.


(** What [create_dataloaders] returns, spelt out. *)
Lemma create_dataloaders_Ok data_dir bsz level size workers pin vs (p : Proc)
    tl te val p' :
  data.create_dataloaders data_dir bsz level size workers pin vs p
  = (Ok (tl, te, val), p') →
  ∃ full test ttr,
    image_folders (host p) !! path_join data_dir "train" = Some full ∧
    image_folders (host p) !! path_join data_dir "test" = Some test ∧
    data.get_transforms level size = Ok (ttr, CenterCropPipeline size) ∧
    te = {| dataset := test; transform := CenterCropPipeline size;
            loader_batch_size := bsz; shuffle := false;
            loader_num_workers := workers; pin_memory := pin |} ∧
    let n := Z.of_nat (length full) in
    let train_size := trunc (mul (sub (of_Z 1) vs) (of_Z n)) in
    let split := data.random_split full train_size (n - train_size)
                                   (Generator_manual_seed 42) in
    tl = {| dataset := if gt vs (of_Z 0) then split.1 else full; transform := ttr;
            loader_batch_size := bsz; shuffle := true;
            loader_num_workers := workers; pin_memory := pin |} ∧
    val = if gt vs (of_Z 0)
          then Some {| dataset := split.2; transform := ttr;
                       loader_batch_size := bsz; shuffle := false;
                       loader_num_workers := workers; pin_memory := pin |}
          else None.
Proof.
  unfold data.create_dataloaders. rewrite bind_unfold. unfold ask.
  destruct (image_folders (host p) !! path_join data_dir "train") as [full|]; [|done].
  destruct (image_folders (host p) !! path_join data_dir "test") as [test|]; [|done].
  rewrite bind_unfold. unfold lift.
  destruct (data.get_transforms level size) as [[ttr tte]|e] eqn:Etr; [|done].
  assert (tte = CenterCropPipeline size) as ->.
  { unfold data.get_transforms in Etr. cbv zeta in Etr.
    repeat case_bool_decide; by simplify_eq. }
  intros Hret. exists full, test, ttr. cbv zeta.
  destruct (gt vs (of_Z 0)); [destruct (data.random_split _ _ _ _) as [d1 d2]|];
    injection Hret as <- <- <- <-; by split_and!.
Qed.

(** X11. The loaders [create_dataloaders] returns.  The test loader holds
    the whole test folder in order, unshuffled, under the pipeline without
    augmentation, whatever the level.  The training loader shuffles.  The
    third loader is [None] exactly when [val_split > 0] is false; when
    there is one it is unshuffled and runs the training pipeline, so with
    the level ["enhanced"] the validation images are augmented. *)
Theorem validation_loader_uses_training_pipeline data_dir bsz level size workers pin vs
    (p : Proc) tl te val p' :
  data.create_dataloaders data_dir bsz level size workers pin vs p
  = (Ok (tl, te, val), p') →
  image_folders (host p) !! path_join data_dir "test" = Some (dataset te) ∧
  shuffle te = false ∧ transform te = CenterCropPipeline size ∧
  shuffle tl = true ∧
  transform tl = (if bool_decide (level = "basic") then CenterCropPipeline size
                  else AugmentPipeline size) ∧
  (val = None ↔ gt vs (of_Z 0) = false) ∧
  (gt vs (of_Z 0) = false →
   image_folders (host p) !! path_join data_dir "train" = Some (dataset tl)) ∧
  (∀ vl, val = Some vl → shuffle vl = false ∧ transform vl = transform tl) ∧
  Forall (λ l, loader_batch_size l = bsz ∧ loader_num_workers l = workers
               ∧ pin_memory l = pin) (tl :: te :: option_list val).
Proof.
  intros Hret.
  apply create_dataloaders_Ok in Hret
    as (full & test & ttr & Hfull & Htest & Htr & -> & Htl & Hval).
  cbv zeta in Htl, Hval. subst tl val. cbn [dataset shuffle transform].
  assert (ttr = if bool_decide (level = "basic") then CenterCropPipeline size
                else AugmentPipeline size) as ->.
  { unfold data.get_transforms in Htr. cbv zeta in Htr.
    repeat case_bool_decide; by simplify_eq. }
  split_and!; try done.
  - by destruct (gt vs (of_Z 0)).
  - by intros ->.
  - intros vl Hvl. destruct (gt vs (of_Z 0)); by simplify_eq.
  - destruct (gt vs (of_Z 0)); by repeat constructor.
Qed.

(** X12. The loaders depend on the image folders only.  Two processes
    with the same folders get the same loaders or the same exception,
    whatever the states of their generators, and the generators are not
    advanced: the validation split is drawn from a generator of its own,
    seeded with 42, so it is the same in every run and for every seed of
    the configuration. *)
Theorem create_dataloaders_ignores_seed data_dir bsz level size workers pin vs
    (p p' : Proc) :
  image_folders (host p) = image_folders (host p') →
  (data.create_dataloaders data_dir bsz level size workers pin vs p).1
  = (data.create_dataloaders data_dir bsz level size workers pin vs p').1 ∧
  (data.create_dataloaders data_dir bsz level size workers pin vs p).2 = p ∧
  (∀ seed det, (data.create_dataloaders data_dir bsz level size workers pin vs
                  (set_seed seed det p).2).1
               = (data.create_dataloaders data_dir bsz level size workers pin vs p).1).
Proof.
  intros Hf.
  destruct (create_dataloaders_reads data_dir bsz level size workers pin vs p p' Hf)
    as [H1 H2].
  split_and!; [done..|]. intros seed det.
  apply create_dataloaders_reads. by rewrite set_seed_eq.
Qed.

Lemma omap_lookup_seq {A} (l : list A) : omap (λ i, l !! i) (seq 0 (length l)) = l.
Proof.
  induction l as [|x l IH]; [done|]. cbn [length seq]. rewrite <-fmap_S_seq.
  cbn [omap list_omap lookup list_lookup]. f_equal.
  rewrite <-IH at 2. clear IH. generalize (seq 0 (length l)) as idxs.
  induction idxs as [|i idxs IH]; [done|]. csimpl. by rewrite IH.
Qed.

Lemma length_omap_le {A B} (f : A → option B) (l : list A) :
  (length (omap f l) ≤ length l)%nat.
Proof. induction l as [|x l IH]; [done|]. csimpl. destruct (f x); simpl; lia. Qed.

Lemma slice_prefix {A} (l : list A) (n : Z) :
  0 ≤ n ≤ Z.of_nat (length l) → slice l (n - n) n = take (Z.to_nat n) l.
Proof.
  intros Hn. unfold slice. rewrite Z.sub_diag.
  rewrite !bool_decide_eq_false_2 by lia.
  replace (Z.min 0 _) with 0 by lia. replace (Z.min n _) with n by lia.
  by rewrite Z.sub_0_r, drop_0.
Qed.

Lemma slice_suffix {A} (l : list A) (n1 n2 : Z) :
  0 ≤ n1 → 0 ≤ n2 → n1 + n2 = Z.of_nat (length l) →
  slice l (n1 + n2 - n2) (n1 + n2) = drop (Z.to_nat n1) l.
Proof.
  intros H1 H2 Hlen. unfold slice. replace (n1 + n2 - n2) with n1 by lia.
  rewrite !bool_decide_eq_false_2 by lia.
  replace (Z.min n1 _) with n1 by lia. replace (Z.min (n1 + n2) _) with (n1 + n2) by lia.
  apply take_ge. rewrite length_drop. lia.
Qed.

(** X13. The validation split is a partition of the training folder: when
    [val_split > 0], the number of training images [int((1 - val_split) *
    len)] lies between 0 and the size of the folder, and [randperm]
    yields a permutation, the images of the training loader and those of
    the validation loader together are the images of the folder, each
    once, and the two loaders have the sizes computed. *)
Theorem validation_split_partitions data_dir bsz level size workers pin vs (p : Proc)
    tl te vl p' full :
  let n := Z.of_nat (length full) in
  let train_size := trunc (mul (sub (of_Z 1) vs) (of_Z n)) in
  data.create_dataloaders data_dir bsz level size workers pin vs p
  = (Ok (tl, te, Some vl), p') →
  image_folders (host p) !! path_join data_dir "train" = Some full →
  randperm (length full) (Generator_manual_seed 42) ≡ₚ seq 0 (length full) →
  0 ≤ train_size ≤ n →
  dataset tl ++ dataset vl ≡ₚ full ∧
  length (dataset tl) = Z.to_nat train_size ∧
  length (dataset vl) = Z.to_nat (n - train_size).
Proof.
  intros n train_size Hret Hfull Hperm Hsize.
  apply create_dataloaders_Ok in Hret
    as (full' & test & ttr & Hfull' & _ & _ & _ & Htl & Hval).
  rewrite Hfull in Hfull'. injection Hfull' as <-.
  cbv zeta in Htl, Hval. fold n train_size in Htl, Hval.
  destruct (gt vs (of_Z 0)); [|done]. injection Hval as ->. subst tl.
  cbn [dataset]. unfold data.random_split. cbn [fst snd].
  replace (Z.to_nat (train_size + (n - train_size))) with (length full) by lia.
  set (indices := randperm (length full) (Generator_manual_seed 42)) in *.
  assert (length indices = length full) as Hlen.
  { by rewrite Hperm, length_seq. }
  rewrite slice_prefix, slice_suffix by lia.
  assert (omap (λ i, full !! i) (take (Z.to_nat train_size) indices)
          ++ omap (λ i, full !! i) (drop (Z.to_nat train_size) indices) ≡ₚ full) as Hall.
  { rewrite <-omap_app, take_drop, Hperm. by rewrite omap_lookup_seq. }
  split; [done|].
  pose proof (length_omap_le (λ i, full !! i) (take (Z.to_nat train_size) indices)) as L1.
  pose proof (length_omap_le (λ i, full !! i) (drop (Z.to_nat train_size) indices)) as L2.
  apply Permutation_length in Hall. rewrite length_app in Hall.
  rewrite length_take in L1. rewrite length_drop in L2. lia.
Qed.
End DataFacts.

(** ** Properties of [utils.py] *)

Section MeterFacts.
  Import utils.
  Context {F : Type} `{Number F}.
  Implicit Types (m : AverageMeter F) (vs : list (F * Z)).

Lemma update_fields m (v : F) (n : Z) :
  val (update m v n).1 = v ∧
  sum (update m v n).1 = add (sum m) (mul v (of_Z n)) ∧
  count (update m v n).1 = count m + n.
Proof. unfold update. by destruct (pydiv _ _). Qed.

Lemma update_returns m (v : F) (n : Z) :
  count m + n ≠ 0 →
  (update m v n).2 = Ok () ∧
  avg (update m v n).1 = div (sum (update m v n).1) (of_Z (count (update m v n).1)).
Proof. intros Hn. unfold update, pydiv. by rewrite bool_decide_eq_false_2. Qed.

Lemma updates_snoc m vs v n : updates m (vs ++ [(v, n)]) = (update (updates m vs) v n).1.
Proof. unfold updates. by rewrite foldl_app. Qed.

Lemma total_weight_app vs vs' : total_weight (vs ++ vs') = total_weight vs + total_weight vs'.
Proof. induction vs as [|[v n] vs IH]; simpl; [done|]. rewrite IH. lia. Qed.

Lemma total_weight_nonneg vs : Forall (λ vn, 0 < vn.2) vs → 0 ≤ total_weight vs.
Proof. induction 1 as [|[v n] vs Hn _ IH]; simpl in *; lia. Qed.

Lemma updates_sums m vs :
  count (updates m vs) = count m + total_weight vs ∧
  sum (updates m vs) = weighted_sum (sum m) vs.
Proof.
  induction vs as [|[v n] vs IH] using rev_ind.
  - simpl. split; [lia|done].
  - rewrite updates_snoc. destruct (update_fields (updates m vs) v n) as (_ & -> & ->).
    destruct IH as [-> ->]. rewrite total_weight_app. unfold weighted_sum.
    rewrite foldl_app. simpl. split; [lia|done].
Qed.

(** X14. [AverageMeter] fed batches of positive sizes.  From a meter whose
    count is not negative, such as a fresh one, no call of [update]
    raises, and after the last one [count] is the total of the sizes
    added to the count at the start, [sum] the values weighted by their
    sizes added to the sum at the start, [val] the last value, and [avg]
    the quotient of [sum] by [count]. *)
Theorem average_meter_tracks m vs :
  0 ≤ count m → Forall (λ vn, 0 < vn.2) vs → vs ≠ [] →
  let m' := updates m vs in
  (∀ k v n, vs !! k = Some (v, n) → (update (updates m (take k vs)) v n).2 = Ok ()) ∧
  count m' = count m + total_weight vs ∧ 0 < count m' ∧
  sum m' = weighted_sum (sum m) vs ∧
  avg m' = div (sum m') (of_Z (count m')) ∧
  fst <$> last vs = Some (val m').
Proof.
  intros Hc Hpos Hne m'.
  destruct (updates_sums m vs) as [Hcount Hsum]. fold m' in Hcount, Hsum.
  assert (∀ k v n, vs !! k = Some (v, n) →
            count (updates m (take k vs)) + n ≠ 0) as Hok.
  { intros k v n Hk. destruct (updates_sums m (take k vs)) as [-> _].
    assert (0 ≤ total_weight (take k vs)) as Hnn.
    { apply total_weight_nonneg. by apply Forall_take. }
    pose proof (Forall_lookup_1 _ _ _ _ Hpos Hk) as Hn. simpl in Hn. lia. }
  destruct vs as [|[v n] vs _] using rev_ind; [done|]. clear Hne.
  assert (0 < n) as Hn.
  { pose proof Hpos as Hp. apply Forall_app in Hp as [_ Hn].
    apply Forall_cons in Hn as [Hn _]. exact Hn. }
  assert (count (updates m vs) + n ≠ 0) as Hlast.
  { replace vs with (take (length vs) (vs ++ [(v, n)])) at 1
      by (by rewrite take_app_length).
    apply (Hok _ v). by rewrite lookup_app_r, Nat.sub_diag. }
  subst m'. rewrite updates_snoc in *.
  destruct (update_fields (updates m vs) v n) as (Hv & Hs & Hcn).
  destruct (update_returns (updates m vs) v n Hlast) as [_ Havg].
  split_and!; try done.
  - intros k v' n' Hk. by apply update_returns, (Hok k v').
  - destruct (updates_sums m vs) as [Hc' _].
    pose proof (total_weight_nonneg vs) as Hnn. apply Forall_app in Hpos as [Hpos _].
    specialize (Hnn Hpos). lia.
  - by rewrite last_snoc, Hv.
Qed.

(** X15. The division is the last statement of [update]: when the count
    comes to 0, as on a fresh meter updated with [n = 0], the call raises
    [ZeroDivisionError] with [val], [sum] and [count] already assigned
    and [avg] left at its old value; [reset] gives a meter on which this
    happens for every value. *)
Theorem average_meter_update_at_zero m (v : F) (n : Z) :
  (count m + n = 0 ↔ (update m v n).2 = Raise ZeroDivisionError) ∧
  (count m + n = 0 →
   val (update m v n).1 = v ∧ sum (update m v n).1 = add (sum m) (mul v (of_Z n)) ∧
   count (update m v n).1 = 0 ∧ avg (update m v n).1 = avg m) ∧
  (update reset v 0).2 = Raise ZeroDivisionError.
Proof.
  split_and!.
  - unfold update, pydiv. case_bool_decide; split; try done.
  - intros Hn. unfold update, pydiv. by rewrite bool_decide_eq_true_2.
  - done.
Qed.
End MeterFacts.

Section CountFacts.
  Import models.
  Variable numel : Param → nat.
  Implicit Types (m : FoodVisionModel) (bb : Backbone) (p : Param).

Lemma remove_dups_NoDup {A} `{EqDecision A} (l : list A) : NoDup l → remove_dups l = l.
Proof.
  induction 1 as [|x l Hx _ IH]; [done|]. simpl.
  destruct (decide_rel elem_of x l); [done|by rewrite IH].
Qed.

Lemma parameters_well_formed m :
  well_formed (backbone m) →
  utils.parameters m = mjoin (features (backbone m)) ++ classifier (backbone m).
Proof. apply remove_dups_NoDup. Qed.

Lemma sum_list_filter_le {A} (f : A → nat) (P : A → Prop) `{∀ x, Decision (P x)}
    (l : list A) :
  (sum_list (f <$> filter P l) ≤ sum_list (f <$> l))%nat.
Proof.
  induction l as [|x l IH]; [done|]. rewrite filter_cons.
  destruct (decide (P x)); csimpl; lia.
Qed.

(** The flags after [unfreeze_last_blocks(n)] on a well-formed network:
    the tensors of the blocks before the last [n] are frozen, those of
    the last [n] blocks trainable. *)
Lemma unfreeze_last_blocks_flags m (n : nat) :
  well_formed (backbone m) → (n ≤ length (features (backbone m)))%nat →
  let k := (length (features (backbone m)) - n)%nat in
  let m' := (unfreeze_last_blocks (Z.of_nat n) m).1 in
  Forall (λ p, ¬ requires_grad m' p = true) (mjoin (take k (features (backbone m)))) ∧
  Forall (λ p, requires_grad m' p = true) (mjoin (drop k (features (backbone m)))) ∧
  Forall (λ p, requires_grad m' p = requires_grad m p) (classifier (backbone m)).
Proof.
  intros Hwf Hn k m'. set (feats := features (backbone m)) in *.
  destruct (unfreeze_last_blocks_Ok (Z.of_nat n) m) as (_ & _ & _ & Hgrad);
    [fold feats; lia|]. fold feats m' in Hgrad.
  assert (NoDup (mjoin feats)) as Hnd by (by apply NoDup_app in Hwf as [? _]).
  split_and!; apply Forall_forall; intros p Hp.
  - rewrite requires_grad_true, Hgrad.
    apply list_elem_of_join in Hp as (blk & Hp & Hblk).
    apply list_elem_of_lookup in Hblk as [j Hj]. apply lookup_take_Some in Hj as [Hj Hjk].
    intros [[_ Hout]|(i & blk' & Hi & Hlook & Hp')].
    + apply Hout. by eapply block_in_join.
    + rewrite Z.mod_small in Hlook by lia.
      pose proof (block_unique feats _ _ _ _ p Hnd Hlook Hj Hp' Hp). lia.
  - rewrite requires_grad_true, Hgrad. right.
    apply list_elem_of_join in Hp as (blk & Hp & Hblk).
    apply list_elem_of_lookup in Hblk as [j Hj]. rewrite lookup_drop in Hj.
    pose proof (lookup_lt_Some _ _ _ Hj) as Hlt. fold feats in Hlt.
    exists (Z.of_nat (k + j)), blk. split_and!; [lia..| |done].
    rewrite Z.mod_small by lia. by rewrite Nat2Z.id.
  - apply requires_grad_ext. rewrite Hgrad. split.
    + intros [[? _]|(i & blk & Hi & Hlook & Hp')]; [done|].
      exfalso. apply (well_formed_head _ p Hwf Hp). by eapply block_in_join.
    + intros Hg. left. split; [done|]. by apply well_formed_head.
Qed.

Lemma count_trainable_after_unfreeze m (n : nat) :
  let feats := features (backbone m) in
  well_formed (backbone m) →
  (∀ p, p ∈ classifier (backbone m) → requires_grad m p = true) →
  (n ≤ length feats)%nat →
  utils.count_parameters numel (unfreeze_last_blocks (Z.of_nat n) m).1 true
  = (sum_list (numel <$> mjoin (drop (length feats - n) feats))
     + sum_list (numel <$> classifier (backbone m)))%nat.
Proof.
  intros feats Hwf Hhead Hn. set (m' := (unfreeze_last_blocks (Z.of_nat n) m).1).
  destruct (unfreeze_last_blocks_Ok (Z.of_nat n) m) as (_ & Hbb & _); [fold feats; lia|].
  fold m' in Hbb.
  destruct (unfreeze_last_blocks_flags m n Hwf Hn) as (Hmid & Hlast & Hcls).
  fold feats m' in Hmid, Hlast, Hcls. cbv zeta in Hmid, Hlast, Hcls.
  unfold utils.count_parameters.
  rewrite !parameters_well_formed by (by rewrite ?Hbb). rewrite Hbb. fold feats.
  rewrite <-(take_drop (length feats - n) feats) at 1.
  rewrite join_app, !filter_app, (filter_none _ _ Hmid), (filter_all _ _ Hlast).
  rewrite filter_all.
  - by rewrite app_nil_l, fmap_app, sum_list_with_app.
  - apply Forall_forall. intros p Hp.
    rewrite (proj1 (Forall_forall _ _) Hcls p Hp). by apply Hhead.
Qed.

Lemma unfreeze_last_blocks_zero m :
  unfreeze_last_blocks 0 m = (freeze_backbone m, Ok ()).
Proof.
  unfold unfreeze_last_blocks. cbn [backbone freeze_backbone].
  by rewrite range_empty by lia.
Qed.

(** X16. The counts [print_summary] shows.  The trainable count never
    exceeds the total.  On a well-formed network whose head is trainable,
    after [unfreeze_last_blocks(n)] with [n] at most the number of blocks
    the total is as before and the trainable count is the size of the head
    plus the sizes of the last [n] blocks; after [freeze_backbone()] it is
    the size of the head. *)
Theorem count_parameters_after_unfreeze m (n : nat) :
  let feats := features (backbone m) in
  let head := sum_list (numel <$> classifier (backbone m)) in
  well_formed (backbone m) →
  (∀ p, p ∈ classifier (backbone m) → requires_grad m p = true) →
  (n ≤ length feats)%nat →
  let m' := (unfreeze_last_blocks (Z.of_nat n) m).1 in
  (∀ m0, utils.count_parameters numel m0 true ≤ utils.count_parameters numel m0 false)%nat ∧
  utils.count_parameters numel m' false = utils.count_parameters numel m false ∧
  utils.count_parameters numel m' false
  = (sum_list (numel <$> mjoin feats) + head)%nat ∧
  utils.count_parameters numel m' true
  = (sum_list (numel <$> mjoin (drop (length feats - n) feats)) + head)%nat ∧
  utils.count_parameters numel (freeze_backbone m) true = head.
Proof.
  intros feats head Hwf Hhead Hn m'.
  destruct (unfreeze_last_blocks_Ok (Z.of_nat n) m) as (_ & Hbb & _); [fold feats; lia|].
  fold m' in Hbb.
  split_and!.
  - intros m0. apply sum_list_filter_le.
  - unfold utils.count_parameters, utils.parameters. by rewrite Hbb.
  - unfold utils.count_parameters. rewrite parameters_well_formed by (by rewrite Hbb).
    rewrite Hbb. by rewrite fmap_app, sum_list_with_app.
  - by apply count_trainable_after_unfreeze.
  - pose proof (count_trainable_after_unfreeze m 0 Hwf Hhead) as H0.
    rewrite unfreeze_last_blocks_zero in H0. cbn [fst] in H0.
    rewrite H0 by lia. fold feats. by rewrite Nat.sub_0_r, drop_all.
Qed.
End CountFacts.

(** ** Properties of [config.py] *)

Section ConfigFacts.
  Context {F : Type} `{Number F}.
  Implicit Types (d items : list (string * PyVal F)).

Lemma all_made_floats (name : string) (l : list (string * F)) :
  all_made (as_float name) ((λ kx, (kx.1, VFloat kx.2)) <$> l) = Made l.
Proof. induction l as [|[k x] l IH]; [done|]. csimpl. by rewrite IH. Qed.

Lemma TrainingConfig_round_trip (t : config.TrainingConfig F) :
  TrainingConfig_init
    [ ("epochs", VInt (config.epochs t));
      ("batch_size", VInt (config.batch_size t));
      ("optimizer", VStr (config.optimizer t));
      ("learning_rate", VFloat (config.learning_rate t));
      ("weight_decay", VFloat (config.weight_decay t));
      ("loss", VStr (config.loss t));
      ("scheduler", VStr (config.scheduler t));
      ("early_stopping", VBool (config.early_stopping t));
      ("patience", VInt (config.patience t));
      ("discriminative_lr",
       VDict ((λ kx, (kx.1, VFloat kx.2)) <$> map_to_list (config.discriminative_lr t))) ]
  = Made t.
Proof.
  destruct t as [e b o lr wd l s es pa dlr]. unfold TrainingConfig_init.
  cbn [config.epochs config.batch_size config.optimizer config.learning_rate
       config.weight_decay config.loss config.scheduler config.early_stopping
       config.patience config.discriminative_lr].
  assert (rates_field
            [ ("epochs", VInt e); ("batch_size", VInt b); ("optimizer", VStr o);
              ("learning_rate", VFloat lr); ("weight_decay", VFloat wd);
              ("loss", VStr l); ("scheduler", VStr s); ("early_stopping", VBool es);
              ("patience", VInt pa);
              ("discriminative_lr",
               VDict ((λ kx, (kx.1, VFloat kx.2)) <$> map_to_list dlr)) ]
            "discriminative_lr" = Made dlr) as ->.
  { unfold rates_field. cbn [dict_get]. repeat (rewrite decide_False by done).
    rewrite decide_True by done.
    rewrite all_made_floats. cbn [made_bind]. by rewrite list_to_map_to_list. }
  reflexivity.
Qed.

(** X17. [Config.from_dict] undoes [Config.to_dict]: every field a
    configuration holds is written under the name [from_dict] reads it
    back from, so a configuration saved and loaded again is the one that
    was saved. *)
Theorem from_dict_to_dict (c : config.Config F) : from_dict (to_dict c) = Made c.
Proof.
  destruct c as [m t d r name description]. unfold from_dict, to_dict.
  cbn [config.model config.training config.data config.reproducibility config.name
       config.description].
  unfold section_kwargs. cbn [dict_get]. 
  repeat (rewrite ?(decide_True (P := _ = _)) by done;
          rewrite ?(decide_False (P := _ = _)) by done).
  cbn [made_bind]. rewrite TrainingConfig_round_trip. cbn [made_bind].
  by destruct m, d, r.
Qed.


End ConfigFacts.

(** ** [get_class_weights] *)

Section ClassWeightFacts.
  Context {F : Type} `{Number F}.
  Variable glob : string → string → list string.

Lemma comprehension_pydiv (x : F) (counts : list Z) :
  match comprehension (λ count, pydiv x count) counts with
  | Ok ws => Forall (λ c, c ≠ 0) counts ∧ length ws = length counts
  | Raise e => e = ZeroDivisionError ∧ Exists (λ c, c = 0) counts
  end.
Proof.
  induction counts as [|c counts IH]; [done|]. cbn [comprehension]. unfold pydiv at 1.
  case_bool_decide as Hc.
  - split; [done|]. by left.
  - destruct (comprehension _ counts) as [ws|e].
    + destruct IH as [IH1 IH2]. split; [by constructor|]. simpl. by rewrite IH2.
    + destruct IH as [-> IH]. split; [done|]. by right.
Qed.

(** X19. [get_class_weights] counts the [.jpg] files of the three class
    folders of the training set and divides the total by each count: it
    raises [ZeroDivisionError] exactly when some class has no such file,
    a class folder that is missing or holds images under other
    extensions included, and otherwise returns three weights. *)
Theorem class_weights_need_every_class (data_dir : string) :
  let jpgs class_name :=
    glob (path_join (path_join data_dir "train") class_name) "*.jpg" in
  (get_class_weights glob data_dir = Raise ZeroDivisionError
   ↔ ∃ class_name, class_name ∈ CLASS_NAMES ∧ jpgs class_name = []) ∧
  (returned (get_class_weights glob data_dir) = true
   ↔ ∀ class_name, class_name ∈ CLASS_NAMES → jpgs class_name ≠ []) ∧
  (∀ ws, get_class_weights glob data_dir = Ok ws → length ws = 3%nat).
Proof.
  intros jpgs. unfold get_class_weights. cbv zeta.
  set (counts := (λ c, Z.of_nat (length (glob _ "*.jpg"))) <$> CLASS_NAMES).
  pose proof (comprehension_pydiv (of_Z (foldl Z.add 0 counts)) counts) as Hc.
  assert (∀ P : Z → Prop,
            (Exists P counts ↔ ∃ c, c ∈ CLASS_NAMES ∧ P (Z.of_nat (length (jpgs c)))))
    as Hex.
  { intros P. unfold counts. rewrite Exists_fmap, Exists_exists. done. }
  assert (∀ l : list string, Z.of_nat (length l) = 0 ↔ l = []) as Hnil.
  { intros l. destruct l; simpl; split; try done; lia. }
  destruct (comprehension _ counts) as [ws|e].
  - destruct Hc as [Hall Hlen]. split_and!.
    + split; [done|]. intros (c & Hc & Hj). exfalso.
      apply (proj1 (Forall_forall _ _) Hall (Z.of_nat (length (jpgs c)))).
      * unfold counts. apply list_elem_of_fmap. by exists c.
      * by apply Hnil.
    + split; [|done]. intros _ c Hc Hj.
      apply (proj1 (Forall_forall _ _) Hall (Z.of_nat (length (jpgs c)))).
      * unfold counts. apply list_elem_of_fmap. by exists c.
      * by apply Hnil.
    + intros ? [= <-]. by rewrite length_fmap, Hlen.
  - destruct Hc as [-> Hsome]. apply Hex in Hsome as (c & Hc & Hz%Hnil). split_and!.
    + split; [|done]. intros _. by exists c.
    + split; [done|]. intros Hall. by destruct (Hall c Hc).
    + done.
Qed.
End ClassWeightFacts.

(** ** The ends of the range of the early-stopping settings *)

Section StoppingEdges.
  Context {F : Type} `{Number F} `{Torch F}.

Lemma streak_nonneg (accs : list F) : 0 ≤ streak accs.
Proof.
  induction accs as [|a accs IH] using rev_ind; [done|].
  rewrite streak_snoc. destruct (gt a _); lia.
Qed.

(** X20. A run of the epoch loop that returns.  With early stopping
    switched off it has run every configured epoch.  With early stopping
    on and a patience of 0 or less it has stopped after its first epoch,
    whether that epoch improved on the best accuracy or not, since the
    counter of epochs without improvement, which is never negative, has
    then already reached the patience. *)
Theorem early_stopping_edges cfg out device tl te sched model optimizer
    (p : Proc) l p' :
  let E := config.epochs (config.training cfg) in
  epoch_loop cfg out device tl te sched (range 1 (E + 1))
             (fresh_locals model optimizer) p = (Ok l, p') →
  (config.early_stopping (config.training cfg) = false →
   Z.of_nat (length (h_test_acc (l_history l))) = Z.max 0 E) ∧
  (config.early_stopping (config.training cfg) = true →
   config.patience (config.training cfg) ≤ 0 → 0 < E →
   length (h_test_acc (l_history l)) = 1%nat).
Proof.
  intros E Hrun. rewrite range_from_one in Hrun.
  apply (epoch_loop_run _ _ _ _ _ _ _ (fresh_locals model optimizer)) in Hrun
    as (_ & (more & Hmore & Hlen & Hpos) & _ & Hbefore & Hafter & _);
    [|apply tracks_fresh].
  simpl in Hmore, Hbefore, Hafter. subst more. split.
  - intros Hoff.
    destruct (decide (length (h_test_acc (l_history l)) < Z.to_nat E)%nat) as [Hlt|Hge].
    + apply Hafter in Hlt as [Hon _]. congruence.
    + lia.
  - intros Hon Hpat HE.
    assert (0 < length (h_test_acc (l_history l)))%nat as H1 by (apply Hpos; lia).
    destruct (decide (1 < length (h_test_acc (l_history l)))%nat) as [Hlt|Hge]; [|lia].
    exfalso. apply (Hbefore 1%nat); [lia|]. split; [done|].
    pose proof (streak_nonneg (take 1 (h_test_acc (l_history l)))). lia.
Qed.
End StoppingEdges.

(** ** The data directory [train] derives from the training path *)

Section DataDir.
  #[local] Arguments String.append !_ _ / : simpl nomatch.














End DataDir.

(** ** The theorems at work on the small instance *)

#[local] Existing Instance toy.Q_number.

Lemma net9_well_formed : models.well_formed toy.net9.
Proof. unfold models.well_formed. apply (bool_decide_unpack _). vm_compute. exact I. Defined.

Lemma Q_gt_irrefl (x : Q) : @gt Q toy.Q_number x x = false.
Proof.
  simpl. apply negb_false_iff, Qle_bool_iff, Qle_refl.
Defined.

Lemma unfreeze_last_blocks_exact_witness :
  let m := models.init toy.net9 true in
  let m' := (models.unfreeze_last_blocks 2 m).1 in
  (models.unfreeze_last_blocks 2 m).2 = Ok () ∧
  models.requires_grad m' 13%positive = true ∧
  models.requires_grad m' 11%positive = false ∧
  models.requires_grad m' 15%positive = true ∧
  (models.unfreeze_last_blocks 2 (models.unfreeze_last_blocks 5 m).1).1 = m'.
Proof.
  intros m m'.
  assert (∀ p, p ∈ models.classifier (models.backbone m) → models.requires_grad m p = true)
    as Hhead.
  { intros p Hp. simpl in Hp. apply elem_of_cons in Hp as [->|Hp]; [done|].
    apply elem_of_cons in Hp as [->|Hp]; [done|]. by apply elem_of_nil in Hp. }
  destruct (unfreeze_last_blocks_exact m 2 net9_well_formed Hhead)
    as (Hok & _ & Hblocks & Hcls & _ & Hforget); [simpl; lia|].
  split_and!.
  - exact Hok.
  - exact (Hblocks 8%nat [13; 14]%positive 13%positive eq_refl ltac:(by left)).
  - exact (Hblocks 6%nat [10; 11]%positive 11%positive eq_refl ltac:(right; by left)).
  - apply Hcls. by left.
  - apply Hforget. simpl. lia.
Defined.

Lemma head_stays_trainable_witness :
  models.requires_grad
    (foldl models.run_call (models.init toy.net9 true)
       [models.UnfreezeLast 2; models.Unfreeze; models.UnfreezeLast 40; models.Freeze])
    16%positive
  = true.
Proof.
  destruct (head_stays_trainable toy.net9 net9_well_formed) as (_ & Hrun & _).
  apply Hrun. right. by left.
Defined.

Lemma parameter_groups_partition_witness :
  models.get_parameter_groups (F := Q) (models.unfreeze_last_blocks 2 (models.init toy.net9 true)).1
    (1 # 1000) (1 # 10000) (1 # 100000)
  = Ok [ {| models.params := [12; 13; 14]%positive; models.lr := 1 # 10000;
            models.name := "last_blocks" |};
         {| models.params := [15; 16]%positive; models.lr := 1 # 1000;
            models.name := "classifier" |} ].
Proof.
  destruct (parameter_groups_partition (F := Q)
              (models.unfreeze_last_blocks 2 (models.init toy.net9 true)).1
              (1 # 1000) (1 # 10000) (1 # 100000) net9_well_formed)
    as (gs & -> & -> & _); [simpl; lia|].
  vm_compute. reflexivity.
Defined.

Lemma unfreeze_beyond_total_witness :
  let m := models.init toy.net9 true in
  (models.unfreeze_last_blocks 12 m).2 = Ok () ∧
  (models.unfreeze_last_blocks 12 m).1 = (models.unfreeze_last_blocks 9 m).1 ∧
  (models.unfreeze_last_blocks 20 m).2 = Raise (IndexError (-11)).
Proof.
  intros m.
  destruct (unfreeze_beyond_total (H0 := toy.scripted []) m 12 (toy.cfg 3 true 10 0)
              "out" cpu "" (toy.train_loader, toy.test_loader, None)
              (toy.boot [] (toy.cfg 3 true 10 0) 0 7 [])) as (Hle & _ & _); [simpl; lia|].
  destruct (unfreeze_beyond_total (H0 := toy.scripted []) m 20 (toy.cfg 3 true 10 0)
              "out" cpu "" (toy.train_loader, toy.test_loader, None)
              (toy.boot [] (toy.cfg 3 true 10 0) 0 7 [])) as (_ & Hgt & _); [simpl; lia|].
  destruct Hle as [H1 H2]; [simpl; lia|]. split_and!; [exact H1|exact H2|].
  rewrite Hgt by (simpl; lia). reflexivity.
Defined.

(** C4 as stated fails: with nine blocks, a count of ten is accepted. *)
Lemma unfreeze_beyond_total_accepted :
  ¬ (∀ (m : models.FoodVisionModel) (n : Z),
       Z.of_nat (length (models.features (models.backbone m))) < n →
       ∃ e, (models.unfreeze_last_blocks n m).2 = Raise e).
Proof.
  intros Hclaim.
  destruct (Hclaim (models.init toy.net9 true) 10) as [e He]; [simpl; lia|].
  vm_compute in He. discriminate He.
Qed.

Lemma returned_value {A B} (d : A) (r : result A * B) :
  returned r.1 = true → r = (Ok (value d r.1), r.2).
Proof. destruct r as [[a|e] b]; [reflexivity|discriminate]. Qed.

Lemma returned_pair {A1 A2 B} (d : A1 * A2) (r : result (A1 * A2) * B) :
  returned r.1 = true → r = (Ok ((value d r.1).1, (value d r.1).2), r.2).
Proof. destruct r as [[[a1 a2]|e] b]; [reflexivity|discriminate]. Qed.

Lemma returned_triple {A1 A2 A3 B} (d : A1 * A2 * A3) (r : result (A1 * A2 * A3) * B) :
  returned r.1 = true →
  r = (Ok ((value d r.1).1.1, (value d r.1).1.2, (value d r.1).2), r.2).
Proof. destruct r as [[[[a1 a2] a3]|e] b]; [reflexivity|discriminate]. Qed.

Lemma returned_quadruple {A1 A2 A3 A4 B} (d : A1 * A2 * A3 * A4)
    (r : result (A1 * A2 * A3 * A4) * B) :
  returned r.1 = true →
  r = (Ok ((value d r.1).1.1.1, (value d r.1).1.1.2, (value d r.1).1.2, (value d r.1).2),
       r.2).
Proof. destruct r as [[[[[a1 a2] a3] a4]|e] b]; [reflexivity|discriminate]. Qed.

Lemma checkpoint_iff_strict_improvement_witness :
  (∀ x : Q, gt x x = false) ∧
  ∃ l p', toy.loop5 [] = (Ok l, p') ∧
    h_test_acc (l_history l) = [70; 72; 71; 71; 71]%Q ∧
    l_best_test_acc l = 72%Q ∧ l_best_epoch l = 2 ∧
    checkpoint_epochs (writes p') = [1; 2].
Proof.
  split; [exact Q_gt_irrefl|].
  destruct (checkpoint_iff_strict_improvement (H0 := toy.scripted toy.script5)
              (toy.cfg 3 true 10 0) "out" cpu toy.train_loader toy.test_loader false
              Q_gt_irrefl) as [_ Hrun].

assert (returned (toy.loop5 []).1 = true) as Hok by (vm_compute; reflexivity).

pose proof (returned_value (fresh_locals (toy.model0 toy.script5) 0%nat)
              (toy.loop5 []) Hok) as H5.

eexists _, _. 

split; [exact H5|].

apply Hrun in H5 as (Hbest & Hepoch & Hw).

assert (h_test_acc (l_history (value (fresh_locals (toy.model0 toy.script5) 0%nat)
                                 (toy.loop5 []).1)) = [70; 72; 71; 71; 71]%Q) as Hacc
  by (vm_compute; reflexivity).

rewrite Hbest, Hepoch, Hw, Hacc.

split_and!; [reflexivity| | |]; vm_compute; reflexivity.
Defined.

Lemma returned_Ok {A B} (r : result A * B) :
  returned r.1 = true → ∃ a, r = (Ok a, r.2).
Proof. destruct r as [[a|e] b]; [by exists a|discriminate]. Qed.

Lemma early_stop_exact_witness :
  ∃ l p', toy.loop5 [] = (Ok l, p') ∧
    h_test_acc (l_history l) = [70; 72; 71; 71; 71]%Q ∧
    l_epoch l = Some 5 ∧
    triggered (toy.cfg 3 true 10 0) (h_test_acc (l_history l)) ∧
    streak (h_test_acc (l_history l)) = 3 ∧
    ¬ triggered (toy.cfg 3 true 10 0) (take 4 (h_test_acc (l_history l))).
Proof.
  assert (returned (toy.loop5 []).1 = true) as Hok by (vm_compute; reflexivity).
  assert (match (toy.loop5 []).1 with
          | Ok l => h_test_acc (l_history l)
          | Raise _ => []
          end = [70; 72; 71; 71; 71]%Q) as Hacc by (vm_compute; reflexivity).
  destruct (returned_Ok _ Hok) as [l H5].
  rewrite H5 in Hacc. 
  cbv beta iota delta [fst] in Hacc.
  exists l, (toy.loop5 []).2. split; [exact H5|]. split; [exact Hacc|].
  pose proof (early_stop_exact (H0 := toy.scripted toy.script5)
                (toy.cfg 3 true 10 0) "out" cpu toy.train_loader toy.test_loader false
                (toy.model0 toy.script5) 0%nat
                (toy.boot toy.script5 (toy.cfg 3 true 10 0) 0 7 []) _ _ H5) as H.
  cbv zeta in H. 
  rewrite Hacc in H.
  destruct H as (_ & Hep & _ & _ & Hbefore & Hafter & Hexact).
  assert (triggered (toy.cfg 3 true 10 0) [70; 72; 71; 71; 71]%Q) as Htrig.
  { apply Hafter. vm_compute. reflexivity. }
  rewrite Hacc. split_and!.
  - destruct Hep as [_ Hep]; [vm_compute; reflexivity|]. exact Hep.
  - exact Htrig.
  - apply Hexact; [vm_compute; discriminate|exact Htrig].
  - apply (Hbefore 4%nat). vm_compute. split; repeat constructor.
Defined.

Lemma checkpoint_written_in_place_witness :
  ∃ p' ck,
    epoch_loop (H0 := toy.scripted toy.script5) (toy.cfg 3 true 10 0) "out" cpu
      toy.train_loader toy.test_loader false [1; 2]
      (fresh_locals (toy.model0 toy.script5) 0%nat)
      (toy.boot toy.script5 (toy.cfg 3 true 10 0) 0 7 [Some (WriteFails 3)])
    = (Raise (OSError "out/best_model.pth"), p') ∧
    fs p' !! "out/best_model.pth" = Some (Torn (Pth ck) 3) ∧ ck_epoch ck = 1.
Proof.
  pose proof (checkpoint_written_in_place (H0 := toy.scripted toy.script5)
                (toy.cfg 3 true 10 0) "out" cpu toy.train_loader toy.test_loader false
                1 [2] (fresh_locals (toy.model0 toy.script5) 0%nat)
                (toy.boot toy.script5 (toy.cfg 3 true 10 0) 0 7 [Some (WriteFails 3)]))
    as H.
  cbv zeta in H.
  edestruct H as (p' & Hloop & Hfs).
  - apply (returned_quadruple (0%Q, 0%Q, toy.model0 toy.script5, 0%nat)).
    vm_compute. reflexivity.
  - apply (returned_pair (0%Q, 0%Q)). 
    vm_compute. reflexivity.
  - vm_compute. reflexivity.
  - eexists p', _. split; [exact Hloop|]. split.
    + rewrite Hfs. apply lookup_insert_eq.
    + reflexivity.
Defined.

Lemma raised_with {A B} (e : exn) (r : result A * B) : r.1 = Raise e → r = (Raise e, r.2).
Proof. destruct r as [[a|e'] b]; simpl; [discriminate|by intros ->]. Qed.

(** C5 as stated fails: a write that breaks off leaves the first bytes of
    the new checkpoint where the previous one was. *)
Lemma checkpoint_write_not_atomic :
  ¬ (∀ (p : Proc (H0 := toy.scripted toy.script5)) ck path prev e p',
       fs p !! path = Some (Intact prev) →
       torch_save ck path p = (Raise e, p') →
       fs p' !! path = Some (Intact prev)).
Proof.
  intros Hclaim.
  pose (ck := λ e a, @Build_CheckpointData Q (toy.scripted toy.script5)
                       e 2%nat 2%nat a 0%Q (toy.cfg 3 true 10 0)).
  pose (p := (torch_save (ck 1 70%Q) "out/best_model.pth"
                (toy.boot toy.script5 (toy.cfg 3 true 10 0) 0 7
                   [None; Some (WriteFails 3)])).2).
  assert (match fs (torch_save (ck 2 72%Q) "out/best_model.pth" p).2
                  !! "out/best_model.pth" with
          | Some (Intact _) => false
          | _ => true
          end = true) as Htorn by (vm_compute; reflexivity).
  rewrite (Hclaim p (ck 2 72%Q) "out/best_model.pth" (Pth (ck 1 70%Q))
             (OSError "out/best_model.pth")
             (torch_save (ck 2 72%Q) "out/best_model.pth" p).2) in Htorn.
  - discriminate Htorn.
  - vm_compute. reflexivity.
  - apply raised_with. vm_compute. reflexivity.
Qed.

Lemma Q_float_order : float_order (F := Q).
Proof.
  split_and!.
  - intros x y Hxy. simpl in *. apply negb_false_iff, Qle_bool_iff.
    apply negb_true_iff, not_true_iff_false in Hxy. rewrite Qle_bool_iff in Hxy.
    apply Qlt_le_weak, Qnot_le_lt, Hxy.
  - done.
  - intros x y b _ _ Hxb Hyb. simpl in *. apply negb_true_iff, not_true_iff_false.
    apply negb_true_iff, not_true_iff_false in Hxb.
    apply negb_false_iff in Hyb. rewrite Qle_bool_iff in *.
    intros Hxy. apply Hxb. by apply Qle_trans with y.
Qed.

Lemma epoch_aggregates_witness :
  ∃ p', evaluate (H0 := toy.scripted toy.script5) (toy.model0 toy.script5)
          toy.mixed_loader cpu (toy.boot toy.script5 (toy.cfg 3 true 10 0) 0 7 [])
        = (Ok (29 # 64, 80%Q), p').
Proof.
  pose proof (epoch_aggregates (H0 := toy.scripted toy.script5) (toy.model0 toy.script5)
                toy.mixed_loader 0%nat cpu 1 10
                (toy.boot toy.script5 (toy.cfg 3 true 10 0) 0 7 [])) as H.
  cbv zeta in H.
  destruct H as [_ [p' Hev]].
  - exact Q_float_order.
  - vm_compute. reflexivity.
  - vm_compute. discriminate.
  - apply (bool_decide_unpack _). vm_compute. exact I.
  - exists p'. rewrite Hev. 
    apply (f_equal (λ x, (Ok x, p'))).
    vm_compute. reflexivity.
Defined.

Lemma returned_result {A} (r : result A) : returned r = true → ∃ a, r = Ok a.
Proof. destruct r as [a|e]; [by exists a|discriminate]. Qed.

Lemma scripted_deterministic script : deterministic_kernels (H0 := toy.scripted script).
Proof.
  split.
  - intros c h h' tr dev w x r Hd Hb. simpl. unfold toy.toy_forward.
    rewrite Hd, Hb. reflexivity.
  - intros. reflexivity.
Qed.

Lemma cfg_yaml_holds folder c h seed0 faults :
  fs (toy.boot_on folder toy.script5 c h seed0 faults) !! "cfg.yaml"
  = Some (Intact (Yaml c)).
Proof. apply lookup_singleton_eq. Qed.

Lemma seeded_runs_agree_witness :
  ∃ m h me1 me2,
    (train (H0 := toy.scripted toy.script5) "cfg.yaml" (Some "out") (Some cpu)
       (toy.boot toy.script5 (toy.cfg 3 true 10 0) 0 7 [])).1 = Ok (m, h, me1) ∧
    (train (H0 := toy.scripted toy.script5) "cfg.yaml" (Some "out") (Some cpu)
       (toy.boot toy.script5 (toy.cfg 3 true 10 0) 5 99 [])).1 = Ok (m, h, me2) ∧
    h_test_acc h = [70; 72; 71; 71; 71]%Q ∧
    best_epoch me1 = 2 ∧ best_epoch me2 = 2.
Proof.
  pose proof (seeded_runs_agree (H0 := toy.scripted toy.script5)
                "cfg.yaml" (Some "out") (Some cpu)
                (toy.boot toy.script5 (toy.cfg 3 true 10 0) 0 7 [])
                (toy.boot toy.script5 (toy.cfg 3 true 10 0) 5 99 [])
                (scripted_deterministic _)) as H.
  assert (returned (train (H0 := toy.scripted toy.script5) "cfg.yaml" (Some "out")
                      (Some cpu) (toy.boot toy.script5 (toy.cfg 3 true 10 0) 0 7 [])).1
          = true) as Hok1 by (vm_compute; reflexivity).
  assert (returned (train (H0 := toy.scripted toy.script5) "cfg.yaml" (Some "out")
                      (Some cpu) (toy.boot toy.script5 (toy.cfg 3 true 10 0) 5 99 [])).1
          = true) as Hok2 by (vm_compute; reflexivity).
  assert (match (train (H0 := toy.scripted toy.script5) "cfg.yaml" (Some "out")
                   (Some cpu) (toy.boot toy.script5 (toy.cfg 3 true 10 0) 0 7 [])).1 with
          | Ok (_, h, me) => (h_test_acc h, best_epoch me)
          | Raise _ => ([], 0)
          end = ([70; 72; 71; 71; 71]%Q, 2)) as Hrun by (vm_compute; reflexivity).
  
destruct (returned_result _ Hok1) as [[[m1 h1] me1] H1].
destruct (returned_result _ Hok2) as [[[m2 h2] me2] H2].
  
rewrite H1 in Hrun. rewrite H1, H2 in H.
  
destruct H as (<- & <- & _ & Hbest & _).
- repeat split.
- intros c Hc. rewrite (cfg_yaml_holds toy.train_folder) in Hc.
  injection Hc as <-. reflexivity.
- injection Hrun as Hacc Hb.
  exists m1, h1, me1, me2. split_and!; [exact H1|exact H2|exact Hacc|exact Hb|].
  rewrite <-Hbest. exact Hb.
Defined.

Lemma validation_split_unused_witness :
  toy.train_folder ≠ toy.train_folder' ∧
  ∃ r q q',
    train (H0 := toy.scripted toy.script5) "cfg.yaml" (Some "out") (Some cpu)
      (toy.boot_on toy.train_folder toy.script5 toy.cfg_split 0 7 []) = (Ok r, q) ∧
    train (H0 := toy.scripted toy.script5) "cfg.yaml" (Some "out") (Some cpu)
      (toy.boot_on toy.train_folder' toy.script5 toy.cfg_split 0 7 []) = (Ok r, q') ∧
    fs q = fs q' ∧ writes q = writes q' ∧
    h_test_acc r.1.2 = [70; 70; 70; 72; 72; 71; 71]%Q.
Proof.
  split.
  { intros Heq. apply (f_equal (λ l, l !! 35%nat)) in Heq. vm_compute in Heq.
    discriminate Heq. }
  pose proof (validation_split_unused (H0 := toy.scripted toy.script5)
                "cfg.yaml" (Some "out") (Some cpu) toy.cfg_split
                (toy.boot_on toy.train_folder toy.script5 toy.cfg_split 0 7 [])
                (toy.boot_on toy.train_folder' toy.script5 toy.cfg_split 0 7 [])
                (cfg_yaml_holds _ _ _ _ _)) as H.
  assert (returned (train (H0 := toy.scripted toy.script5) "cfg.yaml" (Some "out")
                      (Some cpu)
                      (toy.boot_on toy.train_folder toy.script5 toy.cfg_split 0 7 [])).1
          = true) as Hok1 by (vm_compute; reflexivity).
  assert (returned (train (H0 := toy.scripted toy.script5) "cfg.yaml" (Some "out")
                      (Some cpu)
                      (toy.boot_on toy.train_folder' toy.script5 toy.cfg_split 0 7 [])).1
          = true) as Hok2 by (vm_compute; reflexivity).
  assert (match (train (H0 := toy.scripted toy.script5) "cfg.yaml" (Some "out")
                   (Some cpu)
                   (toy.boot_on toy.train_folder toy.script5 toy.cfg_split 0 7 [])).1 with
          | Ok r => h_test_acc r.1.2
          | Raise _ => []
          end = [70; 70; 70; 72; 72; 71; 71]%Q) as Hrun by (vm_compute; reflexivity).
  
destruct (returned_Ok _ Hok1) as [r1 H1].
destruct (returned_Ok _ Hok2) as [r2 H2].
  
rewrite H1 in Hrun. rewrite H1, H2 in H.
  
destruct H as (_ & <- & Hfs & Hw).
- repeat split.
- vm_compute. repeat split.
- eexists r1, _, _. split_and!; [exact H1|exact H2|exact Hfs|exact Hw|exact Hrun].
Defined.

(** ** The further facts at work on the small instance *)

Lemma parameter_groups_end_with_head_witness :
  ∃ gs,
    models.get_parameter_groups (F := Q)
      (foldl models.run_call (models.init toy.net9 true) [models.UnfreezeLast 2])
      (1 # 1000) (1 # 10000) (1 # 100000)
    = Ok (gs ++ [ {| models.params := [15; 16]%positive; models.lr := 1 # 1000;
                     models.name := "classifier" |} ]) ∧
    Forall (λ g, models.name g ≠ "classifier") gs.
Proof.
  apply (parameter_groups_end_with_head (F := Q) toy.net9 true [models.UnfreezeLast 2]
           (1 # 1000) (1 # 10000) (1 # 100000));
    [exact net9_well_formed|simpl; lia|discriminate].
Defined.

Lemma train_without_epochs_witness :
  ∃ p',
    train_on (H0 := toy.scripted []) (toy.cfg 3 true 0 0) "out" cpu "0123abc"
      (toy.train_loader, toy.test_loader, None) (toy.boot [] (toy.cfg 3 true 0 0) 0 7 [])
    = (Raise (NameError "epoch"), p') ∧
    writes p' = [("out/training_history.json", HistoryJson empty_history)] ∧
    fs p' !! "out/training_history.json" = Some (Intact (HistoryJson empty_history)).
Proof.
  destruct (train_without_epochs (H0 := toy.scripted []) (toy.cfg 3 true 0 0) "out" cpu
              "0123abc" (toy.train_loader, toy.test_loader, None)
              (toy.boot [] (toy.cfg 3 true 0 0) 0 7 []))
    as (p' & Hrun & Hw & Hfs);
    [simpl; lia|simpl; lia|reflexivity|discriminate|reflexivity|].
  exists p'. split; [exact Hrun|]. split; [exact Hw|].
  rewrite Hfs. apply lookup_insert_eq.
Defined.

Lemma empty_loader_divides_by_zero_witness :
  let nothing : DataLoader nat :=
    {| dataset := []; transform := CenterCropPipeline 224; loader_batch_size := 32;
       shuffle := false; loader_num_workers := 4; pin_memory := true |} in
  let p := toy.boot toy.script5 (toy.cfg 3 true 10 0) 0 7 [] in
  (∃ p', train_one_epoch (H0 := toy.scripted toy.script5) (toy.model0 toy.script5)
           nothing 0%nat cpu 1 10 p = (Raise ZeroDivisionError, p') ∧ untouched p p') ∧
  (∃ p', evaluate (H0 := toy.scripted toy.script5) (toy.model0 toy.script5) nothing cpu p
         = (Raise ZeroDivisionError, p') ∧ untouched p p').
Proof.
  intros nothing p.
  destruct (empty_loader_divides_by_zero (H0 := toy.scripted toy.script5)
              (toy.model0 toy.script5) nothing 0%nat cpu 1 10 p) as (Htr & Hev & _);
    [reflexivity|].
  split; [exact Htr|exact Hev].
Defined.

Lemma metrics_summarise_history_witness :
  ∃ m h me p',
    train_on (H0 := toy.scripted toy.script5) (toy.cfg 3 true 10 0) "out" cpu "0123abc"
      (toy.train_loader, toy.test_loader, None)
      (toy.boot toy.script5 (toy.cfg 3 true 10 0) 0 7 [])
    = (Ok (m, h, me), p') ∧
    h_test_acc h = [70; 72; 71; 71; 71]%Q ∧
    total_epochs me = 5 ∧ best_epoch me = 2 ∧ best_test_acc me = 72%Q ∧
    final_test_acc me = 71%Q.
Proof.
  assert (returned (train_on (H0 := toy.scripted toy.script5) (toy.cfg 3 true 10 0) "out"
                      cpu "0123abc" (toy.train_loader, toy.test_loader, None)
                      (toy.boot toy.script5 (toy.cfg 3 true 10 0) 0 7 [])).1 = true)
    as Hok by (vm_compute; reflexivity).
  assert (match (train_on (H0 := toy.scripted toy.script5) (toy.cfg 3 true 10 0) "out"
                   cpu "0123abc" (toy.train_loader, toy.test_loader, None)
                   (toy.boot toy.script5 (toy.cfg 3 true 10 0) 0 7 [])).1 with
          | Ok r => h_test_acc r.1.2
          | Raise _ => []
          end = [70; 72; 71; 71; 71]%Q) as Hacc by (vm_compute; reflexivity).
  destruct (returned_Ok _ Hok) as [[[m h] me] Hrun].
  rewrite Hrun in Hacc. cbv beta iota delta [fst snd] in Hacc.
  pose proof (metrics_summarise_history (H0 := toy.scripted toy.script5) _ _ _ _ _ _ _ _ _ _
                Hrun) as H.
  cbv zeta in H. rewrite Hacc in H.
  destruct H as (Htot & _ & _ & _ & _ & _ & Hlast & Hbest & Hbe & _).
  eexists m, h, me, _. split; [exact Hrun|]. split; [exact Hacc|].
  rewrite Htot, Hbe, Hbest. split_and!; [reflexivity|vm_compute; reflexivity
                                         |vm_compute; reflexivity|].
  injection Hlast as <-. reflexivity.
Defined.

Lemma train_leaves_what_it_returns_witness :
  ∃ m h me p',
    train (H0 := toy.scripted toy.script5) "cfg.yaml" (Some "out") (Some cpu)
      (toy.boot toy.script5 (toy.cfg 3 true 10 0) 0 7 []) = (Ok (m, h, me), p') ∧
    best_epoch me = 2 ∧
    fs p' !! "out/config.yaml" = Some (Intact (Yaml (toy.cfg 3 true 10 0))) ∧
    fs p' !! "out/training_history.json" = Some (Intact (HistoryJson h)) ∧
    fs p' !! "out/metrics.json" = Some (Intact (MetricsJson me)) ∧
    (∃ ck, fs p' !! "out/best_model.pth" = Some (Intact (Pth ck)) ∧ ck_epoch ck = 2) ∧
    fs p' !! "cfg.yaml" = Some (Intact (Yaml (toy.cfg 3 true 10 0))).
Proof.
  assert (returned (train (H0 := toy.scripted toy.script5) "cfg.yaml" (Some "out")
                      (Some cpu) (toy.boot toy.script5 (toy.cfg 3 true 10 0) 0 7 [])).1
          = true) as Hok by (vm_compute; reflexivity).
  assert (match (train (H0 := toy.scripted toy.script5) "cfg.yaml" (Some "out")
                   (Some cpu) (toy.boot toy.script5 (toy.cfg 3 true 10 0) 0 7 [])).1 with
          | Ok r => best_epoch r.2
          | Raise _ => 0
          end = 2) as Hbest by (vm_compute; reflexivity).
  destruct (returned_Ok _ Hok) as [[[m h] me] Hrun].
  rewrite Hrun in Hbest. cbv beta iota delta [fst snd] in Hbest.
  destruct (train_leaves_what_it_returns (H0 := toy.scripted toy.script5) _ _ _ _ _ _ _ _
              Hrun) as (cfg & Hcfg & H).
  rewrite (cfg_yaml_holds toy.train_folder) in Hcfg. injection Hcfg as <-.
  cbv zeta in H. rewrite Hbest in H.
  destruct H as (Hc & Hh & Hm & Hck & Hrest & _).
  eexists m, h, me, _. split; [exact Hrun|]. split; [exact Hbest|].
  split; [exact Hc|]. split; [exact Hh|]. split; [exact Hm|]. split.
  - destruct Hck as (ck & Hck & He & _). exists ck. split; [exact Hck|exact He].
  - rewrite Hrest; [apply lookup_singleton_eq|].
    intros Hin. repeat (apply elem_of_cons in Hin as [Hin|Hin]; [discriminate Hin|]).
    by apply elem_of_nil in Hin.
Defined.

Lemma returned_with_validation {A B C P} (r : result (A * B * option C) * P) :
  with_validation r.1 = true → ∃ a b c, r = (Ok (a, b, Some c), r.2).
Proof.
  destruct r as [[[[a b] [c|]]|e] p]; [by exists a, b, c|discriminate..].
Qed.

Lemma validation_loader_uses_training_pipeline_witness :
  ∃ tl te vl p',
    data.create_dataloaders (H0 := toy.scripted toy.script5) "proj/data/processed" 32
      "enhanced" 224 4 true (1 # 5)
      (toy.boot_on toy.train_folder toy.script5 toy.cfg_split 0 7 [])
    = (Ok (tl, te, Some vl), p') ∧
    transform vl = AugmentPipeline 224 ∧ shuffle vl = false ∧
    transform te = CenterCropPipeline 224 ∧ dataset te = toy.test_folder.
Proof.
  assert (with_validation
            (data.create_dataloaders (H0 := toy.scripted toy.script5)
               "proj/data/processed" 32 "enhanced" 224 4 true (1 # 5)
               (toy.boot_on toy.train_folder toy.script5 toy.cfg_split 0 7 [])).1
          = true) as Hok by (vm_compute; reflexivity).
  destruct (returned_with_validation _ Hok) as (tl & te & vl & Hrun).
  destruct (validation_loader_uses_training_pipeline (H0 := toy.scripted toy.script5)
              _ _ _ _ _ _ _ _ _ _ _ _ Hrun)
    as (Hte & _ & Htt & _ & Htl & _ & _ & Hval & _).
  destruct (Hval vl eq_refl) as [Hsh Htr].
  eexists tl, te, vl, _. split; [exact Hrun|].
  rewrite Htr, Htl. split; [reflexivity|]. split; [exact Hsh|]. split; [exact Htt|].
  change (image_folders _ !! _) with
    (({[ "proj/data/processed/train" := toy.train_folder;
         "proj/data/processed/test" := toy.test_folder ]} : gmap string (list (nat * Z)))
       !! "proj/data/processed/test") in Hte.
  rewrite lookup_insert_ne, lookup_singleton_eq in Hte by discriminate.
  by injection Hte.
Defined.

Lemma create_dataloaders_ignores_seed_witness :
  let p := toy.boot_on toy.train_folder toy.script5 toy.cfg_split 0 7 [] in
  let p' := toy.boot_on toy.train_folder toy.script5 toy.cfg_split 3 99 [] in
  (data.create_dataloaders (H0 := toy.scripted toy.script5) "proj/data/processed" 32
     "basic" 224 4 true (1 # 5) p).1
  = (data.create_dataloaders (H0 := toy.scripted toy.script5) "proj/data/processed" 32
       "basic" 224 4 true (1 # 5) p').1 ∧
  (data.create_dataloaders (H0 := toy.scripted toy.script5) "proj/data/processed" 32
     "basic" 224 4 true (1 # 5) p).2 = p.
Proof.
  intros p p'.
  destruct (create_dataloaders_ignores_seed (H0 := toy.scripted toy.script5)
              "proj/data/processed" 32 "basic" 224 4 true (1 # 5) p p')
    as (H1 & H2 & _); [reflexivity|].
  split; [exact H1|exact H2].
Defined.

Lemma validation_split_partitions_witness :
  ∃ tl te vl p',
    data.create_dataloaders (H0 := toy.scripted toy.script5) "proj/data/processed" 32
      "basic" 224 4 true (1 # 5)
      (toy.boot_on toy.train_folder toy.script5 toy.cfg_split 0 7 [])
    = (Ok (tl, te, Some vl), p') ∧
    dataset tl ++ dataset vl ≡ₚ toy.train_folder ∧
    length (dataset tl) = 32%nat ∧ length (dataset vl) = 8%nat.
Proof.
  assert (with_validation
            (data.create_dataloaders (H0 := toy.scripted toy.script5)
               "proj/data/processed" 32 "basic" 224 4 true (1 # 5)
               (toy.boot_on toy.train_folder toy.script5 toy.cfg_split 0 7 [])).1
          = true) as Hok by (vm_compute; reflexivity).
  destruct (returned_with_validation _ Hok) as (tl & te & vl & Hrun).
  destruct (validation_split_partitions (H0 := toy.scripted toy.script5)
              _ _ _ _ _ _ _ _ _ _ _ _ toy.train_folder Hrun) as (Hperm & Htl & Hvl).
  - apply lookup_insert_eq.
  - reflexivity.
  - vm_compute. split; discriminate.
  - eexists tl, te, vl, _. split; [exact Hrun|]. split; [exact Hperm|].
    rewrite Htl, Hvl. split; vm_compute; reflexivity.
Defined.

Lemma average_meter_tracks_witness :
  let m' := utils.updates (F := Q) utils.reset [((1 # 2)%Q, 32); ((1 # 4)%Q, 8)] in
  utils.count m' = 40 ∧ utils.sum m' = 18%Q ∧ utils.avg m' = (9 # 20)%Q ∧
  utils.val m' = (1 # 4)%Q.
Proof.
  intros m'.
  destruct (average_meter_tracks (F := Q) utils.reset [((1 # 2)%Q, 32); ((1 # 4)%Q, 8)])
    as (_ & Hc & _ & Hs & Ha & Hv).
  - simpl. lia.
  - repeat constructor.
  - discriminate.
  - fold m' in Hc, Hs, Ha, Hv. rewrite Ha, Hs, Hc.
    split_and!; [vm_compute; reflexivity..|].
    apply (inj Some). rewrite <-Hv. reflexivity.
Defined.

Lemma count_parameters_after_unfreeze_witness :
  let m := models.init toy.net9 true in
  utils.count_parameters Pos.to_nat (models.unfreeze_last_blocks 2 m).1 true = 70%nat ∧
  utils.count_parameters Pos.to_nat (models.unfreeze_last_blocks 2 m).1 false = 136%nat ∧
  utils.count_parameters Pos.to_nat (models.freeze_backbone m) true = 31%nat.
Proof.
  intros m.
  assert (∀ p, p ∈ models.classifier (models.backbone m) → models.requires_grad m p = true)
    as Hhead.
  { intros p Hp. simpl in Hp. apply elem_of_cons in Hp as [->|Hp]; [done|].
    apply elem_of_cons in Hp as [->|Hp]; [done|]. by apply elem_of_nil in Hp. }
  destruct (count_parameters_after_unfreeze Pos.to_nat m 2 net9_well_formed Hhead)
    as (_ & _ & Hall & Htr & Hfr); [simpl; lia|].
  change (Z.of_nat 2) with 2 in Hall, Htr.
  rewrite Hall, Htr, Hfr. split_and!; vm_compute; reflexivity.
Defined.

Lemma early_stopping_edges_witness :
  ∃ l p',
    epoch_loop (H0 := toy.scripted toy.script5) (toy.cfg 0 true 10 0) "out" cpu
      toy.train_loader toy.test_loader false (range 1 (10 + 1))
      (fresh_locals (toy.model0 toy.script5) 0%nat)
      (toy.boot toy.script5 (toy.cfg 0 true 10 0) 0 7 []) = (Ok l, p') ∧
    length (h_test_acc (l_history l)) = 1%nat.
Proof.
  assert (returned (epoch_loop (H0 := toy.scripted toy.script5) (toy.cfg 0 true 10 0)
                      "out" cpu toy.train_loader toy.test_loader false (range 1 (10 + 1))
                      (fresh_locals (toy.model0 toy.script5) 0%nat)
                      (toy.boot toy.script5 (toy.cfg 0 true 10 0) 0 7 [])).1 = true)
    as Hok by (vm_compute; reflexivity).
  destruct (returned_Ok _ Hok) as [l Hrun].
  destruct (early_stopping_edges (H0 := toy.scripted toy.script5) (toy.cfg 0 true 10 0)
              _ _ _ _ _ _ _ _ _ _ Hrun) as [_ Hstop].
  eexists l, _. split; [exact Hrun|].
  apply Hstop; [reflexivity|simpl; lia|simpl; lia].
Defined.

